(** * ai-librarian: a document-chat pipeline, embedded and verified

  The development follows the TypeScript sources:

  - [src/services/openaiService.ts]  (class [OpenAIService], first version in the file)
  - [src/services/vectorStore.ts]    (class [VectorStoreService])
  - [src/components/ChatInterface.tsx] (component [ChatInterface])
  - [src/components/FileUpload.tsx]  ([removeFile])
  - the index page (its state, its handlers and what it renders) and the
    API-key form ([handleSubmit])

  Asynchronous methods become computations in a small monad [Async] that
  threads the receiver object, collects the calls made to the hosted
  services and may reject.  Everything that belongs to the browser or to a
  third-party package (file reading, pdf.js, mammoth, PizZip, the embeddings
  and completion endpoints, the text splitter) is a field of the record
  [Platform]; the methods are parametric in it.  JavaScript strings are
  modelled by [string], i.e. sequences of code units below 256.  Calls to
  [console.log] and [console.error] have no effect on any value and are
  left out. *)

From Stdlib Require Import String Ascii List ZArith Lia Bool Arith PeanoNat.
From Stdlib Require Import DecimalString.
Import ListNotations.
Open Scope list_scope.
Open Scope string_scope.

(** ** JavaScript strings *)

Module JS.

Definition nl : string := String (ascii_of_nat 10) EmptyString.

(** Truthiness of a string: only the empty string is falsy. *)
Definition truthy (s : string) : bool :=
  match s with EmptyString => false | String _ _ => true end.

(** [a || b] on strings. *)
Definition or_else (a b : string) : string := if truthy a then a else b.

(** [a || b] where [a] may be [null] or [undefined]. *)
Definition opt_or_else (a : option string) (b : string) : string :=
  match a with Some s => or_else s b | None => b end.

(** [xs.join(sep)] *)
Definition join (sep : string) (xs : list string) : string := String.concat sep xs.

(** Array elements that are [undefined] are joined as the empty string. *)
Definition join_opt (sep : string) (xs : list (option string)) : string :=
  join sep (map (fun o => match o with Some s => s | None => EmptyString end) xs).

Fixpoint rev_acc (s acc : string) : string :=
  match s with
  | EmptyString => acc
  | String c s' => rev_acc s' (String c acc)
  end.

Definition rev (s : string) : string := rev_acc s EmptyString.

(** [s.startsWith(p)] and [s.endsWith(p)] *)
Definition startsWith (s p : string) : bool := String.prefix p s.
Definition endsWith (s p : string) : bool := String.prefix (rev p) (rev s).

(** White space and line terminators removed by [trim], among the code
    units below 256: TAB, LF, VT, FF, CR, SP and NBSP. *)
Definition isWhiteSpace (c : ascii) : bool :=
  let n := nat_of_ascii c in
  (((9 <=? n) && (n <=? 13)) || (n =? 32) || (n =? 160))%nat.

Fixpoint trimStart (s : string) : string :=
  match s with
  | EmptyString => EmptyString
  | String c s' => if isWhiteSpace c then trimStart s' else s
  end.

Definition trimEnd (s : string) : string := rev (trimStart (rev s)).

(** [s.trim()] *)
Definition trim (s : string) : string := trimEnd (trimStart s).

(** Longest prefix of [s] whose characters satisfy [p], and the rest. *)
Fixpoint span (p : ascii -> bool) (s : string) : string * string :=
  match s with
  | EmptyString => (EmptyString, EmptyString)
  | String c s' =>
      if p c then let '(a, b) := span p s' in (String c a, b)
      else (EmptyString, s)
  end.

Fixpoint drop (n : nat) (s : string) : string :=
  match n, s with
  | S n', String _ s' => drop n' s'
  | _, _ => s
  end.

(** Decimal notation of an integer, as in a template literal. *)
Definition ofZ (z : Z) : string := NilZero.string_of_int (Z.to_int z).

End JS.

(** ** The two regular expressions of [extractPptxText] *)

Module Pptx.

Definition gt : ascii := ascii_of_nat 62.  (* the character > *)
Definition lt : ascii := ascii_of_nat 60.  (* the character < *)

Definition not_gt (c : ascii) : bool := negb (Ascii.eqb c gt).
Definition not_lt (c : ascii) : bool := negb (Ascii.eqb c lt).

(** One match, anchored at the start of [s], of the pattern that finds
    the text runs of a slide: the four characters [<a:t], then any
    characters other than [>], then [>], then any characters other than
    [<] (the captured text), then [</a:t>].  Each starred class is
    followed by the one character it excludes, so the greedy match is
    the only one. *)
Definition matchRunAt (s : string) : option string :=
  if JS.startsWith s "<a:t" then
    let '(attrs, r1) := JS.span not_gt (JS.drop 4 s) in
    match r1 with
    | String _ r1' =>
        let '(txt, r2) := JS.span not_lt r1' in
        if JS.startsWith r2 "</a:t>"
        then Some ("<a:t" ++ attrs ++ ">" ++ txt ++ "</a:t>")
        else None
    | EmptyString => None
    end
  else None.

(** Left-to-right scan for the non-overlapping matches; [skip] counts the
    characters still covered by the match found last. *)
Fixpoint scanRuns (skip : nat) (s : string) : list string :=
  match s with
  | EmptyString => []
  | String _ s' =>
      match skip with
      | S k => scanRuns k s'
      | O =>
          match matchRunAt s with
          | Some m => m :: scanRuns (String.length m - 1) s'
          | None => scanRuns 0 s'
          end
      end
  end.

(** [content.match(pattern)] with the global flag: all matches, or
    [null] when there is none. *)
Definition matchRuns (content : string) : option (list string) :=
  match scanRuns 0 content with
  | [] => None
  | ms => Some ms
  end.

(** Does [s] contain the character [>] ? *)
Definition closes (s : string) : bool :=
  match snd (JS.span not_gt s) with
  | EmptyString => false
  | String _ _ => true
  end.

(** [s.replace(tag, '')] with the global flag, where a tag is [<], any
    characters other than [>], then [>]; [skip] counts the characters of
    the tag being removed. *)
Fixpoint stripFrom (skip : nat) (s : string) : string :=
  match s with
  | EmptyString => EmptyString
  | String c s' =>
      match skip with
      | S k => stripFrom k s'
      | O =>
          if Ascii.eqb c lt && closes s'
          then stripFrom (S (String.length (fst (JS.span not_gt s')))) s'
          else String c (stripFrom 0 s')
      end
  end.

Definition stripTags (s : string) : string := stripFrom 0 s.

End Pptx.


(** ** Errors and outcomes *)

(** [new Error(message)] *)
Inductive Error : Type := mkError (message : string).

Definition message (e : Error) : string := let 'mkError m := e in m.

(** The outcome of a call that may throw, or of a promise once settled. *)
Inductive result (A : Type) : Type :=
| Resolved (a : A)
| Rejected (e : Error).

Arguments Resolved {A} a.
Arguments Rejected {A} e.

(** ** Requests and responses of the hosted services *)

Module Api.

(** [new OpenAI({ apiKey, dangerouslyAllowBrowser })] *)
Record OpenAI : Type := { apiKey : string; dangerouslyAllowBrowser : bool }.

(** [new OpenAIEmbeddings({ openAIApiKey, modelName })] *)
Record OpenAIEmbeddings : Type := { openAIApiKey : string; modelName : string }.

(** [new RecursiveCharacterTextSplitter({ chunkSize, chunkOverlap })] *)
Record TextSplitter : Type := { chunkSize : nat; chunkOverlap : nat }.

Inductive Role : Type := system | user.

Record ChatMessage : Type := { role : Role; content : string }.

(** The argument of [client.chat.completions.create]; the temperature is
    the decimal literal of the source. *)
Record ChatCompletionRequest : Type :=
  { model : string;
    messages : list ChatMessage;
    max_tokens : Z;
    temperature : Decimal.decimal }.

(** The part of the response that [sendMessage] reads:
    [response.choices[0]?.message?.content]. *)
Record ResponseMessage : Type := { response_content : option string }.
Record Choice : Type := { message : option ResponseMessage }.
Record ChatCompletion : Type := { choices : list Choice }.

(** The calls that leave the browser. *)
Inductive Event : Type :=
| EmbedDocuments (e : OpenAIEmbeddings) (texts : list string)
| EmbedQuery (e : OpenAIEmbeddings) (query : string)
| ChatCompletionsCreate (c : OpenAI) (request : ChatCompletionRequest).

Definition isCompletion (ev : Event) : bool :=
  match ev with ChatCompletionsCreate _ _ => true | _ => false end.

End Api.

(** ** Asynchronous computations

    An [async] method run on a receiver of type [St]: it settles, leaves
    the receiver in a new state, and has issued a sequence of calls. *)

Definition Async (St A : Type) : Type := St -> result A * St * list Api.Event.

Definition ret {St A : Type} (a : A) : Async St A :=
  fun s => (Resolved a, s, []).

Definition bind {St A B : Type} (m : Async St A) (f : A -> Async St B) : Async St B :=
  fun s =>
    match m s with
    | (Resolved a, s1, t1) => let '(r, s2, t2) := f a s1 in (r, s2, (t1 ++ t2)%list)
    | (Rejected e, s1, t1) => (Rejected e, s1, t1)
    end.

(** [throw e] *)
Definition throw {St A : Type} (e : Error) : Async St A :=
  fun s => (Rejected e, s, []).

(** [try { m } catch (error) { h error }] *)
Definition tryCatch {St A : Type} (m : Async St A) (h : Error -> Async St A) : Async St A :=
  fun s =>
    match m s with
    | (Resolved a, s1, t1) => (Resolved a, s1, t1)
    | (Rejected e, s1, t1) => let '(r, s2, t2) := h e s1 in (r, s2, (t1 ++ t2)%list)
    end.

(** Reading and updating the receiver. *)
Definition this {St : Type} : Async St St := fun s => (Resolved s, s, []).
Definition assign {St : Type} (f : St -> St) : Async St unit := fun s => (Resolved tt, f s, []).

(** [await] of a settled outcome that involves no hosted service. *)
Definition await {St A : Type} (r : result A) : Async St A := fun s => (r, s, []).

(** [await] of a call to a hosted service. *)
Definition call {St A : Type} (ev : Api.Event) (r : result A) : Async St A :=
  fun s => (r, s, [ev]).

(** A method of a member object, run on that member. *)
Definition within {St T A : Type} (get : St -> T) (set : T -> St -> St)
  (m : Async T A) : Async St A :=
  fun s => let '(r, t, tr) := m (get s) in (r, set t s, tr).

Declare Scope async_scope.
Delimit Scope async_scope with async.
Notation "x <- m ;; k" := (bind m (fun x => k))
  (at level 61, m at next level, right associativity) : async_scope.
Notation "m ;; k" := (bind m (fun _ => k))
  (at level 61, right associativity) : async_scope.
Open Scope async_scope.

(** [Promise.all] over promises that share no state: the outcomes in
    order, or the rejection of the first that rejects. *)
Fixpoint Promise_all {St A : Type} (ps : list (Async St A)) : Async St (list A) :=
  match ps with
  | [] => ret []
  | p :: ps' => x <- p ;; xs <- Promise_all ps' ;; ret (x :: xs)
  end.

Definition outcome {St A : Type} (x : result A * St * list Api.Event) : result A := fst (fst x).
Definition final {St A : Type} (x : result A * St * list Api.Event) : St := snd (fst x).
Definition trace {St A : Type} (x : result A * St * list Api.Event) : list Api.Event := snd x.

(** ** Files and the packages that parse them *)

(** What a [FileReader] delivers for [readAsText]: [onload] with
    [e.target?.result], or [onerror]. *)
Inductive ReaderEvent : Type :=
| onload (target_result : option string)
| onerror.

Module File.
Record t : Type :=
  { name : string;
    type : string;
    arrayBuffer : result (list Byte.byte);
    readAsText : ReaderEvent }.
End File.

Module UploadedFile.
Record t : Type :=
  { id : string;
    name : string;
    size : Z;
    type : string;
    file : File.t }.
End UploadedFile.

(** pdf.js: a page yields the [str] of its text items (absent on marked
    content); fetching a page or its text may reject. *)
Record PdfPage : Type := { getTextContent : result (list (option string)) }.
Record PdfDocument : Type := { numPages : nat; getPage : nat -> result PdfPage }.

(** PizZip: [zip.files] in key order, each entry with what [asText()] gives. *)
Definition ZipFiles : Type := list (string * result string).

(** The text of a retrieved chunk and where it comes from. *)
Record Metadata : Type := { fileName : string; chunkIndex : Z; totalChunks : Z }.

(** langchain's [Document] *)
Record Document : Type := { pageContent : string; metadata : Metadata }.

(** The browser and the third-party packages.  [createDocuments] is the
    text splitter: for the splitter's configuration and the texts it gives
    the [pageContent] of the chunk documents, in order.  [moreSimilar q a b]
    tells whether embedding [a] is strictly closer to the query [q] than
    [b] is (the floating-point cosine similarity itself is not modelled). *)
Record Platform : Type :=
  { Embedding : Type;
    pdfjs_getDocument : list Byte.byte -> result PdfDocument;
    mammoth_extractRawText : list Byte.byte -> result string;
    PizZip_files : list Byte.byte -> result ZipFiles;
    createDocuments : Api.TextSplitter -> list string -> list string;
    embedDocuments : Api.OpenAIEmbeddings -> list string -> result (list Embedding);
    embedQuery : Api.OpenAIEmbeddings -> string -> result Embedding;
    moreSimilar : Embedding -> Embedding -> Embedding -> bool;
    chat_completions_create : Api.OpenAI -> Api.ChatCompletionRequest -> result Api.ChatCompletion }.

(** [xs.map((x, index) => f x index)] *)
Fixpoint mapi_from {A B : Type} (f : A -> nat -> B) (i : nat) (xs : list A) : list B :=
  match xs with
  | [] => []
  | x :: xs' => f x i :: mapi_from f (S i) xs'
  end.

Definition mapi {A B : Type} (f : A -> nat -> B) (xs : list A) : list B := mapi_from f 0 xs.

(** An extracted document, [{ name, content }]. *)
Module ExtractedFile.
Record t : Type := { name : string; content : string }.
End ExtractedFile.

(** [DocumentChunk] of [vectorStore.ts] *)
Module DocumentChunk.
Record t : Type := { content : string; metadata : Metadata }.
End DocumentChunk.

(** ** The in-memory index *)

Module MemoryVectorStore.
Section WithPlatform.
Variable P : Platform.

(** Modelled from the spec: langchain's [MemoryVectorStore], whose code is
    not among the sources.  The spec calls it an in-memory nearest-neighbor
    store to which embedding and search are delegated, with retrieval of
    the top-k chunks ranked by embedding similarity: the store keeps every
    added document with its embedding, and a search ranks the stored
    documents by similarity to the query vector and keeps the first [k]. *)
Record t : Type :=
  { embeddings : Api.OpenAIEmbeddings;
    memoryVectors : list (Embedding P * Document) }.

(** Modelled from the spec: [new MemoryVectorStore(embeddings)], an
    empty store. *)
Definition new (e : Api.OpenAIEmbeddings) : t :=
  {| embeddings := e; memoryVectors := [] |}.

(** Modelled from the spec: [store.addDocuments(documents)] embeds the
    texts in one call and appends the documents with their vectors. *)
Definition addDocuments (documents : list Document) : Async t unit :=
  store <- this ;;
  let texts := map pageContent documents in
  vectors <- call (Api.EmbedDocuments (embeddings store) texts)
                  (embedDocuments P (embeddings store) texts) ;;
  assign (fun store =>
            {| embeddings := embeddings store;
               memoryVectors := (memoryVectors store ++ combine vectors documents)%list |}).

(** Modelled from the spec: ranking by decreasing similarity to the
    query; ties keep their order. *)
Fixpoint insertRanked (q : Embedding P) (x : Embedding P * Document)
  (l : list (Embedding P * Document)) : list (Embedding P * Document) :=
  match l with
  | [] => [x]
  | y :: l' =>
      if moreSimilar P q (fst y) (fst x) then y :: insertRanked q x l' else x :: l
  end.

(** Modelled from the spec: the stored documents, ranked. *)
Definition ranked (q : Embedding P) (l : list (Embedding P * Document))
  : list (Embedding P * Document) :=
  fold_right (insertRanked q) [] l.

(** Modelled from the spec: [store.similaritySearchVectorWithScore(query, k)]
    gives the [k] best ranked documents; the scores, which the caller
    drops, are left out. *)
Definition similaritySearchVectorWithScore (store : t) (query : Embedding P) (k : nat)
  : list Document :=
  map snd (firstn k (ranked query (memoryVectors store))).

End WithPlatform.

Arguments embeddings {P} _.
Arguments memoryVectors {P} _.

End MemoryVectorStore.

(** ** [VectorStoreService] *)

Module VectorStoreService.
Section WithPlatform.
Variable P : Platform.

Record t : Type :=
  { vectorStore : option (MemoryVectorStore.t P);
    embeddings : option Api.OpenAIEmbeddings;
    textSplitter : Api.TextSplitter }.

Definition constructor : t :=
  {| vectorStore := None;
     embeddings := None;
     textSplitter := {| Api.chunkSize := 1000; Api.chunkOverlap := 200 |} |}.

Definition initialize (apiKey : string) : Async t unit :=
  assign (fun s =>
            let e := {| Api.openAIApiKey := apiKey;
                        Api.modelName := "text-embedding-3-small" |} in
            {| vectorStore := Some (MemoryVectorStore.new P e);
               embeddings := Some e;
               textSplitter := textSplitter s |}).

(** The documents built from one extracted file: its chunks, each with
    the file name, its index and the number of chunks. *)
Definition docsWithMetadata (s : t) (doc : ExtractedFile.t) : list Document :=
  let chunks := createDocuments P (textSplitter s) [ExtractedFile.content doc] in
  mapi (fun chunk index =>
          {| pageContent := chunk;
             metadata := {| fileName := ExtractedFile.name doc;
                            chunkIndex := Z.of_nat index;
                            totalChunks := Z.of_nat (List.length chunks) |} |})
       chunks.

Definition addDocuments (documents : list ExtractedFile.t) : Async t unit :=
  s <- this ;;
  match vectorStore s, embeddings s with
  | Some store, Some _ =>
      let allDocs := flat_map (docsWithMetadata s) documents in
      within (fun _ => store)
             (fun store' s => {| vectorStore := Some store';
                                 embeddings := embeddings s;
                                 textSplitter := textSplitter s |})
             (MemoryVectorStore.addDocuments P allDocs)
  | _, _ => throw (mkError "Vector store not initialized")
  end.

(** The default of the parameter [k] of [searchSimilar]. *)
Definition default_k : nat := 4.

Definition searchSimilar (query : string) (k : option nat)
  : Async t (list DocumentChunk.t) :=
  let k := match k with Some k => k | None => default_k end in
  s <- this ;;
  match vectorStore s with
  | None => throw (mkError "Vector store not initialized")
  | Some store =>
      q <- match embeddings s with
           | Some e => call (Api.EmbedQuery e query) (embedQuery P e query)
           | None => throw (mkError "Cannot read properties of null (reading 'embedQuery')")
           end ;;
      let results := MemoryVectorStore.similaritySearchVectorWithScore P store q k in
      ret (map (fun doc =>
                  {| DocumentChunk.content := pageContent doc;
                     DocumentChunk.metadata :=
                       {| fileName := fileName (metadata doc);
                          chunkIndex := chunkIndex (metadata doc);
                          totalChunks := totalChunks (metadata doc) |} |})
               results)
  end.

Definition isInitialized (s : t) : bool :=
  match vectorStore s, embeddings s with
  | Some _, Some _ => true
  | _, _ => false
  end.

Definition clear (s : t) : t :=
  {| vectorStore := match embeddings s with
                    | Some e => Some (MemoryVectorStore.new P e)
                    | None => None
                    end;
     embeddings := embeddings s;
     textSplitter := textSplitter s |}.

End WithPlatform.

Arguments vectorStore {P} _.
Arguments embeddings {P} _.
Arguments textSplitter {P} _.

End VectorStoreService.

(** ** [OpenAIService] *)

Module OpenAIService.
Section WithPlatform.
Variable P : Platform.

Record t : Type :=
  { client : option Api.OpenAI;
    fileContents : list ExtractedFile.t;
    systemInstructions : string;
    vectorStore : VectorStoreService.t P }.

Definition set_client (c : option Api.OpenAI) (s : t) : t :=
  {| client := c; fileContents := fileContents s;
     systemInstructions := systemInstructions s; vectorStore := vectorStore s |}.

Definition set_fileContents (fc : list ExtractedFile.t) (s : t) : t :=
  {| client := client s; fileContents := fc;
     systemInstructions := systemInstructions s; vectorStore := vectorStore s |}.

Definition set_systemInstructions (i : string) (s : t) : t :=
  {| client := client s; fileContents := fileContents s;
     systemInstructions := i; vectorStore := vectorStore s |}.

Definition set_vectorStore (v : VectorStoreService.t P) (s : t) : t :=
  {| client := client s; fileContents := fileContents s;
     systemInstructions := systemInstructions s; vectorStore := v |}.

Definition newClient (apiKey : string) : Api.OpenAI :=
  {| Api.apiKey := apiKey; Api.dangerouslyAllowBrowser := true |}.

(** [new OpenAIService(apiKey?)]; an absent or empty key leaves the
    service without client and the vector store uninitialised. *)
Definition constructor (apiKey : option string) : t :=
  let fresh := {| client := None; fileContents := []; systemInstructions := EmptyString;
                  vectorStore := VectorStoreService.constructor P |} in
  match apiKey with
  | Some key =>
      if JS.truthy key
      then final ((assign (set_client (Some (newClient key))) ;;
                   within vectorStore set_vectorStore (VectorStoreService.initialize P key))
                    fresh)
      else fresh
  | None => fresh
  end.

Definition setApiKey (apiKey : string) : Async t unit :=
  assign (set_client (Some (newClient apiKey))) ;;
  within vectorStore set_vectorStore (VectorStoreService.initialize P apiKey).

(** The loop of [extractPdfText] over the pages [i], [i+1], ... *)
Fixpoint pdfPages {St : Type} (pdf : PdfDocument) (i remaining : nat) (fullText : string)
  : Async St string :=
  match remaining with
  | O => ret fullText
  | S r =>
      page <- await (getPage pdf i) ;;
      textContent <- await (getTextContent page) ;;
      let pageText := JS.join_opt " " textContent in
      pdfPages pdf (S i) r (fullText ++ pageText ++ JS.nl)
  end.

(** The [try] block of [extractPdfText]. *)
Definition pdfText {St : Type} (file : File.t) : Async St string :=
  arrayBuffer <- await (File.arrayBuffer file) ;;
  pdf <- await (pdfjs_getDocument P arrayBuffer) ;;
  fullText <- pdfPages pdf 1 (numPages pdf) EmptyString ;;
  ret (JS.or_else fullText ("No text content found in PDF: " ++ File.name file)).

Definition extractPdfText {St : Type} (file : File.t) : Async St string :=
  tryCatch (pdfText file)
    (fun error => ret ("Error extracting content from PDF: " ++ File.name file)).

(** The [try] block of [extractDocxText]. *)
Definition docxText {St : Type} (file : File.t) : Async St string :=
  arrayBuffer <- await (File.arrayBuffer file) ;;
  value <- await (mammoth_extractRawText P arrayBuffer) ;;
  ret value.

Definition extractDocxText {St : Type} (file : File.t) : Async St string :=
  tryCatch (docxText file)
    (fun error => ret ("Error extracting content from DOCX: " ++ File.name file)).

Definition isSlide (name : string) : bool :=
  JS.startsWith name "ppt/slides/slide" && JS.endsWith name ".xml".

(** [zip.files[name].asText()]; reading a property of a missing entry throws. *)
Fixpoint asText (files : ZipFiles) (name : string) : result string :=
  match files with
  | [] => Rejected (mkError "Cannot read properties of undefined (reading 'asText')")
  | (n, r) :: files' => if (n =? name)%string then r else asText files' name
  end.

(** The loop of [extractPptxText] over the slide files. *)
Fixpoint pptxSlides {St : Type} (files : ZipFiles) (slideFiles : list string)
  (fullText : string) : Async St string :=
  match slideFiles with
  | [] => ret fullText
  | slideFile :: rest =>
      content <- await (asText files slideFile) ;;
      match Pptx.matchRuns content with
      | Some textMatches =>
          let slideText := JS.join " " (map Pptx.stripTags textMatches) in
          pptxSlides files rest (fullText ++ slideText ++ JS.nl)
      | None => pptxSlides files rest fullText
      end
  end.

(** The [try] block of [extractPptxText]. *)
Definition pptxText {St : Type} (file : File.t) : Async St string :=
  arrayBuffer <- await (File.arrayBuffer file) ;;
  files <- await (PizZip_files P arrayBuffer) ;;
  let slideFiles := filter isSlide (map fst files) in
  fullText <- pptxSlides files slideFiles EmptyString ;;
  ret (JS.or_else fullText ("Unable to extract readable text from: " ++ File.name file)).

Definition extractPptxText {St : Type} (file : File.t) : Async St string :=
  tryCatch (pptxText file)
    (fun error => ret ("Error extracting content from PPTX: " ++ File.name file)).

(** The promise around [FileReader.readAsText]. *)
Definition readText {St : Type} (file : File.t) : Async St string :=
  await (match File.readAsText file with
         | onload target_result => Resolved (JS.opt_or_else target_result EmptyString)
         | onerror => Rejected (mkError "Failed to read file")
         end).

Definition mimePdf : string := "application/pdf".
Definition mimeDocx : string :=
  "application/vnd.openxmlformats-officedocument.wordprocessingml.document".
Definition mimePptx : string :=
  "application/vnd.openxmlformats-officedocument.presentationml.presentation".
Definition mimeText : string := "text/plain".

(** The callback that [uploadFiles] maps over the files: the extraction
    step for one file. *)
Definition extractFile {St : Type} (file : UploadedFile.t) : Async St ExtractedFile.t :=
  let f := UploadedFile.file file in
  content <-
    (if (File.type f =? mimePdf)%string then extractPdfText f
     else if (File.type f =? mimeDocx)%string then extractDocxText f
     else if (File.type f =? mimePptx)%string then extractPptxText f
     else if (File.type f =? mimeText)%string || JS.endsWith (File.name f) ".py"
          then readText f
     else ret ("Unsupported file type: " ++ UploadedFile.name file)) ;;
  ret {| ExtractedFile.name := UploadedFile.name file; ExtractedFile.content := content |}.

(** The branch of [extractFile] a file takes. *)
Definition parsed (file : UploadedFile.t) : bool :=
  let f := UploadedFile.file file in
  (File.type f =? mimePdf)%string || (File.type f =? mimeDocx)%string
  || (File.type f =? mimePptx)%string.

Definition readAsPlainText (file : UploadedFile.t) : bool :=
  let f := UploadedFile.file file in
  negb (parsed file)
  && ((File.type f =? mimeText)%string || JS.endsWith (File.name f) ".py").

(** The supported files: PDF, DOCX, PPTX, plain text and [.py]. *)
Definition supported (file : UploadedFile.t) : bool :=
  parsed file || readAsPlainText file.

Definition uploadFiles (files : list UploadedFile.t) : Async t unit :=
  s <- this ;;
  match client s with
  | None => throw (mkError "OpenAI client not initialized")
  | Some _ =>
      tryCatch
        (extractedFiles <- Promise_all (map extractFile files) ;;
         assign (fun s => set_fileContents (fileContents s ++ extractedFiles)%list s) ;;
         s <- this ;;
         if VectorStoreService.isInitialized P (vectorStore s)
         then within vectorStore set_vectorStore
                     (VectorStoreService.addDocuments P extractedFiles)
         else ret tt)
        (fun error => throw error)
  end.

Definition createAssistant (systemInstructions : string) : Async t unit :=
  assign (set_systemInstructions systemInstructions).

Definition separator : string := JS.nl ++ JS.nl ++ "---" ++ JS.nl ++ JS.nl.

Definition formatChunk (chunk : DocumentChunk.t) : string :=
  "=== " ++ fileName (DocumentChunk.metadata chunk)
  ++ " (chunk " ++ JS.ofZ (chunkIndex (DocumentChunk.metadata chunk) + 1)
  ++ "/" ++ JS.ofZ (totalChunks (DocumentChunk.metadata chunk)) ++ ") ==="
  ++ JS.nl ++ DocumentChunk.content chunk.

Definition formatFile (file : ExtractedFile.t) : string :=
  "=== " ++ ExtractedFile.name file ++ " ===" ++ JS.nl ++ ExtractedFile.content file.

Definition systemPrompt (instructions context : string) : string :=
  instructions ++ JS.nl ++ JS.nl
  ++ "Here are the relevant document sections for answering the user's question:"
  ++ JS.nl ++ JS.nl ++ context ++ JS.nl ++ JS.nl
  ++ "Please answer the question based on this content. If the information is not available in the provided context, say so clearly.".

Definition completionRequest (instructions context message : string)
  : Api.ChatCompletionRequest :=
  {| Api.model := "gpt-4.1-2025-04-14";
     Api.messages :=
       [ {| Api.role := Api.system; Api.content := systemPrompt instructions context |};
         {| Api.role := Api.user; Api.content := message |} ];
     Api.max_tokens := 800;
     Api.temperature := Decimal.Decimal (Decimal.Pos (Decimal.D0 Decimal.Nil))
                                        (Decimal.D7 Decimal.Nil) |}.

(** [response.choices[0]?.message?.content] *)
Definition firstChoiceContent (response : Api.ChatCompletion) : option string :=
  match Api.choices response with
  | [] => None
  | choice :: _ =>
      match Api.message choice with
      | None => None
      | Some m => Api.response_content m
      end
  end.

Definition apology : string := "I apologize, but I was unable to generate a response.".

(** The [if] statement of [sendMessage] that computes [context]: the
    chunks retrieved for the message when the vector store is
    initialised, all documents in full otherwise. *)
Definition retrieveContext (message : string) : Async t string :=
  s <- this ;;
  if VectorStoreService.isInitialized P (vectorStore s)
  then relevantChunks <- within vectorStore set_vectorStore
                                (VectorStoreService.searchSimilar P message (Some 6)) ;;
       ret (JS.join separator (map formatChunk relevantChunks))
  else ret (JS.join separator (map formatFile (fileContents s))).

Definition sendMessage (message : string) : Async t string :=
  s <- this ;;
  match client s with
  | None => throw (mkError "OpenAI client not initialized")
  | Some client =>
      if (List.length (fileContents s) =? 0)%nat
      then throw (mkError "No files uploaded. Please upload documents first.")
      else
        tryCatch
          (context <- retrieveContext message ;;
           let request := completionRequest (systemInstructions s) context message in
           response <- call (Api.ChatCompletionsCreate client request)
                            (chat_completions_create P client request) ;;
           ret (JS.opt_or_else (firstChoiceContent response) apology))
          (fun error => throw error)
  end.

Definition updateSystemInstructions (instructions : string) : Async t unit :=
  assign (set_systemInstructions instructions).

Definition isReady (s : t) : bool :=
  match client s with
  | Some _ => (0 <? List.length (fileContents s))%nat
  | None => false
  end.

Definition hasFiles (s : t) : bool := (0 <? List.length (fileContents s))%nat.

Definition clearFiles (s : t) : t :=
  set_vectorStore (VectorStoreService.clear P (vectorStore s)) (set_fileContents [] s).

Definition getFileContents (s : t) : list ExtractedFile.t := fileContents s.

End WithPlatform.

Arguments client {P} _.
Arguments fileContents {P} _.
Arguments systemInstructions {P} _.
Arguments vectorStore {P} _.

End OpenAIService.

(** ** The index page: the callback given to the chat *)

Module Index.
Section WithPlatform.
Variable P : Platform.

(** [handleSendMessage]; the receiver is the page's [openaiService] state. *)
Definition handleSendMessage (message : string)
  : Async (option (OpenAIService.t P)) string :=
  openaiService <- this ;;
  match openaiService with
  | None => throw (mkError "OpenAI service not initialized")
  | Some service =>
      if negb (OpenAIService.isReady P service)
      then throw (mkError "Assistant not ready. Please upload files first.")
      else
        tryCatch
          (within (fun _ => service) (fun service' _ => Some service')
                  (OpenAIService.sendMessage P message))
          (fun error => throw error)
  end.

End WithPlatform.
End Index.

(** ** [ChatInterface] *)

Module Chat.

Inductive Role : Type := user | assistant.

(** [timestamp] is a [Date], kept as milliseconds since the epoch. *)
Record Message : Type :=
  { id : string; role : Role; content : string; timestamp : Z }.

(** The component state: [messages] and [input]. *)
Record State : Type := { messages : list Message; input : string }.

(** The props; [onSendMessage] is given by the outcome of its promise. *)
Record Props : Type :=
  { onSendMessage : string -> result string; isLoading : bool }.

(** What [crypto.randomUUID()] and [new Date()] give when a message is built. *)
Record Fresh : Type := { randomUUID : string; now : Z }.

Definition greeting : string :=
  "Hello! I'm ready to help you analyze your uploaded documents. Ask me anything about the content you've shared.".

Definition fallback : string :=
  "I apologize, but I encountered an error while processing your message. Please try again.".

(** The state when the component mounts, at time [t0]. *)
Definition initial (t0 : Z) : State :=
  {| messages := [ {| id := "1"; role := assistant; content := greeting; timestamp := t0 |} ];
     input := EmptyString |}.

(** [setMessages(update)] with a functional update, and [setInput]. *)
Definition setMessages (update : list Message -> list Message) : Async State unit :=
  assign (fun st => {| messages := update (messages st); input := input st |}).

Definition setInput (value : string) : Async State unit :=
  assign (fun st => {| messages := messages st; input := value |}).

Definition newMessage (w : Fresh) (r : Role) (text : string) : Message :=
  {| id := randomUUID w; role := r; content := text; timestamp := now w |}.

(** [handleSend], run in the render whose state is the receiver; [w1] and
    [w2] are the fresh values for the first and the second message. *)
Definition handleSend (props : Props) (w1 w2 : Fresh) : Async State unit :=
  st <- this ;;
  if negb (JS.truthy (JS.trim (input st))) || isLoading props then ret tt
  else
    let userMessage := newMessage w1 user (JS.trim (input st)) in
    setMessages (fun prev => prev ++ [userMessage])%list ;;
    setInput EmptyString ;;
    tryCatch
      (response <- await (onSendMessage props (JS.trim (input st))) ;;
       let assistantMessage := newMessage w2 assistant response in
       setMessages (fun prev => prev ++ [assistantMessage])%list)
      (fun error =>
         let errorMessage := newMessage w2 assistant fallback in
         setMessages (fun prev => prev ++ [errorMessage])%list).

(** The two halves of [handleSend] around its [await]: other events of the
    page may run between them. *)
Definition handleSend_before (w1 : Fresh) (text : string) : Async State unit :=
  setMessages (fun prev => prev ++ [newMessage w1 user text])%list ;;
  setInput EmptyString.

Definition handleSend_after (settled : result string) (w2 : Fresh) : Async State unit :=
  tryCatch
    (response <- await settled ;;
     setMessages (fun prev => prev ++ [newMessage w2 assistant response])%list)
    (fun error => setMessages (fun prev => prev ++ [newMessage w2 assistant fallback])%list).

(** The component between two events: its state and the calls to
    [onSendMessage] that have not settled yet. *)
Record Config : Type := { ui : State; inFlight : list string }.

(** The events that change the component: typing, a send that passes the
    guard of [handleSend], and the settling of a call in flight. *)
Inductive Step : Config -> Config -> Prop :=
| step_change (c : Config) (value : string) :
    Step c {| ui := final (setInput value (ui c)); inFlight := inFlight c |}
| step_send (c : Config) (props : Props) (w1 : Fresh) :
    negb (JS.truthy (JS.trim (input (ui c)))) || isLoading props = false ->
    Step c {| ui := final (handleSend_before w1 (JS.trim (input (ui c))) (ui c));
              inFlight := (inFlight c ++ [JS.trim (input (ui c))])%list |}
| step_settle (c : Config) (before after : list string) (text : string)
    (settled : result string) (w2 : Fresh) :
    inFlight c = (before ++ text :: after)%list ->
    Step c {| ui := final (handleSend_after settled w2 (ui c));
              inFlight := (before ++ after)%list |}.

Inductive Steps : Config -> Config -> Prop :=
| steps_refl (c : Config) : Steps c c
| steps_step (c1 c2 c3 : Config) : Step c1 c2 -> Steps c2 c3 -> Steps c1 c3.

End Chat.

(** ** Chunking *)

Module Splitter.

(** Modelled from the spec: the text splitter (langchain's
    [RecursiveCharacterTextSplitter]) is not among the sources.  The spec
    describes chunking as splitting the extracted text into overlapping
    windows, a chunk being a fixed-size overlapping substring of a
    document.  The windows start every [chunkSize - chunkOverlap]
    characters and take [chunkSize] characters, or what is left of the
    text; the window that reaches the end of the text is the last one.
    [windowCount] is the number of windows of a text of [len] characters.
    These windows are the splitter of the demonstration platforms only:
    the pipeline takes its splitter from the platform ([createDocuments])
    and its properties hold for whatever that splitter returns.  The
    library itself cuts at paragraphs, lines and words where it can and
    trims its chunks, which the windows do not. *)
Definition windowCount (cfg : Api.TextSplitter) (len : nat) : nat :=
  let stride := Api.chunkSize cfg - Api.chunkOverlap cfg in
  if (len =? 0)%nat then 0
  else S ((len - Api.chunkSize cfg + stride - 1) / stride).

(** Modelled from the spec: the overlapping windows of one text (see
    [windowCount]). *)
Definition windows (cfg : Api.TextSplitter) (text : string) : list string :=
  let stride := Api.chunkSize cfg - Api.chunkOverlap cfg in
  map (fun i => substring (i * stride) (Api.chunkSize cfg) text)
      (seq 0 (windowCount cfg (String.length text))).

(** Modelled from the spec: [createDocuments(texts)] gives the windows of
    each text in turn. *)
Definition createDocuments (cfg : Api.TextSplitter) (texts : list string) : list string :=
  flat_map (windows cfg) texts.

End Splitter.

(** ** Concrete platforms and inputs, used to run the model *)

Module Demo.

Definition onePagePdf : PdfDocument :=
  {| numPages := 1;
     getPage := fun _ => Resolved {| getTextContent := Resolved [Some "Hello"; None; Some "PDF"] |} |}.

(** A platform on which every package and every hosted service answers.
    An embedding is the length of the text, and the closer length wins. *)
Definition online : Platform :=
  {| Embedding := nat;
     pdfjs_getDocument := fun _ => Resolved onePagePdf;
     mammoth_extractRawText := fun _ => Resolved EmptyString;
     PizZip_files := fun _ =>
       Resolved [("ppt/slides/slide1.xml", Resolved "<a:p><a:t>Title</a:t><a:t>Body</a:t></a:p>");
                 ("ppt/presentation.xml", Resolved "<p:presentation/>")];
     createDocuments := Splitter.createDocuments;
     embedDocuments := fun _ texts => Resolved (map String.length texts);
     embedQuery := fun _ query => Resolved (String.length query);
     moreSimilar := fun q a b => ((q - a) + (a - q) <? (q - b) + (b - q))%nat;
     chat_completions_create := fun _ _ =>
       Resolved {| Api.choices :=
                     [ {| Api.message := Some {| Api.response_content := Some "An answer." |} |} ] |} |}.

(** The same platform when the network drops after the upload: the
    documents were embedded, the later calls reject. *)
Definition dropped : Platform :=
  {| Embedding := nat;
     pdfjs_getDocument := pdfjs_getDocument online;
     mammoth_extractRawText := mammoth_extractRawText online;
     PizZip_files := PizZip_files online;
     createDocuments := Splitter.createDocuments;
     embedDocuments := embedDocuments online;
     embedQuery := fun _ _ => Rejected (mkError "Failed to fetch");
     moreSimilar := moreSimilar online;
     chat_completions_create := fun _ _ => Rejected (mkError "Failed to fetch") |}.

(** The platform on which only the completion endpoint rejects. *)
Definition throttled : Platform :=
  {| Embedding := nat;
     pdfjs_getDocument := pdfjs_getDocument online;
     mammoth_extractRawText := mammoth_extractRawText online;
     PizZip_files := PizZip_files online;
     createDocuments := Splitter.createDocuments;
     embedDocuments := embedDocuments online;
     embedQuery := embedQuery online;
     moreSimilar := moreSimilar online;
     chat_completions_create := fun _ _ => Rejected (mkError "429 Too Many Requests") |}.

Definition mkFile (name type : string) (read : ReaderEvent) : UploadedFile.t :=
  {| UploadedFile.id := "id-" ++ name;
     UploadedFile.name := name;
     UploadedFile.size := 0;
     UploadedFile.type := type;
     UploadedFile.file :=
       {| File.name := name; File.type := type;
          File.arrayBuffer := Resolved [];
          File.readAsText := read |} |}.

(** An empty text file, a text file, a text file that cannot be read, and
    one file of each parsed format. *)
Definition emptyTxt : UploadedFile.t := mkFile "empty.txt" "text/plain" (onload (Some EmptyString)).
Definition notesTxt : UploadedFile.t := mkFile "notes.txt" "text/plain" (onload (Some "some notes")).
Definition brokenTxt : UploadedFile.t := mkFile "broken.txt" "text/plain" onerror.
Definition paperPdf : UploadedFile.t := mkFile "paper.pdf" "application/pdf" onerror.
Definition emptyDocx : UploadedFile.t :=
  mkFile "empty.docx" "application/vnd.openxmlformats-officedocument.wordprocessingml.document" onerror.
Definition talkPptx : UploadedFile.t :=
  mkFile "talk.pptx" "application/vnd.openxmlformats-officedocument.presentationml.presentation" onerror.

(** A PDF whose bytes cannot be read. *)
Definition lostPdf : UploadedFile.t :=
  {| UploadedFile.id := "id-lost.pdf";
     UploadedFile.name := "lost.pdf";
     UploadedFile.size := 0;
     UploadedFile.type := "application/pdf";
     UploadedFile.file :=
       {| File.name := "lost.pdf"; File.type := "application/pdf";
          File.arrayBuffer := Rejected (mkError "NotReadableError");
          File.readAsText := onerror |} |}.

(** A service with a key, and the same after one upload. *)
Definition keyed (P : Platform) : OpenAIService.t P := OpenAIService.constructor P (Some "sk-demo").
Definition keyless (P : Platform) : OpenAIService.t P := OpenAIService.constructor P None.
Definition loaded (P : Platform) : OpenAIService.t P :=
  final (OpenAIService.uploadFiles P [notesTxt; paperPdf] (keyed P)).

(** The props the index page gives to the chat when its service is
    [service]: the outcome of [handleSendMessage]. *)
Definition chatProps (P : Platform) (service : option (OpenAIService.t P)) : Chat.Props :=
  {| Chat.onSendMessage := fun message => outcome (Index.handleSendMessage P message service);
     Chat.isLoading := false |}.

(** The chat after the user has typed a question. *)
Definition typed : Chat.State :=
  {| Chat.messages := Chat.messages (Chat.initial 1000); Chat.input := " what? " |}.

Definition fresh1 : Chat.Fresh := {| Chat.randomUUID := "uuid-1"; Chat.now := 2000 |}.
Definition fresh2 : Chat.Fresh := {| Chat.randomUUID := "uuid-2"; Chat.now := 3000 |}.

(** The chat when it mounts, and after a question whose call failed. *)
Definition mounted : Chat.Config :=
  {| Chat.ui := Chat.initial 1000; Chat.inFlight := [] |}.

Definition afterError : Chat.Config :=
  {| Chat.ui :=
       {| Chat.messages :=
            (Chat.messages (Chat.initial 1000)
             ++ [Chat.newMessage fresh1 Chat.user "what?";
                 Chat.newMessage fresh2 Chat.assistant Chat.fallback])%list;
          Chat.input := EmptyString |};
     Chat.inFlight := [] |}.

(** A text of 1700 characters. *)
Definition longText : string := String.concat EmptyString (List.repeat "0123456789" 170).

End Demo.

(** ** Vocabulary of the properties *)

(** A computation that touches neither the receiver nor a hosted service. *)
Definition effectFree {St A : Type} (m : Async St A) : Prop :=
  forall s, exists r, m s = (r, s, []).

(** The completion requests among the calls issued. *)
Definition completions (calls : list Api.Event) : list Api.Event :=
  filter Api.isCompletion calls.

(** The placeholder that stands for the text of a PDF, DOCX or PPTX file
    when the [try] block of its extractor, run in state [s], rejects. *)
Definition degraded (P : Platform) {St : Type} (s : St) (file : UploadedFile.t)
  : option string :=
  let f := UploadedFile.file file in
  let failed (r : result string) (placeholder : string) :=
    match r with Rejected _ => Some placeholder | Resolved _ => None end in
  if (File.type f =? OpenAIService.mimePdf)%string
  then failed (outcome (OpenAIService.pdfText P f s))
              ("Error extracting content from PDF: " ++ File.name f)
  else if (File.type f =? OpenAIService.mimeDocx)%string
  then failed (outcome (OpenAIService.docxText P f s))
              ("Error extracting content from DOCX: " ++ File.name f)
  else if (File.type f =? OpenAIService.mimePptx)%string
  then failed (outcome (OpenAIService.pptxText P f s))
              ("Error extracting content from PPTX: " ++ File.name f)
  else None.

(** [x] is what the extraction step makes of [file]: it carries the name
    of the file, and the placeholder when the extraction failed. *)
Definition extractedAs (P : Platform) {St : Type} (s : St) (file : UploadedFile.t)
  (x : ExtractedFile.t) : Prop :=
  ExtractedFile.name x = UploadedFile.name file
  /\ forall placeholder, degraded P s file = Some placeholder ->
                         ExtractedFile.content x = placeholder.

(** A plain-text file that the browser fails to read. *)
Definition unreadable (file : UploadedFile.t) : Prop :=
  OpenAIService.readAsPlainText file = true
  /\ File.readAsText (UploadedFile.file file) = onerror.

(** [d] is a chunk of the extracted file [doc], as [addDocuments] of a
    service in state [s] builds it: the text at its index among the
    chunks of [doc], with the name of [doc] and their number. *)
Definition chunkOf (P : Platform) (s : VectorStoreService.t P) (doc : ExtractedFile.t)
  (d : Document) : Prop :=
  let chunks := createDocuments P (VectorStoreService.textSplitter s)
                                [ExtractedFile.content doc] in
  fileName (metadata d) = ExtractedFile.name doc
  /\ totalChunks (metadata d) = Z.of_nat (List.length chunks)
  /\ (0 <= chunkIndex (metadata d) < totalChunks (metadata d))%Z
  /\ nth_error chunks (Z.to_nat (chunkIndex (metadata d))) = Some (pageContent d).

(** The chunk handed out for a stored document. *)
Definition toChunk (d : Document) : DocumentChunk.t :=
  {| DocumentChunk.content := pageContent d; DocumentChunk.metadata := metadata d |}.

(** The documents held by the index of a service, if it has one. *)
Definition stored (P : Platform) (s : VectorStoreService.t P) : list Document :=
  match VectorStoreService.vectorStore s with
  | Some store => map snd (MemoryVectorStore.memoryVectors store)
  | None => []
  end.

(** ** The life of a service *)

Module Lifecycle.
Section WithPlatform.
Variable P : Platform.

(** The services that the methods of [OpenAIService] can produce: a new
    one, and what each method leaves behind, whatever its outcome. *)
Inductive Reachable : OpenAIService.t P -> Prop :=
| reach_constructor (apiKey : option string) :
    Reachable (OpenAIService.constructor P apiKey)
| reach_setApiKey (s : OpenAIService.t P) (apiKey : string) :
    Reachable s -> Reachable (final (OpenAIService.setApiKey P apiKey s))
| reach_uploadFiles (s : OpenAIService.t P) (files : list UploadedFile.t) :
    Reachable s -> Reachable (final (OpenAIService.uploadFiles P files s))
| reach_createAssistant (s : OpenAIService.t P) (instructions : string) :
    Reachable s -> Reachable (final (OpenAIService.createAssistant P instructions s))
| reach_sendMessage (s : OpenAIService.t P) (message : string) :
    Reachable s -> Reachable (final (OpenAIService.sendMessage P message s))
| reach_updateSystemInstructions (s : OpenAIService.t P) (instructions : string) :
    Reachable s -> Reachable (final (OpenAIService.updateSystemInstructions P instructions s))
| reach_clearFiles (s : OpenAIService.t P) :
    Reachable s -> Reachable (OpenAIService.clearFiles P s).

(** The client, the embeddings client and the index go together: all
    absent, or all present and made from one API key. *)
Definition keyed (s : OpenAIService.t P) : Prop :=
  (OpenAIService.client s = None
   /\ VectorStoreService.embeddings (OpenAIService.vectorStore s) = None
   /\ VectorStoreService.vectorStore (OpenAIService.vectorStore s) = None)
  \/ (exists apiKey store,
         OpenAIService.client s = Some (OpenAIService.newClient apiKey)
         /\ VectorStoreService.embeddings (OpenAIService.vectorStore s)
            = Some {| Api.openAIApiKey := apiKey;
                      Api.modelName := "text-embedding-3-small" |}
         /\ VectorStoreService.vectorStore (OpenAIService.vectorStore s) = Some store
         /\ MemoryVectorStore.embeddings store
            = {| Api.openAIApiKey := apiKey;
                 Api.modelName := "text-embedding-3-small" |}).

End WithPlatform.
End Lifecycle.

(** ** Texts, character by character *)

(** Every character of [s] satisfies [p]. *)
Fixpoint allChars (p : ascii -> bool) (s : string) : bool :=
  match s with
  | EmptyString => true
  | String c s' => p c && allChars p s'
  end.

(** The text that the loop of [extractPdfText] builds from the pages
    [first], ..., [first + count - 1] when page [i] has the items
    [items i]: the items of a page joined by spaces, each page followed by
    a line feed. *)
Definition pagesText (items : nat -> list (option string)) (first count : nat) : string :=
  String.concat EmptyString
    (map (fun i => JS.join_opt " " (items i) ++ JS.nl) (seq first count)).

(** Page [i] of a PDF cannot be fetched, or its text cannot. *)
Definition pageFails (pdf : PdfDocument) (i : nat) : Prop :=
  match getPage pdf i with
  | Resolved page => exists e, getTextContent page = Rejected e
  | Rejected _ => True
  end.

(** A text run of a slide: the opening tag with its attributes, the text,
    the closing tag. *)
Definition textRun (attrs txt : string) : string :=
  "<a:t" ++ attrs ++ ">" ++ txt ++ "</a:t>".

(** What one slide adds to the text of a presentation: its runs without
    their tags, joined by spaces and followed by a line feed; nothing for
    a slide without run. *)
Definition slideText (content : string) : string :=
  match Pptx.matchRuns content with
  | Some textMatches => JS.join " " (map Pptx.stripTags textMatches) ++ JS.nl
  | None => EmptyString
  end.

(** ** The page and its API-key form *)

(** The argument of [toast]. *)
Record Toast : Type := { title : string; description : string; destructive : bool }.

Module Page.
Section WithPlatform.
Variable P : Platform.

(** The state of the index page ([apiKey] ... [activeTab]), of the key
    form ([keyInput], [isValidating]), the toasts shown so far, and the
    browser's local storage. *)
Record State : Type :=
  { apiKey : string;
    uploadedFiles : list UploadedFile.t;
    systemInstructions : string;
    openaiService : option (OpenAIService.t P);
    isLoading : bool;
    activeTab : string;
    keyInput : string;
    isValidating : bool;
    toasts : list Toast;
    localStorage : string -> option string }.

Definition setApiKey (v : string) : Async State unit :=
  assign (fun st =>
    {| apiKey := v; uploadedFiles := uploadedFiles st;
       systemInstructions := systemInstructions st; openaiService := openaiService st;
       isLoading := isLoading st; activeTab := activeTab st; keyInput := keyInput st;
       isValidating := isValidating st; toasts := toasts st;
       localStorage := localStorage st |}).

Definition setUploadedFiles (v : list UploadedFile.t) : Async State unit :=
  assign (fun st =>
    {| apiKey := apiKey st; uploadedFiles := v;
       systemInstructions := systemInstructions st; openaiService := openaiService st;
       isLoading := isLoading st; activeTab := activeTab st; keyInput := keyInput st;
       isValidating := isValidating st; toasts := toasts st;
       localStorage := localStorage st |}).

Definition setSystemInstructions (v : string) : Async State unit :=
  assign (fun st =>
    {| apiKey := apiKey st; uploadedFiles := uploadedFiles st;
       systemInstructions := v; openaiService := openaiService st;
       isLoading := isLoading st; activeTab := activeTab st; keyInput := keyInput st;
       isValidating := isValidating st; toasts := toasts st;
       localStorage := localStorage st |}).

Definition setOpenaiService (v : option (OpenAIService.t P)) : Async State unit :=
  assign (fun st =>
    {| apiKey := apiKey st; uploadedFiles := uploadedFiles st;
       systemInstructions := systemInstructions st; openaiService := v;
       isLoading := isLoading st; activeTab := activeTab st; keyInput := keyInput st;
       isValidating := isValidating st; toasts := toasts st;
       localStorage := localStorage st |}).

Definition setIsLoading (v : bool) : Async State unit :=
  assign (fun st =>
    {| apiKey := apiKey st; uploadedFiles := uploadedFiles st;
       systemInstructions := systemInstructions st; openaiService := openaiService st;
       isLoading := v; activeTab := activeTab st; keyInput := keyInput st;
       isValidating := isValidating st; toasts := toasts st;
       localStorage := localStorage st |}).

Definition setActiveTab (v : string) : Async State unit :=
  assign (fun st =>
    {| apiKey := apiKey st; uploadedFiles := uploadedFiles st;
       systemInstructions := systemInstructions st; openaiService := openaiService st;
       isLoading := isLoading st; activeTab := v; keyInput := keyInput st;
       isValidating := isValidating st; toasts := toasts st;
       localStorage := localStorage st |}).

Definition setIsValidating (v : bool) : Async State unit :=
  assign (fun st =>
    {| apiKey := apiKey st; uploadedFiles := uploadedFiles st;
       systemInstructions := systemInstructions st; openaiService := openaiService st;
       isLoading := isLoading st; activeTab := activeTab st; keyInput := keyInput st;
       isValidating := v; toasts := toasts st;
       localStorage := localStorage st |}).

(** [toast(t)] *)
Definition toast (t : Toast) : Async State unit :=
  assign (fun st =>
    {| apiKey := apiKey st; uploadedFiles := uploadedFiles st;
       systemInstructions := systemInstructions st; openaiService := openaiService st;
       isLoading := isLoading st; activeTab := activeTab st; keyInput := keyInput st;
       isValidating := isValidating st; toasts := (toasts st ++ [t])%list;
       localStorage := localStorage st |}).

(** [localStorage.setItem(key, value)] *)
Definition localStorage_setItem (key value : string) : Async State unit :=
  assign (fun st =>
    {| apiKey := apiKey st; uploadedFiles := uploadedFiles st;
       systemInstructions := systemInstructions st; openaiService := openaiService st;
       isLoading := isLoading st; activeTab := activeTab st; keyInput := keyInput st;
       isValidating := isValidating st; toasts := toasts st;
       localStorage := fun k => if (k =? key)%string then Some value else localStorage st k |}).

(** The method of the service held in [openaiService], which is mutated
    in place. *)
Definition onService {A : Type} (service : OpenAIService.t P)
  (m : Async (OpenAIService.t P) A) : Async State A :=
  fun st =>
    let '(r, service', calls) := m service in
    (r,
     {| apiKey := apiKey st; uploadedFiles := uploadedFiles st;
        systemInstructions := systemInstructions st; openaiService := Some service';
        isLoading := isLoading st; activeTab := activeTab st; keyInput := keyInput st;
        isValidating := isValidating st; toasts := toasts st;
        localStorage := localStorage st |},
     calls).

(** [try { m } finally { f }], for an [f] that does not throw. *)
Definition tryFinally {A : Type} (m : Async State A) (f : Async State unit) : Async State A :=
  fun st =>
    let '(r, st1, calls1) := m st in
    let '(_, st2, calls2) := f st1 in
    (r, st2, (calls1 ++ calls2)%list).

Definition DEFAULT_INSTRUCTIONS : string :=
  "You are a helpful AI assistant that analyzes documents and answers questions based on their content. "
  ++ JS.nl ++ JS.nl ++ "Guidelines:" ++ JS.nl
  ++ "- Always base your answers on the provided documents" ++ JS.nl
  ++ "- If information isn't available in the documents, clearly state that" ++ JS.nl
  ++ "- Provide detailed and accurate responses" ++ JS.nl
  ++ "- Include relevant quotes or references when appropriate" ++ JS.nl
  ++ "- Be concise but comprehensive in your explanations".

(** The page before its mount effect runs, in a browser whose local
    storage is [storage]. *)
Definition initial (storage : string -> option string) : State :=
  {| apiKey := EmptyString; uploadedFiles := [];
     systemInstructions := DEFAULT_INSTRUCTIONS; openaiService := None;
     isLoading := false; activeTab := "upload"; keyInput := EmptyString;
     isValidating := false; toasts := [];
     localStorage := storage |}.

(** The effect run on mount: the saved API key, if any, is loaded. *)
Definition onMount : Async State unit :=
  st <- this ;;
  match localStorage st "openai_api_key" with
  | Some savedApiKey =>
      if JS.truthy savedApiKey
      then setApiKey savedApiKey ;;
           setOpenaiService (Some (OpenAIService.constructor P (Some savedApiKey)))
      else ret tt
  | None => ret tt
  end.

Definition handleApiKeySet (key : string) : Async State unit :=
  setApiKey key ;;
  localStorage_setItem "openai_api_key" key ;;
  setOpenaiService (Some (OpenAIService.constructor P (Some key))).

Definition handleFilesChange (files : list UploadedFile.t) : Async State unit :=
  st <- this ;;
  setUploadedFiles files ;;
  if (0 <? List.length files)%nat
  then
    match openaiService st with
    | Some service =>
        setIsLoading true ;;
        tryFinally
          (tryCatch
             (onService service
                (OpenAIService.uploadFiles P files ;;
                 OpenAIService.createAssistant P (systemInstructions st)) ;;
              toast {| title := "Files processed successfully";
                       description := "Your documents are now ready for analysis. You can start chatting!";
                       destructive := false |} ;;
              setActiveTab "chat")
             (fun error =>
                toast {| title := "Error processing files";
                         description := "Failed to upload and process files. Please try again.";
                         destructive := true |}))
          (setIsLoading false)
    | None => ret tt
    end
  else ret tt.

Definition handleSystemInstructionsChange (instructions : string) : Async State unit :=
  st <- this ;;
  setSystemInstructions instructions ;;
  match openaiService st with
  | Some service =>
      if OpenAIService.isReady P service
      then
        tryCatch
          (onService service (OpenAIService.updateSystemInstructions P instructions) ;;
           toast {| title := "Instructions updated";
                    description := "System instructions have been updated successfully.";
                    destructive := false |})
          (fun error =>
             toast {| title := "Error updating instructions";
                      description := "Failed to update system instructions.";
                      destructive := true |})
      else ret tt
  | None => ret tt
  end.

(** [handleSubmit] of the API-key form, whose [onApiKeySet] is
    [handleApiKeySet]. *)
Definition handleSubmit : Async State unit :=
  st <- this ;;
  if negb (JS.truthy (JS.trim (keyInput st))) then ret tt
  else
    setIsValidating true ;;
    tryFinally
      (tryCatch
         ((if negb (JS.startsWith (keyInput st) "sk-")
           then throw (mkError "Invalid API key format")
           else ret tt) ;;
          handleApiKeySet (JS.trim (keyInput st)) ;;
          toast {| title := "API Key Set Successfully";
                   description := "You can now start uploading files and chatting with your documents.";
                   destructive := false |})
         (fun error =>
            toast {| title := "Invalid API Key";
                     description := "Please check your OpenAI API key and try again.";
                     destructive := true |}))
      (setIsValidating false).

End WithPlatform.

Arguments apiKey {P} _.
Arguments uploadedFiles {P} _.
Arguments systemInstructions {P} _.
Arguments openaiService {P} _.
Arguments isLoading {P} _.
Arguments activeTab {P} _.
Arguments keyInput {P} _.
Arguments isValidating {P} _.
Arguments toasts {P} _.
Arguments localStorage {P} _.

End Page.

(** [handleKeyPress] of the chat: Enter without Shift sends. *)
Definition handleKeyPress (key : string) (shiftKey : bool) (props : Chat.Props)
  (w1 w2 : Chat.Fresh) : Async Chat.State unit :=
  if (key =? "Enter")%string && negb shiftKey
  then Chat.handleSend props w1 w2
  else ret tt.

(** A user message of the chat is well formed when its text is not empty
    and has no white space at either end. *)
Definition trimmed (s : string) : Prop := s <> EmptyString /\ JS.trim s = s.

Definition userMessagesTrimmed (ms : list Chat.Message) : Prop :=
  Forall (fun m => Chat.role m = Chat.user -> trimmed (Chat.content m)) ms.

(** ** [FileUpload]: removing a file *)

Module FileUpload.
Section WithState.
Variable St : Type.

Record Props : Type :=
  { onFilesChange : list UploadedFile.t -> Async St unit;
    uploadedFiles : list UploadedFile.t }.

Definition removeFile (props : Props) (fileId : string) : Async St unit :=
  let updatedFiles :=
    filter (fun file => negb (UploadedFile.id file =? fileId)%string) (uploadedFiles props) in
  onFilesChange props updatedFiles.

End WithState.

Arguments onFilesChange {St} _.
Arguments uploadedFiles {St} _.
Arguments removeFile {St} _ _.

End FileUpload.

(** ** The page with its chat

    What the index page renders decides whether the chat exists: the
    [ChatInterface] element stands in the branch [apiKey && ...], inside
    the chat tab, in the arm of [uploadedFiles.length === 0 ? ... : ...]
    for a list that is not empty.  React keeps the state of a component
    from render to render while its element stays in the tree, discards
    it when the element is gone, and starts from the initial value of
    [useState] when the element comes back. *)

Module App.
Section WithPlatform.
Variable P : Platform.

(** The page renders a [ChatInterface] element. *)
Definition showsChat (st : Page.State P) : bool :=
  JS.truthy (Page.apiKey st) && negb (List.length (Page.uploadedFiles st) =? 0)%nat.

(** The callbacks that the page hands to its children and that change its
    state: [onApiKeySet], [onFilesChange] (called by [FileUpload] with the
    new list), the remove button of a file, [onInstructionsChange] and
    [onValueChange] of the tabs. *)
Inductive Event : Type :=
| apiKeySet (key : string)
| filesChange (files : list UploadedFile.t)
| removeFile (fileId : string)
| instructionsChange (instructions : string)
| tabChange (value : string).

Definition handle (ev : Event) : Async (Page.State P) unit :=
  match ev with
  | apiKeySet key => Page.handleApiKeySet P key
  | filesChange files => Page.handleFilesChange P files
  | removeFile fileId =>
      st <- this ;;
      FileUpload.removeFile
        {| FileUpload.onFilesChange := Page.handleFilesChange P;
           FileUpload.uploadedFiles := Page.uploadedFiles st |}
        fileId
  | instructionsChange instructions => Page.handleSystemInstructionsChange P instructions
  | tabChange value => Page.setActiveTab P value
  end.

(** The page, the chat component when it is mounted, and the number of
    times the chat has been mounted so far: two states with the same
    number and a chat hold the same instance of the component. *)
Record Config : Type :=
  { page : Page.State P;
    chat : option Chat.Config;
    instance : nat }.


(** An event of the page followed by the render: a chat whose element is
    no longer rendered is unmounted.  (A handler that awaits sets the list
    of files and the key before its first [await], so the renders in
    between show the chat exactly when the last one does.) *)
Definition dispatch (ev : Event) (a : Config) : Config :=
  let st' := final (handle ev (page a)) in
  {| page := st';
     chat := if showsChat st' then chat a else None;
     instance := instance a |}.

(** The chat mounts at time [t0]: its state is the initial one. *)
Definition mount (t0 : Z) (a : Config) : Config :=
  {| page := page a;
     chat := Some {| Chat.ui := Chat.initial t0; Chat.inFlight := [] |};
     instance := S (instance a) |}.

Definition unmount (a : Config) : Config :=
  {| page := page a; chat := None; instance := instance a |}.

(** The steps of the page with its chat: an event of the page, an event
    of the mounted chat, the chat mounting when the page renders it, and
    the chat unmounting.  The chat element is a child of the chat tab,
    whose component is not among the sources and may or may not keep the
    content of a tab that is not selected: so a rendered chat may be
    mounted or not, and may unmount at any time. *)
Inductive Step : Config -> Config -> Prop :=
| step_page (a : Config) (ev : Event) :
    Step a (dispatch ev a)
| step_chat (a : Config) (c c' : Chat.Config) :
    chat a = Some c -> Chat.Step c c' ->
    Step a {| page := page a; chat := Some c'; instance := instance a |}
| step_mount (a : Config) (t0 : Z) :
    showsChat (page a) = true -> chat a = None ->
    Step a (mount t0 a)
| step_unmount (a : Config) :
    Step a (unmount a).

Inductive Steps : Config -> Config -> Prop :=
| steps_refl (a : Config) : Steps a a
| steps_step (a1 a2 a3 : Config) : Step a1 a2 -> Steps a2 a3 -> Steps a1 a3.


End WithPlatform.

Arguments page {P} _.
Arguments chat {P} _.
Arguments instance {P} _.

End App.



(** ** More inputs *)

Module Demo2.

(** A PDF of two pages whose second page cannot be fetched, and the
    platform on which pdf.js opens it. *)
Definition tornPdf : PdfDocument :=
  {| numPages := 2;
     getPage := fun i =>
       if (i =? 1)%nat
       then Resolved {| getTextContent := Resolved [Some "Page one"] |}
       else Rejected (mkError "Invalid page request") |}.

Definition tornPlatform : Platform :=
  {| Embedding := nat;
     pdfjs_getDocument := fun _ => Resolved tornPdf;
     mammoth_extractRawText := mammoth_extractRawText Demo.online;
     PizZip_files := PizZip_files Demo.online;
     createDocuments := Splitter.createDocuments;
     embedDocuments := embedDocuments Demo.online;
     embedQuery := embedQuery Demo.online;
     moreSimilar := moreSimilar Demo.online;
     chat_completions_create := chat_completions_create Demo.online |}.

(** The platform on which the embeddings of documents cannot be
    computed. *)
Definition unindexable : Platform :=
  {| Embedding := nat;
     pdfjs_getDocument := pdfjs_getDocument Demo.online;
     mammoth_extractRawText := mammoth_extractRawText Demo.online;
     PizZip_files := PizZip_files Demo.online;
     createDocuments := Splitter.createDocuments;
     embedDocuments := fun _ _ => Rejected (mkError "Failed to fetch");
     embedQuery := embedQuery Demo.online;
     moreSimilar := moreSimilar Demo.online;
     chat_completions_create := chat_completions_create Demo.online |}.

(** A new page in a browser without saved key, where a key has been
    typed into the form. *)
Definition typedKey : Page.State Demo.online :=
  {| Page.apiKey := EmptyString; Page.uploadedFiles := [];
     Page.systemInstructions := Page.DEFAULT_INSTRUCTIONS; Page.openaiService := None;
     Page.isLoading := false; Page.activeTab := "upload"; Page.keyInput := "sk-demo ";
     Page.isValidating := false; Page.toasts := [];
     Page.localStorage := fun _ => None |}.

(** The page once its key is set. *)
Definition keyedPage : Page.State Demo.online :=
  final (Page.handleApiKeySet Demo.online "sk-demo" typedKey).






End Demo2.

(** * Properties *)

(** ** The string functions on examples *)

(** [trim], [endsWith] and the decimal notation on small inputs. *)
Example trim_ex : JS.trim "  hi there  " = "hi there" /\ JS.endsWith "main.py" ".py" = true
  /\ JS.ofZ 12 = "12" /\ JS.ofZ 0 = "0".
Proof. repeat split; reflexivity. Qed.

(** The text runs of a slide, and a run without its tags. *)
Example pptx_ex :
  Pptx.matchRuns "<a:p><a:t>Hello</a:t><a:r><a:t x=1>World</a:t></a:r>"
  = Some ["<a:t>Hello</a:t>"; "<a:t x=1>World</a:t>"]
  /\ Pptx.stripTags "<a:t x=1>World</a:t>" = "World"
  /\ Pptx.stripTags "a < b" = "a < b".
Proof. repeat split; reflexivity. Qed.

(** ** Computations that touch neither the receiver nor a hosted service *)

Lemma effectFree_ret {St A : Type} (a : A) : effectFree (@ret St A a).
Proof. intros s; exists (Resolved a); reflexivity. Qed.

Lemma effectFree_await {St A : Type} (r : result A) : effectFree (@await St A r).
Proof. intros s; exists r; reflexivity. Qed.

Lemma effectFree_bind {St A B : Type} (m : Async St A) (f : A -> Async St B) :
  effectFree m -> (forall a, effectFree (f a)) -> effectFree (bind m f).
Proof.
  intros Hm Hf s. unfold bind.
  destruct (Hm s) as [r Hr]. rewrite Hr.
  destruct r as [a|e].
  - destruct (Hf a s) as [r' Hr']. rewrite Hr'. exists r'. reflexivity.
  - exists (Rejected e). reflexivity.
Qed.

Lemma effectFree_tryCatch {St A : Type} (m : Async St A) (h : Error -> Async St A) :
  effectFree m -> (forall e, effectFree (h e)) -> effectFree (tryCatch m h).
Proof.
  intros Hm Hh s. unfold tryCatch.
  destruct (Hm s) as [r Hr]. rewrite Hr.
  destruct r as [a|e].
  - exists (Resolved a). reflexivity.
  - destruct (Hh e s) as [r' Hr']. rewrite Hr'. exists r'. reflexivity.
Qed.

(** A [try] whose handler returns a value always resolves: with the value
    of the block, or with the handler's when the block rejects. *)
Lemma tryCatch_placeholder {St A : Type} (m : Async St A) (d : A) (s : St) :
  effectFree m ->
  exists a, tryCatch m (fun _ => ret d) s = (Resolved a, s, [])
            /\ (outcome (m s) = Resolved a
                \/ (exists e, outcome (m s) = Rejected e) /\ a = d).
Proof.
  intros Hm. unfold tryCatch. destruct (Hm s) as [r Hr]. rewrite Hr.
  destruct r as [a|e]; simpl.
  - exists a. split; [reflexivity | left; reflexivity].
  - exists d. split; [reflexivity | right; split; [exists e|]; reflexivity].
Qed.

Lemma bind_resolved {St A B : Type} (m : Async St A) (f : A -> Async St B) (s : St) (b : B) :
  outcome (bind m f s) = Resolved b ->
  exists a, outcome (m s) = Resolved a /\ outcome (f a (final (m s))) = Resolved b.
Proof.
  unfold bind, outcome, final.
  destruct (m s) as [[r s1] t1]. destruct r as [a|e]; simpl.
  - destruct (f a s1) as [[r2 s2] t2] eqn:E. simpl. intros ->.
    exists a. rewrite E. split; reflexivity.
  - discriminate.
Qed.

(** ** Strings *)

Lemma or_else_nonempty (a b : string) : b <> EmptyString -> JS.or_else a b <> EmptyString.
Proof.
  intros Hb. unfold JS.or_else. destruct a; simpl; [exact Hb | discriminate].
Qed.

Lemma append_nonempty (a b : string) : a <> EmptyString -> a ++ b <> EmptyString.
Proof. destruct a; simpl; [congruence | discriminate]. Qed.

(** ** Extraction *)

Section Extraction.
Variable P : Platform.
Variable St : Type.

Lemma pdfPages_effectFree (pdf : PdfDocument) (remaining i : nat) (fullText : string) :
  effectFree (@OpenAIService.pdfPages St pdf i remaining fullText).
Proof.
  revert i fullText. induction remaining as [|r IH]; intros i fullText; simpl.
  - apply effectFree_ret.
  - apply effectFree_bind; [apply effectFree_await|]. intros page.
    apply effectFree_bind; [apply effectFree_await|]. intros items. apply IH.
Qed.

Lemma pptxSlides_effectFree (files : ZipFiles) (slideFiles : list string) (fullText : string) :
  effectFree (@OpenAIService.pptxSlides St files slideFiles fullText).
Proof.
  revert fullText. induction slideFiles as [|f rest IH]; intros fullText; simpl.
  - apply effectFree_ret.
  - apply effectFree_bind; [apply effectFree_await|]. intros content.
    destruct (Pptx.matchRuns content); apply IH.
Qed.

Lemma pdfText_effectFree (file : File.t) : effectFree (@OpenAIService.pdfText P St file).
Proof.
  unfold OpenAIService.pdfText.
  repeat (apply effectFree_bind; [first [apply effectFree_await | apply pdfPages_effectFree]|]; intros ?).
  apply effectFree_ret.
Qed.

Lemma docxText_effectFree (file : File.t) : effectFree (@OpenAIService.docxText P St file).
Proof.
  unfold OpenAIService.docxText.
  repeat (apply effectFree_bind; [apply effectFree_await|]; intros ?).
  apply effectFree_ret.
Qed.

Lemma pptxText_effectFree (file : File.t) : effectFree (@OpenAIService.pptxText P St file).
Proof.
  unfold OpenAIService.pptxText.
  repeat (apply effectFree_bind; [first [apply effectFree_await | apply pptxSlides_effectFree]|]; intros ?).
  apply effectFree_ret.
Qed.

(** What the [try] block of the PDF and PPTX extractors returns is never
    empty: an empty text is replaced by a message naming the file. *)
Lemma pdfText_nonempty (file : File.t) (s : St) (a : string) :
  outcome (@OpenAIService.pdfText P St file s) = Resolved a -> a <> EmptyString.
Proof.
  unfold OpenAIService.pdfText. intros H.
  apply bind_resolved in H. destruct H as [buf [_ H]].
  apply bind_resolved in H. destruct H as [pdf [_ H]].
  apply bind_resolved in H. destruct H as [fullText [_ H]].
  unfold ret, outcome in H. cbn [fst] in H. injection H as <-.
  apply or_else_nonempty. discriminate.
Qed.

Lemma pptxText_nonempty (file : File.t) (s : St) (a : string) :
  outcome (@OpenAIService.pptxText P St file s) = Resolved a -> a <> EmptyString.
Proof.
  unfold OpenAIService.pptxText. intros H.
  apply bind_resolved in H. destruct H as [buf [_ H]].
  apply bind_resolved in H. destruct H as [files [_ H]].
  apply bind_resolved in H. destruct H as [fullText [_ H]].
  unfold ret, outcome in H. cbn [fst] in H. injection H as <-.
  apply or_else_nonempty. discriminate.
Qed.

Lemma extractPdfText_nonempty (file : File.t) (s : St) :
  exists a, @OpenAIService.extractPdfText P St file s = (Resolved a, s, [])
            /\ a <> EmptyString.
Proof.
  unfold OpenAIService.extractPdfText.
  destruct (tryCatch_placeholder (OpenAIService.pdfText P file)
              ("Error extracting content from PDF: " ++ File.name file) s
              (pdfText_effectFree file)) as [a [Ha Hc]].
  exists a. split; [exact Ha|].
  destruct Hc as [Hc | [_ ->]].
  - exact (pdfText_nonempty file s a Hc).
  - apply append_nonempty. discriminate.
Qed.

Lemma extractPptxText_nonempty (file : File.t) (s : St) :
  exists a, @OpenAIService.extractPptxText P St file s = (Resolved a, s, [])
            /\ a <> EmptyString.
Proof.
  unfold OpenAIService.extractPptxText.
  destruct (tryCatch_placeholder (OpenAIService.pptxText P file)
              ("Error extracting content from PPTX: " ++ File.name file) s
              (pptxText_effectFree file)) as [a [Ha Hc]].
  exists a. split; [exact Ha|].
  destruct Hc as [Hc | [_ ->]].
  - exact (pptxText_nonempty file s a Hc).
  - apply append_nonempty. discriminate.
Qed.

End Extraction.

(** ** The extraction step of [uploadFiles] *)

Section ExtractFile.
Variable P : Platform.
Variable St : Type.

Lemma extractFile_parsed_pdf (file : UploadedFile.t) (s : St) :
  File.type (UploadedFile.file file) = OpenAIService.mimePdf ->
  @OpenAIService.extractFile P St file s
  = bind (OpenAIService.extractPdfText P (UploadedFile.file file))
         (fun content => ret {| ExtractedFile.name := UploadedFile.name file;
                                ExtractedFile.content := content |}) s.
Proof.
  intros H. unfold OpenAIService.extractFile. rewrite H. reflexivity.
Qed.

Lemma extractFile_parsed_docx (file : UploadedFile.t) (s : St) :
  File.type (UploadedFile.file file) = OpenAIService.mimeDocx ->
  @OpenAIService.extractFile P St file s
  = bind (OpenAIService.extractDocxText P (UploadedFile.file file))
         (fun content => ret {| ExtractedFile.name := UploadedFile.name file;
                                ExtractedFile.content := content |}) s.
Proof.
  intros H. unfold OpenAIService.extractFile. rewrite H. reflexivity.
Qed.

Lemma extractFile_parsed_pptx (file : UploadedFile.t) (s : St) :
  File.type (UploadedFile.file file) = OpenAIService.mimePptx ->
  @OpenAIService.extractFile P St file s
  = bind (OpenAIService.extractPptxText P (UploadedFile.file file))
         (fun content => ret {| ExtractedFile.name := UploadedFile.name file;
                                ExtractedFile.content := content |}) s.
Proof.
  intros H. unfold OpenAIService.extractFile. rewrite H. reflexivity.
Qed.

Lemma extractFile_plain (file : UploadedFile.t) (s : St) :
  OpenAIService.readAsPlainText file = true ->
  @OpenAIService.extractFile P St file s
  = bind (OpenAIService.readText (UploadedFile.file file))
         (fun content => ret {| ExtractedFile.name := UploadedFile.name file;
                                ExtractedFile.content := content |}) s.
Proof.
  unfold OpenAIService.readAsPlainText, OpenAIService.parsed, OpenAIService.extractFile.
  intros H. apply andb_prop in H. destruct H as [Hn Ht].
  apply negb_true_iff in Hn. apply orb_false_iff in Hn. destruct Hn as [Hn Hpptx].
  apply orb_false_iff in Hn. destruct Hn as [Hpdf Hdocx].
  rewrite Hpdf, Hdocx, Hpptx, Ht. reflexivity.
Qed.

Lemma extractFile_unsupported (file : UploadedFile.t) (s : St) :
  OpenAIService.supported file = false ->
  @OpenAIService.extractFile P St file s
  = (Resolved {| ExtractedFile.name := UploadedFile.name file;
                 ExtractedFile.content := "Unsupported file type: " ++ UploadedFile.name file |},
     s, []).
Proof.
  unfold OpenAIService.supported, OpenAIService.readAsPlainText, OpenAIService.parsed,
    OpenAIService.extractFile.
  intros H. apply orb_false_iff in H. destruct H as [Hn Ht].
  rewrite Hn in Ht. cbn [negb andb] in Ht.
  apply orb_false_iff in Hn. destruct Hn as [Hn Hpptx].
  apply orb_false_iff in Hn. destruct Hn as [Hpdf Hdocx].
  rewrite Hpdf, Hdocx, Hpptx, Ht. reflexivity.
Qed.

(** The three parsed formats: the extraction resolves, without effect,
    and a failed [try] block leaves the placeholder. *)
Lemma extractFile_parsed (file : UploadedFile.t) (s : St) :
  OpenAIService.parsed file = true ->
  exists content,
    @OpenAIService.extractFile P St file s
    = (Resolved {| ExtractedFile.name := UploadedFile.name file;
                   ExtractedFile.content := content |}, s, []).
Proof.
  unfold OpenAIService.parsed. intros H.
  destruct (String.eqb_spec (File.type (UploadedFile.file file)) OpenAIService.mimePdf) as [Epdf|_].
  { rewrite (extractFile_parsed_pdf file s Epdf). unfold bind.
    destruct (extractPdfText_nonempty P St (UploadedFile.file file) s) as [a [Ha _]].
    rewrite Ha. exists a. reflexivity. }
  destruct (String.eqb_spec (File.type (UploadedFile.file file)) OpenAIService.mimeDocx) as [Edocx|_].
  { rewrite (extractFile_parsed_docx file s Edocx). unfold bind, OpenAIService.extractDocxText.
    destruct (tryCatch_placeholder (OpenAIService.docxText P (UploadedFile.file file))
                ("Error extracting content from DOCX: " ++ File.name (UploadedFile.file file)) s
                (docxText_effectFree P St (UploadedFile.file file))) as [a [Ha _]].
    rewrite Ha. exists a. reflexivity. }
  destruct (String.eqb_spec (File.type (UploadedFile.file file)) OpenAIService.mimePptx) as [Epptx|_].
  { rewrite (extractFile_parsed_pptx file s Epptx). unfold bind.
    destruct (extractPptxText_nonempty P St (UploadedFile.file file) s) as [a [Ha _]].
    rewrite Ha. exists a. reflexivity. }
  discriminate H.
Qed.

End ExtractFile.

Section Batch.
Variable P : Platform.
Variable St : Type.

Lemma tryCatch_rejected {A : Type} (m : Async St A) (d : A) (s : St) (e : Error) :
  effectFree m -> outcome (m s) = Rejected e ->
  tryCatch m (fun _ => ret d) s = (Resolved d, s, []).
Proof.
  intros Hm He. unfold tryCatch. destruct (Hm s) as [r Hr].
  rewrite Hr in *. unfold outcome in He. cbn [fst] in He. subst r. reflexivity.
Qed.

Lemma extractFile_degraded (file : UploadedFile.t) (s : St) (placeholder : string) :
  degraded P s file = Some placeholder ->
  @OpenAIService.extractFile P St file s
  = (Resolved {| ExtractedFile.name := UploadedFile.name file;
                 ExtractedFile.content := placeholder |}, s, []).
Proof.
  unfold degraded. intros H.
  destruct (String.eqb_spec (File.type (UploadedFile.file file)) OpenAIService.mimePdf) as [Epdf|_].
  { rewrite (extractFile_parsed_pdf P St file s Epdf).
    destruct (outcome (OpenAIService.pdfText P (UploadedFile.file file) s)) as [a|e] eqn:E;
      [discriminate|]. injection H as <-.
    unfold bind, OpenAIService.extractPdfText.
    rewrite (tryCatch_rejected _ _ s e (pdfText_effectFree P St _) E). reflexivity. }
  destruct (String.eqb_spec (File.type (UploadedFile.file file)) OpenAIService.mimeDocx) as [Edocx|_].
  { rewrite (extractFile_parsed_docx P St file s Edocx).
    destruct (outcome (OpenAIService.docxText P (UploadedFile.file file) s)) as [a|e] eqn:E;
      [discriminate|]. injection H as <-.
    unfold bind, OpenAIService.extractDocxText.
    rewrite (tryCatch_rejected _ _ s e (docxText_effectFree P St _) E). reflexivity. }
  destruct (String.eqb_spec (File.type (UploadedFile.file file)) OpenAIService.mimePptx) as [Epptx|_].
  { rewrite (extractFile_parsed_pptx P St file s Epptx).
    destruct (outcome (OpenAIService.pptxText P (UploadedFile.file file) s)) as [a|e] eqn:E;
      [discriminate|]. injection H as <-.
    unfold bind, OpenAIService.extractPptxText.
    rewrite (tryCatch_rejected _ _ s e (pptxText_effectFree P St _) E). reflexivity. }
  discriminate H.
Qed.

Lemma degraded_parsed (file : UploadedFile.t) (s : St) (placeholder : string) :
  degraded P s file = Some placeholder -> OpenAIService.parsed file = true.
Proof.
  unfold degraded, OpenAIService.parsed.
  destruct (File.type (UploadedFile.file file) =? OpenAIService.mimePdf)%string; [reflexivity|].
  destruct (File.type (UploadedFile.file file) =? OpenAIService.mimeDocx)%string; [reflexivity|].
  destruct (File.type (UploadedFile.file file) =? OpenAIService.mimePptx)%string; [reflexivity|].
  discriminate.
Qed.

(** One file: either the extraction resolves without effect, or the file
    is a plain-text file that cannot be read and the promise rejects. *)
Lemma extractFile_cases (file : UploadedFile.t) (s : St) :
  (exists x, @OpenAIService.extractFile P St file s = (Resolved x, s, [])
             /\ extractedAs P s file x
             /\ ~ unreadable file)
  \/ (unreadable file
      /\ @OpenAIService.extractFile P St file s
         = (Rejected (mkError "Failed to read file"), s, [])).
Proof.
  destruct (OpenAIService.parsed file) eqn:Hp.
  - left. destruct (extractFile_parsed P St file s Hp) as [content Hc].
    eexists. split; [exact Hc|]. split.
    + split; [reflexivity|]. intros ph Hd.
      rewrite (extractFile_degraded file s ph Hd) in Hc. injection Hc as <-. reflexivity.
    + intros [Hr _]. unfold OpenAIService.readAsPlainText in Hr. rewrite Hp in Hr. discriminate.
  - assert (Hnd : forall ph, degraded P s file <> Some ph).
    { intros ph Hd. apply degraded_parsed in Hd. congruence. }
    destruct (OpenAIService.readAsPlainText file) eqn:Hr.
    + rewrite (extractFile_plain P St file s Hr).
      unfold bind, OpenAIService.readText, await.
      destruct (File.readAsText (UploadedFile.file file)) as [r|] eqn:Hread.
      * left. eexists. split; [reflexivity|]. split.
        -- split; [reflexivity|]. intros ph Hd. destruct (Hnd ph Hd).
        -- intros [_ Hu]. congruence.
      * right. split; [split; assumption | reflexivity].
    + left. eexists. split.
      * apply extractFile_unsupported. unfold OpenAIService.supported. rewrite Hp, Hr. reflexivity.
      * split.
        -- split; [reflexivity|]. intros ph Hd. destruct (Hnd ph Hd).
        -- intros [Hu _]. congruence.
Qed.

(** The batch: all files come out, in order, unless one is unreadable. *)
Lemma Promise_all_extract (files : list UploadedFile.t) (s : St) :
  (forall file, In file files -> ~ unreadable file) ->
  exists extracted,
    Promise_all (map (@OpenAIService.extractFile P St) files) s = (Resolved extracted, s, [])
    /\ Forall2 (extractedAs P s) files extracted.
Proof.
  induction files as [|file files IH]; intros Hok; simpl.
  - exists []. split; [reflexivity | constructor].
  - destruct (extractFile_cases file s) as [[x [Hx [Has _]]] | [Hu _]].
    + destruct IH as [xs [Hxs Hall]]; [intros f Hf; apply Hok; right; exact Hf|].
      exists (x :: xs). split.
      * unfold bind at 1. rewrite Hx. unfold bind at 1. rewrite Hxs. reflexivity.
      * constructor; assumption.
    + destruct (Hok file (or_introl eq_refl) Hu).
Qed.

Lemma Promise_all_unreadable (files : list UploadedFile.t) (s : St) :
  (exists file, In file files /\ unreadable file) ->
  Promise_all (map (@OpenAIService.extractFile P St) files) s
  = (Rejected (mkError "Failed to read file"), s, []).
Proof.
  induction files as [|file files IH]; intros [bad [Hin Hbad]]; simpl.
  - destruct Hin.
  - destruct (extractFile_cases file s) as [[x [Hx [_ Hnu]]] | [_ Hrej]].
    + unfold bind at 1. rewrite Hx.
      destruct Hin as [-> | Hin]; [destruct (Hnu Hbad)|].
      unfold bind at 1. rewrite IH; [reflexivity | exists bad; split; assumption].
    + unfold bind at 1. rewrite Hrej. reflexivity.
Qed.

End Batch.

(** ** [VectorStoreService.addDocuments] and [uploadFiles], step by step *)

Section Upload.
Variable P : Platform.

Lemma addDocuments_spec (documents : list ExtractedFile.t) (s : VectorStoreService.t P)
  (store : MemoryVectorStore.t P) (e : Api.OpenAIEmbeddings) :
  VectorStoreService.vectorStore s = Some store ->
  VectorStoreService.embeddings s = Some e ->
  let allDocs := flat_map (VectorStoreService.docsWithMetadata P s) documents in
  let texts := map pageContent allDocs in
  let ev := Api.EmbedDocuments (MemoryVectorStore.embeddings store) texts in
  VectorStoreService.addDocuments P documents s
  = match embedDocuments P (MemoryVectorStore.embeddings store) texts with
    | Resolved vectors =>
        (Resolved tt,
         {| VectorStoreService.vectorStore :=
              Some {| MemoryVectorStore.embeddings := MemoryVectorStore.embeddings store;
                      MemoryVectorStore.memoryVectors :=
                        (MemoryVectorStore.memoryVectors store ++ combine vectors allDocs)%list |};
            VectorStoreService.embeddings := Some e;
            VectorStoreService.textSplitter := VectorStoreService.textSplitter s |},
         [ev])
    | Rejected err => (Rejected err, s, [ev])
    end.
Proof.
  intros Hs He. destruct s as [vs emb ts]. cbn in Hs, He. subst vs emb.
  cbv zeta. unfold VectorStoreService.addDocuments, MemoryVectorStore.addDocuments.
  unfold bind, this, within, call, assign. cbn.
  destruct (embedDocuments P _ _); reflexivity.
Qed.

Lemma addDocuments_uninitialised (documents : list ExtractedFile.t)
  (s : VectorStoreService.t P) :
  VectorStoreService.isInitialized P s = false ->
  VectorStoreService.addDocuments P documents s
  = (Rejected (mkError "Vector store not initialized"), s, []).
Proof.
  unfold VectorStoreService.isInitialized, VectorStoreService.addDocuments, bind, this.
  cbn. destruct (VectorStoreService.vectorStore s), (VectorStoreService.embeddings s);
    intros H; try discriminate; reflexivity.
Qed.

(** [uploadFiles] once the extraction step has resolved. *)
Lemma uploadFiles_extracted (files : list UploadedFile.t) (svc : OpenAIService.t P)
  (c : Api.OpenAI) (extracted : list ExtractedFile.t) :
  OpenAIService.client svc = Some c ->
  Promise_all (map (OpenAIService.extractFile P) files) svc = (Resolved extracted, svc, []) ->
  let svc1 := OpenAIService.set_fileContents P
                (OpenAIService.fileContents svc ++ extracted)%list svc in
  OpenAIService.uploadFiles P files svc
  = if VectorStoreService.isInitialized P (OpenAIService.vectorStore svc)
    then let '(r, vs, calls) :=
           VectorStoreService.addDocuments P extracted (OpenAIService.vectorStore svc) in
         (r, OpenAIService.set_vectorStore P vs svc1, calls)
    else (Resolved tt, svc1, []).
Proof.
  intros Hc Hall. cbv zeta.
  unfold OpenAIService.uploadFiles. unfold bind at 1. unfold this at 1. cbn iota.
  rewrite Hc. unfold tryCatch. unfold bind at 1. rewrite Hall.
  unfold bind, assign, this, within, throw, ret.
  cbn -[VectorStoreService.addDocuments VectorStoreService.isInitialized].
  destruct (VectorStoreService.isInitialized P (OpenAIService.vectorStore svc));
    cbn -[VectorStoreService.addDocuments]; [|reflexivity].
  destruct (VectorStoreService.addDocuments P extracted (OpenAIService.vectorStore svc))
    as [[r vs] calls].
  destruct r; cbn; rewrite ?app_nil_r; reflexivity.
Qed.

Lemma uploadFiles_unreadable (files : list UploadedFile.t) (svc : OpenAIService.t P)
  (c : Api.OpenAI) :
  OpenAIService.client svc = Some c ->
  (exists file, In file files /\ unreadable file) ->
  OpenAIService.uploadFiles P files svc = (Rejected (mkError "Failed to read file"), svc, []).
Proof.
  intros Hc Hbad.
  unfold OpenAIService.uploadFiles. unfold bind at 1. unfold this at 1. cbn iota.
  rewrite Hc. unfold tryCatch. unfold bind at 1.
  rewrite (Promise_all_unreadable P _ files svc Hbad). reflexivity.
Qed.

End Upload.

(** C1 (as amended).  For every uploaded PDF or PPTX file the extraction
    step of [uploadFiles] resolves with a text that is not empty (the
    text found, or a message naming the file); for a plain-text or [.py]
    file that the browser loads, the text is what the reader delivers,
    which is the empty string for an empty file.  (Nothing is said of
    DOCX files.) *)
Theorem C1_extraction_text (P : Platform) (St : Type) (file : UploadedFile.t) (s : St) :
  OpenAIService.supported file = true ->
  File.type (UploadedFile.file file) <> OpenAIService.mimeDocx ->
  if OpenAIService.parsed file
  then exists content,
      OpenAIService.extractFile P file s
      = (Resolved {| ExtractedFile.name := UploadedFile.name file;
                     ExtractedFile.content := content |}, s, [])
      /\ content <> EmptyString
  else forall target_result,
      File.readAsText (UploadedFile.file file) = onload target_result ->
      OpenAIService.extractFile P file s
      = (Resolved {| ExtractedFile.name := UploadedFile.name file;
                     ExtractedFile.content := JS.opt_or_else target_result EmptyString |},
         s, []).
Proof.
  intros Hsup Hdocx. unfold OpenAIService.supported in Hsup.
  destruct (OpenAIService.parsed file) eqn:Hparsed.
  - unfold OpenAIService.parsed in Hparsed.
    destruct (String.eqb_spec (File.type (UploadedFile.file file)) OpenAIService.mimePdf)
      as [Epdf|_].
    { rewrite (extractFile_parsed_pdf P St file s Epdf). unfold bind.
      destruct (extractPdfText_nonempty P St (UploadedFile.file file) s) as [a [Ha Hne]].
      rewrite Ha. exists a. split; [reflexivity | exact Hne]. }
    destruct (String.eqb_spec (File.type (UploadedFile.file file)) OpenAIService.mimeDocx)
      as [Edocx|_]; [destruct (Hdocx Edocx)|].
    destruct (String.eqb_spec (File.type (UploadedFile.file file)) OpenAIService.mimePptx)
      as [Epptx|_]; [|discriminate Hparsed].
    rewrite (extractFile_parsed_pptx P St file s Epptx). unfold bind.
    destruct (extractPptxText_nonempty P St (UploadedFile.file file) s) as [a [Ha Hne]].
    rewrite Ha. exists a. split; [reflexivity | exact Hne].
  - cbn [orb] in Hsup. intros target_result Hload.
    rewrite (extractFile_plain P St file s Hsup).
    unfold bind, OpenAIService.readText, await. rewrite Hload. reflexivity.
Qed.

(** The theorem on a presentation with one slide. *)
Lemma C1_extraction_text_witness :
  exists content,
    OpenAIService.extractFile Demo.online Demo.talkPptx tt
    = (Resolved {| ExtractedFile.name := "talk.pptx"; ExtractedFile.content := content |},
       tt, [])
    /\ content <> EmptyString.
Proof.
  refine (C1_extraction_text Demo.online unit Demo.talkPptx tt eq_refl _).
  discriminate.
Defined.

(** C1 as stated fails: an empty plain-text file is supported, and its
    extracted text is the empty string. *)
Lemma C1_empty_text_file :
  OpenAIService.supported Demo.emptyTxt = true
  /\ OpenAIService.extractFile Demo.online Demo.emptyTxt tt
     = (Resolved {| ExtractedFile.name := "empty.txt"; ExtractedFile.content := EmptyString |},
        tt, []).
Proof. split; reflexivity. Qed.

(** The DOCX extractor hands on what mammoth returns, without the
    fallback of its two siblings: for a document without text the
    extracted text is empty. *)
Example docx_without_text :
  OpenAIService.extractFile Demo.online Demo.emptyDocx tt
  = (Resolved {| ExtractedFile.name := "empty.docx"; ExtractedFile.content := EmptyString |},
     tt, []).
Proof. reflexivity. Qed.

(** C3 (as amended).  In a batch given to a service with a client, a
    failed extraction of a PDF, DOCX or PPTX file leaves that file's
    placeholder and the extraction step completes for all files, which
    are then recorded, and [uploadFiles] can only reject with the error
    of the embeddings call; but one plain-text or [.py] file that cannot
    be read rejects the whole batch, and nothing is recorded. *)
Theorem C3_parse_failure_degrades (P : Platform) (files : list UploadedFile.t)
  (svc : OpenAIService.t P) (c : Api.OpenAI) :
  OpenAIService.client svc = Some c ->
  ((forall file, In file files -> ~ unreadable file) ->
   exists extracted,
     Promise_all (map (OpenAIService.extractFile P) files) svc = (Resolved extracted, svc, [])
     /\ Forall2 (extractedAs P svc) files extracted
     /\ OpenAIService.fileContents (final (OpenAIService.uploadFiles P files svc))
        = (OpenAIService.fileContents svc ++ extracted)%list
     /\ (forall e, outcome (OpenAIService.uploadFiles P files svc) = Rejected e ->
                   exists emb texts,
                     trace (OpenAIService.uploadFiles P files svc)
                     = [Api.EmbedDocuments emb texts]
                     /\ embedDocuments P emb texts = Rejected e))
  /\ ((exists file, In file files /\ unreadable file) ->
      OpenAIService.uploadFiles P files svc
      = (Rejected (mkError "Failed to read file"), svc, [])).
Proof.
  intros Hc. split.
  - intros Hok.
    destruct (Promise_all_extract P _ files svc Hok) as [extracted [Hall Hext]].
    exists extracted. split; [exact Hall|]. split; [exact Hext|].
    rewrite (uploadFiles_extracted P files svc c extracted Hc Hall).
    destruct (VectorStoreService.isInitialized P (OpenAIService.vectorStore svc)) eqn:Hinit.
    + unfold VectorStoreService.isInitialized in Hinit.
      destruct (VectorStoreService.vectorStore (OpenAIService.vectorStore svc))
        as [store|] eqn:Hs; [|discriminate].
      destruct (VectorStoreService.embeddings (OpenAIService.vectorStore svc))
        as [e|] eqn:He; [|discriminate].
      rewrite (addDocuments_spec P extracted _ store e Hs He).
      destruct (embedDocuments P _ _) as [vectors|err] eqn:Hemb.
      * split; [reflexivity|]. intros e0 H0. discriminate H0.
      * split; [reflexivity|]. intros e0 H0. injection H0 as <-.
        eexists. eexists. split; [reflexivity | exact Hemb].
    + split; [reflexivity|]. intros e0 H0. discriminate H0.
  - apply uploadFiles_unreadable with (c := c). exact Hc.
Qed.

(** The theorem on a batch with an unreadable text file. *)
Lemma C3_parse_failure_degrades_witness :
  OpenAIService.uploadFiles Demo.online [Demo.notesTxt; Demo.brokenTxt] (Demo.keyed Demo.online)
  = (Rejected (mkError "Failed to read file"), Demo.keyed Demo.online, []).
Proof.
  apply (C3_parse_failure_degrades Demo.online [Demo.notesTxt; Demo.brokenTxt]
           (Demo.keyed Demo.online) (OpenAIService.newClient "sk-demo") eq_refl).
  exists Demo.brokenTxt. split.
  - right. left. reflexivity.
  - split; reflexivity.
Defined.

(** C3 as stated fails: the failed read of one text file rejects the
    batch, and the text file read before it is not recorded either. *)
Lemma C3_unreadable_text_rejects_batch :
  outcome (OpenAIService.uploadFiles Demo.online [Demo.notesTxt; Demo.brokenTxt]
             (Demo.keyed Demo.online))
  = Rejected (mkError "Failed to read file")
  /\ OpenAIService.fileContents
       (final (OpenAIService.uploadFiles Demo.online [Demo.notesTxt; Demo.brokenTxt]
                 (Demo.keyed Demo.online)))
     = [].
Proof. split; reflexivity. Qed.

(** A PDF that cannot be read does degrade to its placeholder. *)
Example lost_pdf_placeholder :
  OpenAIService.fileContents
    (final (OpenAIService.uploadFiles Demo.online [Demo.lostPdf; Demo.notesTxt]
              (Demo.keyed Demo.online)))
  = [ {| ExtractedFile.name := "lost.pdf";
         ExtractedFile.content := "Error extracting content from PDF: lost.pdf" |};
      {| ExtractedFile.name := "notes.txt"; ExtractedFile.content := "some notes" |} ].
Proof. reflexivity. Qed.

(** ** Ranking and retrieval *)

Lemma In_firstn {A : Type} (n : nat) (l : list A) (x : A) : In x (firstn n l) -> In x l.
Proof.
  revert l. induction n as [|n IH]; intros [|y l]; simpl; try tauto.
  intros [H | H]; [left; exact H | right; apply IH; exact H].
Qed.

Section Retrieval.
Variable P : Platform.

Lemma insertRanked_length (q : Embedding P) (x : Embedding P * Document)
  (l : list (Embedding P * Document)) :
  List.length (MemoryVectorStore.insertRanked P q x l) = S (List.length l).
Proof.
  induction l as [|y l IH]; simpl; [reflexivity|].
  destruct (moreSimilar P q (fst y) (fst x)); simpl; [rewrite IH|]; reflexivity.
Qed.

Lemma insertRanked_In (q : Embedding P) (x y : Embedding P * Document)
  (l : list (Embedding P * Document)) :
  In y (MemoryVectorStore.insertRanked P q x l) -> y = x \/ In y l.
Proof.
  induction l as [|z l IH]; simpl.
  - intros [H | []]. left. symmetry. exact H.
  - destruct (moreSimilar P q (fst z) (fst x)); simpl.
    + intros [H | H]; [right; left; exact H|].
      destruct (IH H) as [H' | H']; [left | right; right]; exact H'.
    + intros [H | H]; [left; symmetry; exact H | right; exact H].
Qed.

Lemma ranked_length (q : Embedding P) (l : list (Embedding P * Document)) :
  List.length (MemoryVectorStore.ranked P q l) = List.length l.
Proof.
  induction l as [|x l IH]; simpl; [reflexivity|].
  rewrite insertRanked_length. rewrite IH. reflexivity.
Qed.

Lemma ranked_In (q : Embedding P) (y : Embedding P * Document)
  (l : list (Embedding P * Document)) :
  In y (MemoryVectorStore.ranked P q l) -> In y l.
Proof.
  induction l as [|x l IH]; simpl; [tauto|].
  intros H. apply insertRanked_In in H. destruct H as [H | H]; [left; symmetry; exact H|].
  right. apply IH. exact H.
Qed.

(** The search keeps [k] documents, or all of them when there are fewer. *)
Lemma similaritySearch_length (store : MemoryVectorStore.t P) (q : Embedding P) (k : nat) :
  List.length (MemoryVectorStore.similaritySearchVectorWithScore P store q k)
  = Nat.min k (List.length (MemoryVectorStore.memoryVectors store)).
Proof.
  unfold MemoryVectorStore.similaritySearchVectorWithScore.
  rewrite length_map, length_firstn, ranked_length. reflexivity.
Qed.

Lemma similaritySearch_In (store : MemoryVectorStore.t P) (q : Embedding P) (k : nat)
  (d : Document) :
  In d (MemoryVectorStore.similaritySearchVectorWithScore P store q k) ->
  In d (map snd (MemoryVectorStore.memoryVectors store)).
Proof.
  unfold MemoryVectorStore.similaritySearchVectorWithScore. intros H.
  apply in_map_iff in H. destruct H as [x [Hx Hin]].
  apply in_map_iff. exists x. split; [exact Hx|].
  apply (ranked_In q). apply (In_firstn _ _ _ Hin).
Qed.

(** [searchSimilar], case by case. *)
Lemma searchSimilar_cases (s : VectorStoreService.t P) (query : string) (k : option nat) :
  VectorStoreService.searchSimilar P query k s
  = match VectorStoreService.vectorStore s with
    | None => (Rejected (mkError "Vector store not initialized"), s, [])
    | Some store =>
        match VectorStoreService.embeddings s with
        | None =>
            (Rejected (mkError "Cannot read properties of null (reading 'embedQuery')"), s, [])
        | Some e =>
            match embedQuery P e query with
            | Resolved q =>
                (Resolved (map toChunk
                             (MemoryVectorStore.similaritySearchVectorWithScore P store q
                                (match k with Some k => k | None => VectorStoreService.default_k end))),
                 s, [Api.EmbedQuery e query])
            | Rejected err => (Rejected err, s, [Api.EmbedQuery e query])
            end
        end
    end.
Proof.
  unfold VectorStoreService.searchSimilar, bind, this, call, throw, ret.
  destruct (VectorStoreService.vectorStore s) as [store|]; [|reflexivity].
  destruct (VectorStoreService.embeddings s) as [e|]; [|reflexivity].
  destruct (embedQuery P e query) as [q|err]; [|reflexivity].
  cbn. erewrite map_ext; [reflexivity|].
  intros [text [name index total]]. reflexivity.
Qed.

Lemma searchSimilar_final (s : VectorStoreService.t P) (query : string) (k : option nat) :
  final (VectorStoreService.searchSimilar P query k s) = s.
Proof.
  rewrite searchSimilar_cases.
  destruct (VectorStoreService.vectorStore s); [|reflexivity].
  destruct (VectorStoreService.embeddings s) as [e|]; [|reflexivity].
  destruct (embedQuery P e query); reflexivity.
Qed.

Lemma set_vectorStore_same (svc : OpenAIService.t P) :
  OpenAIService.set_vectorStore P (OpenAIService.vectorStore svc) svc = svc.
Proof. destruct svc; reflexivity. Qed.

(** [retrieveContext] leaves the service as it is, and asks for six chunks. *)
Lemma retrieveContext_cases (svc : OpenAIService.t P) (message : string) :
  OpenAIService.retrieveContext P message svc
  = if VectorStoreService.isInitialized P (OpenAIService.vectorStore svc)
    then match VectorStoreService.searchSimilar P message (Some 6) (OpenAIService.vectorStore svc) with
         | (Resolved chunks, _, calls) =>
             (Resolved (JS.join OpenAIService.separator (map OpenAIService.formatChunk chunks)),
              svc, calls)
         | (Rejected e, _, calls) => (Rejected e, svc, calls)
         end
    else (Resolved (JS.join OpenAIService.separator
                            (map OpenAIService.formatFile (OpenAIService.fileContents svc))),
          svc, []).
Proof.
  unfold OpenAIService.retrieveContext. unfold bind at 1. unfold this at 1. cbn iota.
  destruct (VectorStoreService.isInitialized P (OpenAIService.vectorStore svc)); [|reflexivity].
  unfold bind, within, ret.
  pose proof (searchSimilar_final (OpenAIService.vectorStore svc) message (Some 6)) as Hf.
  destruct (VectorStoreService.searchSimilar P message (Some 6) (OpenAIService.vectorStore svc))
    as [[r vs] calls].
  unfold final in Hf. cbn [fst snd] in Hf. subst vs. rewrite set_vectorStore_same.
  destruct r; [rewrite app_nil_r|]; reflexivity.
Qed.

(** [sendMessage] on a service that is ready: the context is retrieved,
    then one request is sent, and an error of either step is thrown on. *)
Lemma sendMessage_ready (svc : OpenAIService.t P) (message : string) (c : Api.OpenAI) :
  OpenAIService.client svc = Some c ->
  OpenAIService.fileContents svc <> [] ->
  OpenAIService.sendMessage P message svc
  = match OpenAIService.retrieveContext P message svc with
    | (Resolved context, _, calls) =>
        let request :=
          OpenAIService.completionRequest (OpenAIService.systemInstructions svc)
                                          context message in
        (match chat_completions_create P c request with
         | Resolved response =>
             Resolved (JS.opt_or_else (OpenAIService.firstChoiceContent response)
                                      OpenAIService.apology)
         | Rejected e => Rejected e
         end,
         svc, (calls ++ [Api.ChatCompletionsCreate c request])%list)
    | (Rejected e, _, calls) => (Rejected e, svc, calls)
    end.
Proof.
  intros Hc Hf.
  unfold OpenAIService.sendMessage. unfold bind at 1. unfold this at 1. cbn iota.
  rewrite Hc. destruct (OpenAIService.fileContents svc) as [|f fs] eqn:Hfs; [congruence|].
  cbn [List.length Nat.eqb]. clear Hfs Hf.
  unfold tryCatch. unfold bind at 1.
  assert (Hfin : final (OpenAIService.retrieveContext P message svc) = svc).
  { rewrite retrieveContext_cases.
    destruct (VectorStoreService.isInitialized P (OpenAIService.vectorStore svc)); [|reflexivity].
    destruct (VectorStoreService.searchSimilar P message (Some 6) (OpenAIService.vectorStore svc))
      as [[r vs] calls]. destruct r; reflexivity. }
  destruct (OpenAIService.retrieveContext P message svc) as [[r s1] calls].
  unfold final in Hfin. cbn [fst snd] in Hfin. subst s1.
  destruct r as [context|e].
  - unfold bind, call, ret, throw. cbv zeta.
    destruct (chat_completions_create P c _); cbn; rewrite ?app_nil_r; reflexivity.
  - unfold throw. rewrite app_nil_r. reflexivity.
Qed.

End Retrieval.

Section Guards.
Variable P : Platform.

Lemma sendMessage_no_client (svc : OpenAIService.t P) (message : string) :
  OpenAIService.client svc = None ->
  OpenAIService.sendMessage P message svc
  = (Rejected (mkError "OpenAI client not initialized"), svc, []).
Proof.
  intros Hc. unfold OpenAIService.sendMessage, bind, this. cbn iota.
  rewrite Hc. reflexivity.
Qed.

Lemma sendMessage_no_files (svc : OpenAIService.t P) (message : string) (c : Api.OpenAI) :
  OpenAIService.client svc = Some c ->
  OpenAIService.fileContents svc = [] ->
  OpenAIService.sendMessage P message svc
  = (Rejected (mkError "No files uploaded. Please upload documents first."), svc, []).
Proof.
  intros Hc Hf. unfold OpenAIService.sendMessage. unfold bind at 1. unfold this at 1.
  cbn iota. rewrite Hc, Hf. reflexivity.
Qed.

Lemma isReady_iff (svc : OpenAIService.t P) :
  OpenAIService.isReady P svc = true
  <-> OpenAIService.client svc <> None /\ OpenAIService.fileContents svc <> [].
Proof.
  unfold OpenAIService.isReady.
  destruct (OpenAIService.client svc) as [c|]; destruct (OpenAIService.fileContents svc);
    cbn; split; try discriminate; try (intros [H1 H2]; congruence).
  intros _. split; discriminate.
Qed.

(** Retrieval only calls the embeddings endpoint. *)
Lemma retrieveContext_completions (svc : OpenAIService.t P) (message : string) :
  completions (trace (OpenAIService.retrieveContext P message svc)) = [].
Proof.
  rewrite retrieveContext_cases.
  destruct (VectorStoreService.isInitialized P (OpenAIService.vectorStore svc)); [|reflexivity].
  rewrite searchSimilar_cases.
  destruct (VectorStoreService.vectorStore (OpenAIService.vectorStore svc)); [|reflexivity].
  destruct (VectorStoreService.embeddings (OpenAIService.vectorStore svc)) as [e|]; [|reflexivity].
  destruct (embedQuery P e message); reflexivity.
Qed.

Lemma completions_app (xs ys : list Api.Event) :
  completions (xs ++ ys) = (completions xs ++ completions ys)%list.
Proof. apply filter_app. Qed.

End Guards.

(** C2.  Whatever the query and the bound [k], [searchSimilar] gives at
    most [k] chunks (exactly [k], or all stored chunks when there are
    fewer), and rejects only when the vector store is not initialised or
    the query cannot be embedded; and when the vector store is
    initialised, the context of every completion request of [sendMessage]
    is composed of the chunks of a search with [k = 6], at most six. *)
Theorem C2_at_most_k_chunks (P : Platform) (s : VectorStoreService.t P) (query : string)
  (k : nat) (svc : OpenAIService.t P) (message : string) :
  match outcome (VectorStoreService.searchSimilar P query (Some k) s) with
  | Resolved chunks =>
      List.length chunks <= k
      /\ List.length chunks = Nat.min k (List.length (stored P s))
  | Rejected _ =>
      VectorStoreService.isInitialized P s = false
      \/ exists e err, VectorStoreService.embeddings s = Some e
                       /\ embedQuery P e query = Rejected err
  end
  /\ (VectorStoreService.isInitialized P (OpenAIService.vectorStore svc) = true ->
      forall c request,
        In (Api.ChatCompletionsCreate c request)
           (trace (OpenAIService.sendMessage P message svc)) ->
        exists chunks,
          List.length chunks <= 6
          /\ outcome (VectorStoreService.searchSimilar P message (Some 6)
                        (OpenAIService.vectorStore svc)) = Resolved chunks
          /\ request
             = OpenAIService.completionRequest
                 (OpenAIService.systemInstructions svc)
                 (JS.join OpenAIService.separator (map OpenAIService.formatChunk chunks))
                 message).
Proof.
  assert (Hbound : forall (s0 : VectorStoreService.t P) (q0 : string) (k0 : nat),
             match outcome (VectorStoreService.searchSimilar P q0 (Some k0) s0) with
             | Resolved chunks =>
                 List.length chunks <= k0
                 /\ List.length chunks = Nat.min k0 (List.length (stored P s0))
             | Rejected _ =>
                 VectorStoreService.isInitialized P s0 = false
                 \/ exists e err, VectorStoreService.embeddings s0 = Some e
                                  /\ embedQuery P e q0 = Rejected err
             end).
  { intros s0 q0 k0. rewrite searchSimilar_cases.
    unfold VectorStoreService.isInitialized, stored.
    destruct (VectorStoreService.vectorStore s0) as [store|]; [|left; reflexivity].
    destruct (VectorStoreService.embeddings s0) as [e|]; [|left; reflexivity].
    destruct (embedQuery P e q0) as [q|err] eqn:Hq; unfold outcome; cbn [fst].
    - rewrite !length_map, similaritySearch_length. split; [apply Nat.le_min_l | reflexivity].
    - right. exists e, err. split; [reflexivity | exact Hq]. }
  split; [apply Hbound|].
  intros Hinit c request Hin.
  destruct (OpenAIService.client svc) as [c0|] eqn:Hc;
    [|rewrite (sendMessage_no_client P svc message Hc) in Hin; destruct Hin].
  destruct (OpenAIService.fileContents svc) as [|f fs] eqn:Hf;
    [rewrite (sendMessage_no_files P svc message c0 Hc Hf) in Hin; destruct Hin|].
  assert (Hne : OpenAIService.fileContents svc <> []) by (rewrite Hf; discriminate).
  rewrite (sendMessage_ready P svc message c0 Hc Hne) in Hin.
  rewrite retrieveContext_cases, Hinit in Hin.
  specialize (Hbound (OpenAIService.vectorStore svc) message 6).
  assert (Hcalls : completions
                     (trace (VectorStoreService.searchSimilar P message (Some 6)
                               (OpenAIService.vectorStore svc))) = []).
  { rewrite searchSimilar_cases.
    destruct (VectorStoreService.vectorStore (OpenAIService.vectorStore svc)); [|reflexivity].
    destruct (VectorStoreService.embeddings (OpenAIService.vectorStore svc)) as [e|]; [|reflexivity].
    destruct (embedQuery P e message); reflexivity. }
  destruct (VectorStoreService.searchSimilar P message (Some 6) (OpenAIService.vectorStore svc))
    as [[r vs] calls].
  unfold outcome in Hbound. unfold trace in Hcalls. cbn [fst snd] in Hbound, Hcalls.
  assert (Hno : ~ In (Api.ChatCompletionsCreate c request) calls).
  { intros Hi. assert (Hi' : In (Api.ChatCompletionsCreate c request) (completions calls)).
    { apply filter_In. split; [exact Hi | reflexivity]. }
    rewrite Hcalls in Hi'. destruct Hi'. }
  destruct r as [chunks|e]; unfold trace in Hin; cbn [fst snd] in Hin.
  - apply in_app_or in Hin. destruct Hin as [Hin | [Hin | []]]; [destruct (Hno Hin)|].
    injection Hin as _ <-. exists chunks.
    split; [apply Hbound|]. split; reflexivity.
  - destruct (Hno Hin).
Qed.

(** The theorem on a service with two stored chunks. *)
Lemma C2_at_most_k_chunks_witness :
  exists request,
    In (Api.ChatCompletionsCreate (OpenAIService.newClient "sk-demo") request)
       (trace (OpenAIService.sendMessage Demo.online "what?" (Demo.loaded Demo.online)))
    /\ exists chunks,
         List.length chunks <= 6
         /\ outcome (VectorStoreService.searchSimilar Demo.online "what?" (Some 6)
                       (OpenAIService.vectorStore (Demo.loaded Demo.online))) = Resolved chunks
         /\ request
            = OpenAIService.completionRequest
                (OpenAIService.systemInstructions (Demo.loaded Demo.online))
                (JS.join OpenAIService.separator (map OpenAIService.formatChunk chunks))
                "what?".
Proof.
  eexists. split.
  - right. left. reflexivity.
  - apply (proj2 (C2_at_most_k_chunks Demo.online
                    (OpenAIService.vectorStore (Demo.loaded Demo.online)) "what?" 6
                    (Demo.loaded Demo.online) "what?") eq_refl
                 (OpenAIService.newClient "sk-demo")).
    right. left. reflexivity.
Defined.

(** A search with [k = 1] among the two stored chunks keeps the closer one. *)
Example search_keeps_best :
  outcome (VectorStoreService.searchSimilar Demo.online "0123456789" (Some 1)
             (OpenAIService.vectorStore (Demo.loaded Demo.online)))
  = Resolved [ {| DocumentChunk.content := "some notes";
                  DocumentChunk.metadata :=
                    {| fileName := "notes.txt"; chunkIndex := 0; totalChunks := 1 |} |} ].
Proof. reflexivity. Qed.

(** C5 (as amended).  For every message sent when the service is ready:
    if the retrieval of the context succeeds, [sendMessage] issues exactly
    one completion request, made of one system message (the system
    instructions and the retrieved context) and one user message, with
    temperature 0.7 and at most 800 tokens, and returns a single non-empty
    text when that request succeeds, throwing its error on otherwise; if
    the retrieval fails, no request is issued and the error is thrown on. *)
Theorem C5_one_completion_request (P : Platform) (svc : OpenAIService.t P)
  (message : string) (c : Api.OpenAI) :
  OpenAIService.isReady P svc = true ->
  OpenAIService.client svc = Some c ->
  match outcome (OpenAIService.retrieveContext P message svc) with
  | Resolved context =>
      let request :=
        OpenAIService.completionRequest (OpenAIService.systemInstructions svc)
                                        context message in
      completions (trace (OpenAIService.sendMessage P message svc))
      = [Api.ChatCompletionsCreate c request]
      /\ Api.messages request
         = [ {| Api.role := Api.system;
                Api.content := OpenAIService.systemPrompt
                                 (OpenAIService.systemInstructions svc) context |};
             {| Api.role := Api.user; Api.content := message |} ]
      /\ Api.max_tokens request = 800%Z
      /\ Api.temperature request
         = Decimal.Decimal (Decimal.Pos (Decimal.D0 Decimal.Nil)) (Decimal.D7 Decimal.Nil)
      /\ match chat_completions_create P c request with
         | Resolved response =>
             exists text,
               outcome (OpenAIService.sendMessage P message svc) = Resolved text
               /\ text = JS.opt_or_else (OpenAIService.firstChoiceContent response)
                                        OpenAIService.apology
               /\ text <> EmptyString
         | Rejected e => outcome (OpenAIService.sendMessage P message svc) = Rejected e
         end
  | Rejected e =>
      completions (trace (OpenAIService.sendMessage P message svc)) = []
      /\ outcome (OpenAIService.sendMessage P message svc) = Rejected e
  end.
Proof.
  intros Hready Hc. apply isReady_iff in Hready. destruct Hready as [_ Hf].
  rewrite (sendMessage_ready P svc message c Hc Hf).
  pose proof (retrieveContext_completions P svc message) as Hcalls.
  destruct (OpenAIService.retrieveContext P message svc) as [[r s1] calls].
  unfold trace in Hcalls. cbn [snd] in Hcalls.
  destruct r as [context|e]; unfold outcome, trace; cbn [fst snd].
  - cbv zeta. split.
    { rewrite completions_app, Hcalls. reflexivity. }
    split; [reflexivity|]. split; [reflexivity|]. split; [reflexivity|].
    destruct (chat_completions_create P c _) as [response|e]; [|reflexivity].
    eexists. split; [reflexivity|]. split; [reflexivity|].
    unfold JS.opt_or_else.
    destruct (OpenAIService.firstChoiceContent response);
      [apply or_else_nonempty|]; discriminate.
  - split; [exact Hcalls | reflexivity].
Qed.

(** The theorem on a service with two documents: the one request sent. *)
Lemma C5_one_completion_request_witness :
  completions (trace (OpenAIService.sendMessage Demo.online "what?" (Demo.loaded Demo.online)))
  = [Api.ChatCompletionsCreate (OpenAIService.newClient "sk-demo")
       (OpenAIService.completionRequest EmptyString
          (JS.join OpenAIService.separator
             (map OpenAIService.formatChunk
                [ {| DocumentChunk.content := "some notes";
                     DocumentChunk.metadata :=
                       {| fileName := "notes.txt"; chunkIndex := 0; totalChunks := 1 |} |};
                  {| DocumentChunk.content := "Hello  PDF" ++ JS.nl;
                     DocumentChunk.metadata :=
                       {| fileName := "paper.pdf"; chunkIndex := 0; totalChunks := 1 |} |} ]))
          "what?")].
Proof.
  exact (proj1 (C5_one_completion_request Demo.online (Demo.loaded Demo.online) "what?"
                  (OpenAIService.newClient "sk-demo") eq_refl eq_refl)).
Defined.

(** C5 as stated fails: when the network has dropped after the upload the
    service is ready, yet [sendMessage] issues no completion request and
    returns no text. *)
Lemma C5_no_request_when_retrieval_fails :
  OpenAIService.isReady Demo.dropped (Demo.loaded Demo.dropped) = true
  /\ completions (trace (OpenAIService.sendMessage Demo.dropped "what?"
                           (Demo.loaded Demo.dropped))) = []
  /\ outcome (OpenAIService.sendMessage Demo.dropped "what?" (Demo.loaded Demo.dropped))
     = Rejected (mkError "Failed to fetch").
Proof. repeat split; reflexivity. Qed.

(** C8 (as amended).  [isReady] holds exactly when a client is set and a
    file content is stored.  [sendMessage] rejects before it calls any
    hosted service exactly when the service is not ready: without client
    with 'OpenAI client not initialized', with a client and no file
    content with 'No files uploaded. Please upload documents first.';
    when the service is ready it proceeds to the hosted services. *)
Theorem C8_readiness_guard (P : Platform) (svc : OpenAIService.t P) (message : string) :
  (OpenAIService.isReady P svc = true
   <-> OpenAIService.client svc <> None /\ OpenAIService.fileContents svc <> [])
  /\ (OpenAIService.client svc = None ->
      OpenAIService.sendMessage P message svc
      = (Rejected (mkError "OpenAI client not initialized"), svc, []))
  /\ (OpenAIService.client svc <> None -> OpenAIService.fileContents svc = [] ->
      OpenAIService.sendMessage P message svc
      = (Rejected (mkError "No files uploaded. Please upload documents first."), svc, []))
  /\ (OpenAIService.isReady P svc = true ->
      trace (OpenAIService.sendMessage P message svc) <> [])
  /\ (OpenAIService.isReady P svc = false
      <-> exists e, OpenAIService.sendMessage P message svc = (Rejected e, svc, [])).
Proof.
  assert (Hproceeds : OpenAIService.isReady P svc = true ->
                      trace (OpenAIService.sendMessage P message svc) <> []).
  { intros Hready. pose proof Hready as Hr. apply isReady_iff in Hr. destruct Hr as [Hc Hf].
    destruct (OpenAIService.client svc) as [c|] eqn:Ec; [|congruence].
    rewrite (sendMessage_ready P svc message c Ec Hf).
    rewrite retrieveContext_cases.
    destruct (VectorStoreService.isInitialized P (OpenAIService.vectorStore svc)) eqn:Hinit.
    - rewrite searchSimilar_cases. unfold VectorStoreService.isInitialized in Hinit.
      destruct (VectorStoreService.vectorStore (OpenAIService.vectorStore svc)); [|discriminate].
      destruct (VectorStoreService.embeddings (OpenAIService.vectorStore svc)) as [e|];
        [|discriminate].
      destruct (embedQuery P e message); unfold trace; cbn [snd]; discriminate.
    - unfold trace. cbn [snd]. discriminate. }
  split; [apply isReady_iff|].
  split; [apply sendMessage_no_client|].
  split.
  { intros Hc Hf. destruct (OpenAIService.client svc) as [c|] eqn:Ec; [|congruence].
    apply (sendMessage_no_files P svc message c Ec Hf). }
  split; [exact Hproceeds|].
  split.
  - intros Hnot. unfold OpenAIService.isReady in Hnot.
    destruct (OpenAIService.client svc) as [c|] eqn:Ec.
    + destruct (OpenAIService.fileContents svc) as [|f fs] eqn:Ef; [|discriminate Hnot].
      eexists. apply (sendMessage_no_files P svc message c Ec Ef).
    + eexists. apply (sendMessage_no_client P svc message Ec).
  - intros [e He]. destruct (OpenAIService.isReady P svc) eqn:Hready; [|reflexivity].
    exfalso. apply (Hproceeds eq_refl). rewrite He. reflexivity.
Qed.

(** The theorem on a service with a client and no document. *)
Lemma C8_readiness_guard_witness :
  OpenAIService.sendMessage Demo.online "what?" (Demo.keyed Demo.online)
  = (Rejected (mkError "No files uploaded. Please upload documents first."),
     Demo.keyed Demo.online, []).
Proof.
  apply (C8_readiness_guard Demo.online (Demo.keyed Demo.online) "what?").
  - discriminate.
  - reflexivity.
Defined.

(** C8 as stated fails: a service that is ready still raises when the
    completion endpoint rejects the request. *)
Lemma C8_ready_service_raises :
  OpenAIService.isReady Demo.throttled (Demo.loaded Demo.throttled) = true
  /\ outcome (OpenAIService.sendMessage Demo.throttled "what?" (Demo.loaded Demo.throttled))
     = Rejected (mkError "429 Too Many Requests").
Proof. split; reflexivity. Qed.

(** C10 (as amended).  [clearFiles] empties the stored file contents and,
    when the embeddings client is set, replaces the vector index with a
    fresh empty one (without embeddings client there is no index, before
    or after); afterwards [hasFiles] and [isReady] are false and no search
    returns a chunk; the client, the system instructions, the embeddings
    client and the splitter are unchanged. *)
Theorem C10_clearFiles (P : Platform) (svc : OpenAIService.t P) (query : string)
  (k : option nat) :
  let svc' := OpenAIService.clearFiles P svc in
  OpenAIService.fileContents svc' = []
  /\ VectorStoreService.vectorStore (OpenAIService.vectorStore svc')
     = match VectorStoreService.embeddings (OpenAIService.vectorStore svc) with
       | Some e => Some (MemoryVectorStore.new P e)
       | None => None
       end
  /\ OpenAIService.hasFiles P svc' = false
  /\ OpenAIService.isReady P svc' = false
  /\ stored P (OpenAIService.vectorStore svc') = []
  /\ match outcome (VectorStoreService.searchSimilar P query k (OpenAIService.vectorStore svc')) with
     | Resolved chunks => chunks = []
     | Rejected _ => True
     end
  /\ OpenAIService.client svc' = OpenAIService.client svc
  /\ OpenAIService.systemInstructions svc' = OpenAIService.systemInstructions svc
  /\ VectorStoreService.embeddings (OpenAIService.vectorStore svc')
     = VectorStoreService.embeddings (OpenAIService.vectorStore svc)
  /\ VectorStoreService.textSplitter (OpenAIService.vectorStore svc')
     = VectorStoreService.textSplitter (OpenAIService.vectorStore svc).
Proof.
  cbv zeta. destruct svc as [c fc instr [vs emb ts]].
  split; [reflexivity|]. split; [reflexivity|]. split; [reflexivity|].
  split; [destruct c; reflexivity|].
  split; [destruct emb; reflexivity|].
  split; [|repeat split; reflexivity].
  rewrite searchSimilar_cases.
  unfold OpenAIService.clearFiles, VectorStoreService.clear.
  cbn -[MemoryVectorStore.similaritySearchVectorWithScore].
  destruct emb as [e|]; [|exact I].
  destruct (embedQuery P e query); unfold outcome; cbn [fst]; [|exact I].
  unfold MemoryVectorStore.similaritySearchVectorWithScore. cbn.
  rewrite firstn_nil. reflexivity.
Qed.

(** C10 as stated fails: on a service built without API key there is no
    embeddings client, and [clearFiles] leaves it without vector index
    instead of giving it a fresh empty one; a search still throws. *)
Lemma C10_no_index_without_key :
  VectorStoreService.vectorStore
    (OpenAIService.vectorStore (OpenAIService.clearFiles Demo.online (Demo.keyless Demo.online)))
  = None
  /\ outcome (VectorStoreService.searchSimilar Demo.online "what?" None
                (OpenAIService.vectorStore
                   (OpenAIService.clearFiles Demo.online (Demo.keyless Demo.online))))
     = Rejected (mkError "Vector store not initialized").
Proof. split; reflexivity. Qed.

(** After an upload the index holds chunks; after [clearFiles] none. *)
Example clearFiles_forgets :
  List.length (stored Demo.online (OpenAIService.vectorStore (Demo.loaded Demo.online))) = 2
  /\ outcome (VectorStoreService.searchSimilar Demo.online "what?" (Some 6)
                (OpenAIService.vectorStore
                   (OpenAIService.clearFiles Demo.online (Demo.loaded Demo.online))))
     = Resolved [].
Proof. split; reflexivity. Qed.

(** ** Chunk metadata *)

Lemma mapi_from_In {A B : Type} (f : A -> nat -> B) (xs : list A) (n : nat) (y : B) :
  In y (mapi_from f n xs) ->
  exists i x, nth_error xs i = Some x /\ y = f x (n + i).
Proof.
  revert n. induction xs as [|x xs IH]; intros n; simpl; [tauto|].
  intros [H | H].
  - exists 0, x. split; [reflexivity|]. rewrite Nat.add_0_r. symmetry. exact H.
  - destruct (IH (S n) H) as [i [x' [Hi Hy]]].
    exists (S i), x'. split; [exact Hi|]. rewrite Nat.add_succ_r. exact Hy.
Qed.

Lemma docsWithMetadata_chunkOf (P : Platform) (s : VectorStoreService.t P)
  (doc : ExtractedFile.t) (d : Document) :
  In d (VectorStoreService.docsWithMetadata P s doc) -> chunkOf P s doc d.
Proof.
  unfold VectorStoreService.docsWithMetadata, mapi. intros H.
  apply mapi_from_In in H. destruct H as [i [chunk [Hi ->]]].
  unfold chunkOf. cbn [metadata fileName chunkIndex totalChunks pageContent Nat.add].
  assert (Hlt : i < List.length (createDocuments P (VectorStoreService.textSplitter s)
                                   [ExtractedFile.content doc])).
  { apply nth_error_Some. rewrite Hi. discriminate. }
  split; [reflexivity|]. split; [reflexivity|]. split; [lia|].
  rewrite Nat2Z.id. exact Hi.
Qed.

(** C9.  The documents that [addDocuments] adds to the index are chunks of
    the documents it was given: each carries the name of its document,
    the number of chunks of that document, and an index from 0 up to that
    number, at which its text stands among those chunks; and every chunk
    that [searchSimilar] returns is a stored document with its text and
    metadata as stored. *)
Theorem C9_chunk_metadata (P : Platform) (s : VectorStoreService.t P)
  (documents : list ExtractedFile.t) (query : string) (k : option nat) :
  (exists added,
      stored P (final (VectorStoreService.addDocuments P documents s))
      = (stored P s ++ added)%list
      /\ Forall (fun d => exists doc, In doc documents /\ chunkOf P s doc d) added)
  /\ match outcome (VectorStoreService.searchSimilar P query k s) with
     | Resolved chunks =>
         Forall (fun chunk => exists d, In d (stored P s) /\ chunk = toChunk d) chunks
     | Rejected _ => True
     end.
Proof.
  split.
  - destruct (VectorStoreService.isInitialized P s) eqn:Hinit.
    + unfold VectorStoreService.isInitialized in Hinit.
      destruct (VectorStoreService.vectorStore s) as [store|] eqn:Hs; [|discriminate].
      destruct (VectorStoreService.embeddings s) as [e|] eqn:He; [|discriminate].
      rewrite (addDocuments_spec P documents s store e Hs He).
      destruct (embedDocuments P _ _) as [vectors|err].
      * exists (map snd (combine vectors
                           (flat_map (VectorStoreService.docsWithMetadata P s) documents))).
        unfold final, stored. cbn [fst snd VectorStoreService.vectorStore
                                     MemoryVectorStore.memoryVectors].
        rewrite Hs, map_app. split; [reflexivity|].
        apply Forall_forall. intros d Hd.
        apply in_map_iff in Hd. destruct Hd as [[v d'] [Hd Hin]]. cbn in Hd. subst d'.
        apply in_combine_r in Hin. apply in_flat_map in Hin.
        destruct Hin as [doc [Hdoc Hd]].
        exists doc. split; [exact Hdoc | apply docsWithMetadata_chunkOf; exact Hd].
      * exists []. unfold final. cbn [fst snd]. rewrite app_nil_r.
        split; [reflexivity | constructor].
    + rewrite (addDocuments_uninitialised P documents s Hinit).
      exists []. unfold final. cbn [fst snd]. rewrite app_nil_r.
      split; [reflexivity | constructor].
  - rewrite searchSimilar_cases. unfold stored.
    destruct (VectorStoreService.vectorStore s) as [store|]; [|exact I].
    destruct (VectorStoreService.embeddings s) as [e|]; [|exact I].
    destruct (embedQuery P e query) as [q|err]; unfold outcome; cbn [fst]; [|exact I].
    apply Forall_forall. intros chunk Hc.
    apply in_map_iff in Hc. destruct Hc as [d [Hd Hin]].
    exists d. split; [|symmetry; exact Hd].
    apply (similaritySearch_In P store q _ d Hin).
Qed.

(** The chunks stored by an upload, and what a search hands out. *)
Example stored_chunks :
  stored Demo.online (OpenAIService.vectorStore (Demo.loaded Demo.online))
  = [ {| pageContent := "some notes";
         metadata := {| fileName := "notes.txt"; chunkIndex := 0; totalChunks := 1 |} |};
      {| pageContent := "Hello  PDF" ++ JS.nl;
         metadata := {| fileName := "paper.pdf"; chunkIndex := 0; totalChunks := 1 |} |} ].
Proof. reflexivity. Qed.

(** ** The chat *)

Lemma truthy_nonempty (s : string) : s <> EmptyString -> JS.truthy s = true.
Proof. destruct s; [congruence | reflexivity]. Qed.

(** [handleSend] is its first half, then its second half on the outcome
    of [onSendMessage]. *)
Lemma handleSend_split (props : Chat.Props) (w1 w2 : Chat.Fresh) (st : Chat.State) :
  Chat.handleSend props w1 w2 st
  = if negb (JS.truthy (JS.trim (Chat.input st))) || Chat.isLoading props
    then (Resolved tt, st, [])
    else bind (Chat.handleSend_before w1 (JS.trim (Chat.input st)))
              (fun _ => Chat.handleSend_after
                          (Chat.onSendMessage props (JS.trim (Chat.input st))) w2) st.
Proof.
  unfold Chat.handleSend. unfold bind at 1. unfold this at 1. cbn iota.
  destruct (negb (JS.truthy (JS.trim (Chat.input st))) || Chat.isLoading props);
    [reflexivity|].
  unfold Chat.handleSend_before, Chat.handleSend_after, Chat.setMessages, Chat.setInput,
    bind, assign, tryCatch, await, ret.
  destruct (Chat.onSendMessage props (JS.trim (Chat.input st))); reflexivity.
Qed.

Lemma handleSend_before_messages (w1 : Chat.Fresh) (text : string) (st : Chat.State) :
  Chat.handleSend_before w1 text st
  = (Resolved tt,
     {| Chat.messages := (Chat.messages st ++ [Chat.newMessage w1 Chat.user text])%list;
        Chat.input := EmptyString |}, []).
Proof. reflexivity. Qed.

Lemma handleSend_after_messages (settled : result string) (w2 : Chat.Fresh) (st : Chat.State) :
  Chat.handleSend_after settled w2 st
  = (Resolved tt,
     {| Chat.messages :=
          (Chat.messages st
           ++ [Chat.newMessage w2 Chat.assistant
                 match settled with Resolved response => response | Rejected _ => Chat.fallback end])%list;
        Chat.input := Chat.input st |}, []).
Proof. destruct settled; reflexivity. Qed.

(** C4.  In a chat turn whose call to [onSendMessage] throws, [handleSend]
    catches the error: it resolves, and the message list is the former
    list followed by the user's message and by the fallback message of
    the assistant. *)
Theorem C4_send_error_fallback (props : Chat.Props) (w1 w2 : Chat.Fresh) (st : Chat.State)
  (e : Error) :
  JS.trim (Chat.input st) <> EmptyString ->
  Chat.isLoading props = false ->
  Chat.onSendMessage props (JS.trim (Chat.input st)) = Rejected e ->
  Chat.handleSend props w1 w2 st
  = (Resolved tt,
     {| Chat.messages :=
          (Chat.messages st
           ++ [ Chat.newMessage w1 Chat.user (JS.trim (Chat.input st));
                Chat.newMessage w2 Chat.assistant Chat.fallback ])%list;
        Chat.input := EmptyString |},
     []).
Proof.
  intros Hin Hload Hthrow.
  rewrite handleSend_split, (truthy_nonempty _ Hin), Hload. cbn [negb orb].
  unfold bind. rewrite handleSend_before_messages, handleSend_after_messages, Hthrow.
  cbn [Chat.messages Chat.input app]. rewrite <- app_assoc. reflexivity.
Qed.

(** The theorem on a question that the completion endpoint rejects. *)
Lemma C4_send_error_fallback_witness :
  Chat.handleSend (Demo.chatProps Demo.throttled (Some (Demo.loaded Demo.throttled)))
                  Demo.fresh1 Demo.fresh2 Demo.typed
  = (Resolved tt,
     {| Chat.messages :=
          [ {| Chat.id := "1"; Chat.role := Chat.assistant;
               Chat.content := Chat.greeting; Chat.timestamp := 1000 |};
            {| Chat.id := "uuid-1"; Chat.role := Chat.user;
               Chat.content := "what?"; Chat.timestamp := 2000 |};
            {| Chat.id := "uuid-2"; Chat.role := Chat.assistant;
               Chat.content := Chat.fallback; Chat.timestamp := 3000 |} ];
        Chat.input := EmptyString |},
     []).
Proof.
  apply (C4_send_error_fallback
           (Demo.chatProps Demo.throttled (Some (Demo.loaded Demo.throttled)))
           Demo.fresh1 Demo.fresh2 Demo.typed (mkError "429 Too Many Requests")).
  - discriminate.
  - reflexivity.
  - reflexivity.
Defined.

(** When the call succeeds the answer is appended instead. *)
Example send_answer :
  map Chat.content
      (Chat.messages
         (final (Chat.handleSend (Demo.chatProps Demo.online (Some (Demo.loaded Demo.online)))
                   Demo.fresh1 Demo.fresh2 Demo.typed)))
  = [Chat.greeting; "what?"; "An answer."].
Proof. reflexivity. Qed.




(** *** The chat on the page *)

Section AppSteps.
Variable P : Platform.








End AppSteps.




(** * Further properties *)

(** ** Strings: append, reversal and [trim] *)

Lemma str_app_assoc (a b c : string) : (a ++ b) ++ c = a ++ (b ++ c).
Proof. induction a as [|x a IH]; simpl; [reflexivity | rewrite IH; reflexivity]. Qed.

Lemma str_app_nil_r (a : string) : a ++ EmptyString = a.
Proof. induction a as [|x a IH]; simpl; [reflexivity | rewrite IH; reflexivity]. Qed.

Lemma str_app_length (a b : string) :
  String.length (a ++ b) = String.length a + String.length b.
Proof. induction a as [|x a IH]; simpl; [reflexivity | rewrite IH; reflexivity]. Qed.

Lemma rev_acc_app (s acc : string) : JS.rev_acc s acc = JS.rev s ++ acc.
Proof.
  unfold JS.rev. revert acc. induction s as [|c s IH]; intros acc; simpl; [reflexivity|].
  rewrite (IH (String c acc)), (IH (String c EmptyString)), str_app_assoc. reflexivity.
Qed.

Lemma rev_cons (c : ascii) (s : string) :
  JS.rev (String c s) = JS.rev s ++ String c EmptyString.
Proof. unfold JS.rev at 1. simpl. apply rev_acc_app. Qed.

Lemma rev_app (a b : string) : JS.rev (a ++ b) = JS.rev b ++ JS.rev a.
Proof.
  induction a as [|x a IH]; simpl.
  - rewrite str_app_nil_r. reflexivity.
  - rewrite !rev_cons, IH, str_app_assoc. reflexivity.
Qed.

Lemma rev_involutive (s : string) : JS.rev (JS.rev s) = s.
Proof.
  induction s as [|c s IH]; [reflexivity|].
  rewrite rev_cons, rev_app, IH. reflexivity.
Qed.

Lemma trimStart_idempotent (s : string) : JS.trimStart (JS.trimStart s) = JS.trimStart s.
Proof.
  induction s as [|c s IH]; simpl; [reflexivity|].
  destruct (JS.isWhiteSpace c) eqn:E; [exact IH|]. simpl. rewrite E. reflexivity.
Qed.

Lemma trimStart_app (a b : string) (c : ascii) :
  JS.isWhiteSpace c = false ->
  JS.trimStart (a ++ String c b) = JS.trimStart a ++ String c b.
Proof.
  intros Hc. induction a as [|x a IH]; simpl.
  - rewrite Hc. reflexivity.
  - destruct (JS.isWhiteSpace x); [exact IH | reflexivity].
Qed.

Lemma trimEnd_cons (c : ascii) (s : string) :
  JS.isWhiteSpace c = false -> JS.trimEnd (String c s) = String c (JS.trimEnd s).
Proof.
  intros Hc. unfold JS.trimEnd.
  rewrite rev_cons, (trimStart_app _ _ _ Hc), rev_app. reflexivity.
Qed.

Lemma trimEnd_idempotent (s : string) : JS.trimEnd (JS.trimEnd s) = JS.trimEnd s.
Proof.
  unfold JS.trimEnd. rewrite rev_involutive, trimStart_idempotent. reflexivity.
Qed.

(** [trim s] is empty or starts with a character that is no white space. *)
Lemma trim_cases (s : string) :
  (JS.trimStart s = EmptyString /\ JS.trim s = EmptyString)
  \/ exists c r, JS.isWhiteSpace c = false
                 /\ JS.trimStart s = String c r
                 /\ JS.trim s = String c (JS.trimEnd r).
Proof.
  unfold JS.trim. induction s as [|c s IH]; simpl.
  - left. split; reflexivity.
  - destruct (JS.isWhiteSpace c) eqn:E; [exact IH|].
    right. exists c, s. split; [exact E|]. split; [reflexivity|].
    apply trimEnd_cons. exact E.
Qed.

Lemma trim_idempotent (s : string) : JS.trim (JS.trim s) = JS.trim s.
Proof.
  destruct (trim_cases s) as [[_ ->] | [c [r [Hc [Hs Ht]]]]]; [reflexivity|].
  rewrite Ht. unfold JS.trim at 1. simpl. rewrite Hc.
  rewrite (trimEnd_cons _ _ Hc), trimEnd_idempotent. reflexivity.
Qed.

Lemma trim_trimmed (s : string) : JS.trim s <> EmptyString -> trimmed (JS.trim s).
Proof. intros H. split; [exact H | apply trim_idempotent]. Qed.

Lemma prefix_app (p s : string) :
  String.prefix p s = true -> exists r, s = p ++ r.
Proof.
  revert s. induction p as [|a p IH]; intros s H.
  - exists s. reflexivity.
  - destruct s as [|b s]; [discriminate H|].
    change (String.prefix (String a p) (String b s))
      with (if ascii_dec a b then String.prefix p s else false) in H.
    destruct (ascii_dec a b) as [<-|]; [|discriminate H].
    destruct (IH s H) as [r ->]. exists r. reflexivity.
Qed.

(** A text that starts with [sk-] still does once trimmed. *)
Lemma trim_keeps_prefix_sk (s : string) :
  JS.startsWith s "sk-" = true -> JS.startsWith (JS.trim s) "sk-" = true.
Proof.
  unfold JS.startsWith. intros H. destruct (prefix_app _ _ H) as [r ->].
  unfold JS.trim.
  change (JS.trimStart ("sk-" ++ r)) with (String "s" (String "k" (String "-" r))).
  rewrite !trimEnd_cons by reflexivity. destruct (JS.trimEnd r); reflexivity.
Qed.

(** ** The chat: what a user message looks like *)

(** A run of the chat used below: typing, sending, and the call failing. *)
Lemma demo_run : Chat.Steps Demo.mounted Demo.afterError.
Proof.
  eapply Chat.steps_step.
  { exact (Chat.step_change Demo.mounted " what? "). }
  eapply Chat.steps_step.
  { refine (Chat.step_send _ (Demo.chatProps Demo.online None) Demo.fresh1 _). reflexivity. }
  eapply Chat.steps_step.
  { refine (Chat.step_settle _ [] [] "what?" (Rejected (mkError "Failed to fetch"))
              Demo.fresh2 _). reflexivity. }
  exact (Chat.steps_refl _).
Defined.

Lemma Step_keeps_trimmed (c c' : Chat.Config) :
  Chat.Step c c' ->
  userMessagesTrimmed (Chat.messages (Chat.ui c)) ->
  userMessagesTrimmed (Chat.messages (Chat.ui c')).
Proof.
  unfold userMessagesTrimmed.
  intros H Hinv. destruct H as [c value | c props w1 Hguard | c before after text settled w2 Hin].
  - exact Hinv.
  - cbn [Chat.ui]. rewrite handleSend_before_messages. unfold final. cbn [fst snd Chat.messages].
    apply Forall_app. split; [exact Hinv|]. constructor; [|constructor].
    intros _. cbn [Chat.newMessage Chat.content]. apply trim_trimmed.
    apply orb_false_iff in Hguard. destruct Hguard as [Hguard _].
    apply negb_false_iff in Hguard. intros E. rewrite E in Hguard. discriminate.
  - cbn [Chat.ui]. rewrite handleSend_after_messages. unfold final. cbn [fst snd Chat.messages].
    apply Forall_app. split; [exact Hinv|]. constructor; [|constructor].
    cbn [Chat.newMessage Chat.role]. discriminate.
Qed.

(** X1.  From the moment the chat mounts, over any sequence of its
    events, the text of every user message in the list is not empty and
    has no white space at either end. *)
Theorem chat_user_messages_trimmed (t0 : Z) (c : Chat.Config) :
  Chat.Steps {| Chat.ui := Chat.initial t0; Chat.inFlight := [] |} c ->
  userMessagesTrimmed (Chat.messages (Chat.ui c)).
Proof.
  intros H.
  assert (Hgen : forall c1 c2, Chat.Steps c1 c2 ->
                   userMessagesTrimmed (Chat.messages (Chat.ui c1)) ->
                   userMessagesTrimmed (Chat.messages (Chat.ui c2))).
  { intros c1 c2 Hs. induction Hs as [c0 | c1 c2 c3 Hstep _ IH]; [tauto|].
    intros Hinv. apply IH. apply (Step_keeps_trimmed c1 c2 Hstep Hinv). }
  apply (Hgen _ _ H). constructor; [|constructor]. cbn. discriminate.
Qed.

(** The theorem on the run above. *)
Lemma chat_user_messages_trimmed_witness :
  userMessagesTrimmed (Chat.messages (Chat.ui Demo.afterError)).
Proof. exact (chat_user_messages_trimmed 1000 Demo.afterError demo_run). Defined.

(** ** The text of a PDF *)

Lemma concat_cons_nosep (x : string) (xs : list string) :
  String.concat EmptyString (x :: xs) = x ++ String.concat EmptyString xs.
Proof. destruct xs; simpl; [rewrite str_app_nil_r|]; reflexivity. Qed.

Lemma pagesText_succ (items : nat -> list (option string)) (first count : nat) :
  pagesText items first (S count)
  = (JS.join_opt " " (items first) ++ JS.nl) ++ pagesText items (S first) count.
Proof. unfold pagesText. cbn [seq map]. apply concat_cons_nosep. Qed.

Section PdfLoop.
Variable St : Type.
Variable pdf : PdfDocument.

Lemma pdfPages_closed (items : nat -> list (option string)) (count first : nat)
  (fullText : string) (s : St) :
  (forall i, first <= i < first + count ->
             getPage pdf i = Resolved {| getTextContent := Resolved (items i) |}) ->
  OpenAIService.pdfPages pdf first count fullText s
  = (Resolved (fullText ++ pagesText items first count), s, []).
Proof.
  revert first fullText. induction count as [|count IH]; intros first fullText Hpages.
  - cbn. rewrite str_app_nil_r. reflexivity.
  - cbn [OpenAIService.pdfPages]. unfold bind at 1. unfold await at 1.
    rewrite (Hpages first) by lia. unfold bind at 1. unfold await at 1. cbn [getTextContent].
    rewrite IH by (intros i Hi; apply Hpages; lia).
    rewrite pagesText_succ, <- !str_app_assoc. reflexivity.
Qed.

(** A page that cannot be fetched, or whose text cannot, makes the loop
    reject. *)
Lemma pdfPages_fails (count first : nat) (fullText : string) (s : St) (i : nat) :
  first <= i < first + count -> pageFails pdf i ->
  exists e, outcome (OpenAIService.pdfPages pdf first count fullText s) = Rejected e.
Proof.
  revert first fullText. induction count as [|count IH]; intros first fullText Hi Hfail; [lia|].
  cbn [OpenAIService.pdfPages]. unfold bind at 1. unfold await at 1.
  destruct (getPage pdf first) as [page|e] eqn:Hpage; [|exists e; reflexivity].
  unfold bind at 1. unfold await at 1.
  destruct (getTextContent page) as [content|e] eqn:Htext; [|exists e; reflexivity].
  assert (Hne : i <> first).
  { intros ->. unfold pageFails in Hfail. rewrite Hpage in Hfail.
    destruct Hfail as [e He]. congruence. }
  destruct (IH (S first) (fullText ++ JS.join_opt " " content ++ JS.nl)) as [e He];
    [lia | exact Hfail|].
  exists e. unfold outcome in *.
  destruct (OpenAIService.pdfPages pdf (S first) count _ s) as [[r s1] t1].
  cbn [fst] in *. subst r. reflexivity.
Qed.

End PdfLoop.

Lemma pagesText_truthy (items : nat -> list (option string)) (first count : nat) :
  JS.truthy (pagesText items first (S count)) = true.
Proof.
  rewrite pagesText_succ. destruct (JS.join_opt " " (items first)); reflexivity.
Qed.

(** X2.  When every page of a PDF loads, the extracted text is the text of
    the pages in order, the items of a page joined by spaces and each page
    followed by a line feed; the message that no text was found is given
    for a document without pages, and only for it. *)
Theorem pdf_text_of_pages (P : Platform) (St : Type) (file : File.t) (s : St)
  (buf : list Byte.byte) (pdf : PdfDocument) (items : nat -> list (option string)) :
  File.arrayBuffer file = Resolved buf ->
  pdfjs_getDocument P buf = Resolved pdf ->
  (forall i, 1 <= i <= numPages pdf ->
             getPage pdf i = Resolved {| getTextContent := Resolved (items i) |}) ->
  OpenAIService.extractPdfText P file s
  = (Resolved (if (numPages pdf =? 0)%nat
               then "No text content found in PDF: " ++ File.name file
               else pagesText items 1 (numPages pdf)),
     s, []).
Proof.
  intros Hbuf Hpdf Hpages.
  unfold OpenAIService.extractPdfText, tryCatch, OpenAIService.pdfText.
  unfold bind at 1. unfold await at 1. rewrite Hbuf.
  unfold bind at 1. unfold await at 1. rewrite Hpdf.
  unfold bind at 1.
  rewrite (pdfPages_closed St pdf items) by (intros i Hi; apply Hpages; lia).
  cbn [append]. unfold ret.
  destruct (numPages pdf) as [|n]; [reflexivity|].
  cbn [Nat.eqb]. unfold JS.or_else. rewrite pagesText_truthy. reflexivity.
Qed.

(** The theorem on a document with one page. *)
Lemma pdf_text_of_pages_witness :
  OpenAIService.extractPdfText Demo.online (UploadedFile.file Demo.paperPdf) tt
  = (Resolved ("Hello  PDF" ++ JS.nl), tt, []).
Proof.
  exact (pdf_text_of_pages Demo.online unit (UploadedFile.file Demo.paperPdf) tt []
           Demo.onePagePdf (fun _ => [Some "Hello"; None; Some "PDF"])
           eq_refl eq_refl (fun _ _ => eq_refl)).
Defined.

(** X3.  One page that fails to load is enough for the whole document to
    degrade to the error message: the text of the other pages is lost. *)
Theorem pdf_page_failure_loses_all (P : Platform) (St : Type) (file : File.t) (s : St)
  (buf : list Byte.byte) (pdf : PdfDocument) (i : nat) :
  File.arrayBuffer file = Resolved buf ->
  pdfjs_getDocument P buf = Resolved pdf ->
  1 <= i <= numPages pdf ->
  pageFails pdf i ->
  OpenAIService.extractPdfText P file s
  = (Resolved ("Error extracting content from PDF: " ++ File.name file), s, []).
Proof.
  intros Hbuf Hpdf Hi Hfail.
  destruct (pdfPages_fails St pdf (numPages pdf) 1 EmptyString s i) as [e He];
    [lia | exact Hfail|].
  unfold OpenAIService.extractPdfText.
  apply (tryCatch_rejected St _ _ s e (pdfText_effectFree P St file)).
  unfold OpenAIService.pdfText.
  unfold bind at 1. unfold await at 1. rewrite Hbuf.
  unfold bind at 1. unfold await at 1. rewrite Hpdf.
  unfold bind at 1. unfold outcome in *.
  destruct (OpenAIService.pdfPages pdf 1 (numPages pdf) EmptyString s) as [[r s1] t1].
  cbn [fst] in *. subst r. reflexivity.
Qed.

(** The theorem on a document whose second page of two cannot be read. *)
Lemma pdf_page_failure_loses_all_witness :
  OpenAIService.extractPdfText Demo2.tornPlatform (UploadedFile.file Demo.paperPdf) tt
  = (Resolved "Error extracting content from PDF: paper.pdf", tt, []).
Proof.
  refine (pdf_page_failure_loses_all Demo2.tornPlatform unit (UploadedFile.file Demo.paperPdf)
            tt [] Demo2.tornPdf 2 eq_refl eq_refl _ _).
  - cbn. lia.
  - exact I.
Defined.

(** ** The text runs of a slide *)

Lemma span_spec (p : ascii -> bool) (s a b : string) :
  JS.span p s = (a, b) ->
  s = a ++ b /\ allChars p a = true
  /\ match b with String c _ => p c = false | EmptyString => True end.
Proof.
  revert a b. induction s as [|c s IH]; intros a b H; simpl in H.
  - injection H as <- <-. repeat split.
  - destruct (p c) eqn:Hc.
    + destruct (JS.span p s) as [a' b'] eqn:E. injection H as <- <-.
      destruct (IH a' b' eq_refl) as [-> [Ha Hb]].
      split; [reflexivity|]. split; [simpl; rewrite Hc, Ha; reflexivity | exact Hb].
    + injection H as <- <-. split; [reflexivity|]. split; [reflexivity | exact Hc].
Qed.

Lemma span_intro (p : ascii -> bool) (a b : string) (c : ascii) :
  allChars p a = true -> p c = false ->
  JS.span p (a ++ String c b) = (a, String c b).
Proof.
  intros Ha Hc. induction a as [|x a IH]; simpl.
  - rewrite Hc. reflexivity.
  - simpl in Ha. apply andb_prop in Ha. destruct Ha as [Hx Ha].
    rewrite Hx, (IH Ha). reflexivity.
Qed.

Lemma stripFrom_skip (a b : string) (k : nat) :
  Pptx.stripFrom (String.length a + k) (a ++ b) = Pptx.stripFrom k b.
Proof. induction a as [|x a IH]; simpl; [reflexivity | exact IH]. Qed.

Lemma stripFrom_keep (txt b : string) :
  allChars Pptx.not_lt txt = true ->
  Pptx.stripFrom 0 (txt ++ b) = txt ++ Pptx.stripFrom 0 b.
Proof.
  induction txt as [|x txt IH]; intros H; [reflexivity|].
  simpl in H. apply andb_prop in H. destruct H as [Hx Ht].
  cbn [append Pptx.stripFrom]. unfold Pptx.not_lt in Hx.
  apply negb_true_iff in Hx. rewrite Hx. cbn [andb]. rewrite (IH Ht). reflexivity.
Qed.

(** A tag, from its [<] to the next [>], is removed. *)
Lemma stripFrom_tag (inside b : string) :
  allChars Pptx.not_gt inside = true ->
  Pptx.stripFrom 0 (String Pptx.lt (inside ++ String Pptx.gt b)) = Pptx.stripFrom 0 b.
Proof.
  intros Hin. cbn [Pptx.stripFrom].
  assert (Hspan : JS.span Pptx.not_gt (inside ++ String Pptx.gt b) = (inside, String Pptx.gt b)).
  { apply span_intro; [exact Hin | reflexivity]. }
  unfold Pptx.closes. rewrite Hspan. cbn [fst snd].
  rewrite Ascii.eqb_refl. cbn [andb].
  replace (S (String.length inside)) with (String.length inside + 1) by lia.
  rewrite stripFrom_skip. reflexivity.
Qed.

(** Stripping the tags of a run leaves its text. *)
Lemma stripTags_textRun (attrs txt : string) :
  allChars Pptx.not_gt attrs = true ->
  allChars Pptx.not_lt txt = true ->
  Pptx.stripTags (textRun attrs txt) = txt.
Proof.
  intros Ha Ht. unfold Pptx.stripTags, textRun.
  change ("<a:t" ++ attrs ++ ">" ++ txt ++ "</a:t>")
    with (String Pptx.lt (("a:t" ++ attrs) ++ String Pptx.gt (txt ++ "</a:t>"))).
  rewrite stripFrom_tag by exact Ha.
  rewrite (stripFrom_keep _ _ Ht).
  change (Pptx.stripFrom 0 "</a:t>") with EmptyString.
  apply str_app_nil_r.
Qed.

(** What the pattern matches at the start of a text is a run, and the
    text begins with it. *)
Lemma matchRunAt_spec (s m : string) :
  Pptx.matchRunAt s = Some m ->
  exists attrs txt rest,
    s = m ++ rest /\ m = textRun attrs txt
    /\ allChars Pptx.not_gt attrs = true /\ allChars Pptx.not_lt txt = true.
Proof.
  unfold Pptx.matchRunAt. intros H.
  destruct (JS.startsWith s "<a:t") eqn:Hstart; [|discriminate].
  unfold JS.startsWith in Hstart. destruct (prefix_app _ _ Hstart) as [r0 ->].
  change (JS.drop 4 ("<a:t" ++ r0)) with r0 in H.
  destruct (JS.span Pptx.not_gt r0) as [attrs r1] eqn:Hattrs.
  destruct r1 as [|c r1]; [discriminate|].
  destruct (JS.span Pptx.not_lt r1) as [txt r2] eqn:Htxt.
  destruct (JS.startsWith r2 "</a:t>") eqn:Hend; [|discriminate].
  injection H as <-.
  unfold JS.startsWith in Hend. destruct (prefix_app _ _ Hend) as [rest ->].
  apply span_spec in Hattrs. destruct Hattrs as [-> [Ha Hc]].
  apply span_spec in Htxt. destruct Htxt as [-> [Ht _]].
  unfold Pptx.not_gt in Hc. apply negb_false_iff in Hc. apply Ascii.eqb_eq in Hc. subst c.
  exists attrs, txt, rest. split; [|split; [reflexivity | split; assumption]].
  change ">" with (String Pptx.gt EmptyString).
  cbn [append]. rewrite !str_app_assoc. cbn [append]. rewrite !str_app_assoc. reflexivity.
Qed.

Lemma scanRuns_In (s : string) (k : nat) (m : string) :
  In m (Pptx.scanRuns k s) -> exists s', Pptx.matchRunAt s' = Some m.
Proof.
  revert k. induction s as [|c s IH]; intros k H; [destruct H|].
  cbn [Pptx.scanRuns] in H. destruct k as [|k]; [|exact (IH _ H)].
  destruct (Pptx.matchRunAt (String c s)) as [m'|] eqn:E; [|exact (IH _ H)].
  destruct H as [<- | H]; [exists (String c s); exact E | exact (IH _ H)].
Qed.

Lemma scanRuns_skip_all (s : string) (k : nat) :
  String.length s <= k -> Pptx.scanRuns k s = [].
Proof.
  revert k. induction s as [|c s IH]; intros k H; [reflexivity|].
  simpl in H. destruct k as [|k]; [lia|]. cbn [Pptx.scanRuns]. apply IH. lia.
Qed.

Lemma matchRunAt_textRun (attrs txt : string) :
  allChars Pptx.not_gt attrs = true ->
  allChars Pptx.not_lt txt = true ->
  Pptx.matchRunAt (textRun attrs txt) = Some (textRun attrs txt).
Proof.
  intros Ha Ht. unfold Pptx.matchRunAt, textRun.
  change (JS.startsWith ("<a:t" ++ attrs ++ ">" ++ txt ++ "</a:t>") "<a:t")
    with (String.prefix EmptyString (attrs ++ ">" ++ txt ++ "</a:t>")).
  replace (String.prefix EmptyString (attrs ++ ">" ++ txt ++ "</a:t>")) with true
    by (destruct (attrs ++ ">" ++ txt ++ "</a:t>"); reflexivity).
  change (JS.drop 4 ("<a:t" ++ attrs ++ ">" ++ txt ++ "</a:t>"))
    with (attrs ++ String Pptx.gt (txt ++ "</a:t>")).
  rewrite (span_intro Pptx.not_gt attrs (txt ++ "</a:t>") Pptx.gt Ha eq_refl).
  change (txt ++ "</a:t>") with (txt ++ String Pptx.lt "/a:t>").
  rewrite (span_intro Pptx.not_lt txt "/a:t>" Pptx.lt Ht eq_refl).
  reflexivity.
Qed.

(** X4.  Every match of the text-run pattern in a slide is a run (an opening
    tag without [>] inside, a text without [<], the closing tag), and
    removing its tags leaves exactly that text; conversely a run on its
    own is matched whole. *)
Theorem pptx_runs_give_their_text (content : string) (runs : list string) :
  Pptx.matchRuns content = Some runs ->
  runs <> []
  /\ Forall (fun m => exists attrs txt,
                 m = textRun attrs txt
                 /\ allChars Pptx.not_gt attrs = true
                 /\ allChars Pptx.not_lt txt = true
                 /\ Pptx.stripTags m = txt) runs
  /\ (forall attrs txt,
         allChars Pptx.not_gt attrs = true -> allChars Pptx.not_lt txt = true ->
         Pptx.matchRuns (textRun attrs txt) = Some [textRun attrs txt]).
Proof.
  unfold Pptx.matchRuns. intros H. split; [|split].
  - destruct (Pptx.scanRuns 0 content); [discriminate | injection H as <-; discriminate].
  - assert (Hruns : runs = Pptx.scanRuns 0 content).
    { destruct (Pptx.scanRuns 0 content); [discriminate | injection H as <-; reflexivity]. }
    apply Forall_forall. intros m Hm. rewrite Hruns in Hm.
    destruct (scanRuns_In _ _ _ Hm) as [s' Hs'].
    destruct (matchRunAt_spec _ _ Hs') as [attrs [txt [_ [_ [-> [Ha Ht]]]]]].
    exists attrs, txt. repeat split; try assumption. apply stripTags_textRun; assumption.
  - intros attrs txt Ha Ht.
    assert (Hscan : Pptx.scanRuns 0 (textRun attrs txt) = [textRun attrs txt]).
    { pose proof (matchRunAt_textRun attrs txt Ha Ht) as Hm.
      unfold textRun in *.
      change ("<a:t" ++ attrs ++ ">" ++ txt ++ "</a:t>")
        with (String Pptx.lt ("a:t" ++ attrs ++ ">" ++ txt ++ "</a:t>")) in *.
      cbn [Pptx.scanRuns]. rewrite Hm. f_equal.
      apply scanRuns_skip_all. cbn [String.length]. lia. }
    rewrite Hscan. reflexivity.
Qed.

(** The theorem on a slide with two runs. *)
Lemma pptx_runs_give_their_text_witness :
  Forall (fun m => exists attrs txt,
              m = textRun attrs txt
              /\ allChars Pptx.not_gt attrs = true
              /\ allChars Pptx.not_lt txt = true
              /\ Pptx.stripTags m = txt)
         ["<a:t>Hello</a:t>"; "<a:t x=1>World</a:t>"].
Proof.
  exact (proj1 (proj2 (pptx_runs_give_their_text
                         "<a:p><a:t>Hello</a:t><a:r><a:t x=1>World</a:t></a:r>"
                         ["<a:t>Hello</a:t>"; "<a:t x=1>World</a:t>"] eq_refl))).
Defined.

(** ** The text of a presentation *)

Lemma pptxSlides_closed (St : Type) (files : ZipFiles) (contentOf : string -> string)
  (slideFiles : list string) (fullText : string) (s : St) :
  (forall name, In name slideFiles ->
                OpenAIService.asText files name = Resolved (contentOf name)) ->
  OpenAIService.pptxSlides files slideFiles fullText s
  = (Resolved (fullText
               ++ String.concat EmptyString
                    (map (fun name => slideText (contentOf name)) slideFiles)),
     s, []).
Proof.
  revert fullText. induction slideFiles as [|name rest IH]; intros fullText Hall.
  - cbn. rewrite str_app_nil_r. reflexivity.
  - cbn [OpenAIService.pptxSlides]. unfold bind at 1. unfold await at 1.
    rewrite (Hall name (or_introl eq_refl)).
    cbn [map]. rewrite concat_cons_nosep. unfold slideText at 1.
    destruct (Pptx.matchRuns (contentOf name)) as [runs|].
    + rewrite IH by (intros n Hn; apply Hall; right; exact Hn).
      rewrite <- !str_app_assoc. reflexivity.
    + rewrite IH by (intros n Hn; apply Hall; right; exact Hn). reflexivity.
Qed.

Lemma concat_all_empty (xs : list string) :
  Forall (fun x => x = EmptyString) xs -> String.concat EmptyString xs = EmptyString.
Proof.
  induction 1 as [|x xs Hx _ IH]; [reflexivity|].
  rewrite concat_cons_nosep, Hx, IH. reflexivity.
Qed.

(** X5.  When the archive opens and its slide entries decode, the text of a
    presentation is made of its slide entries only (the entries named
    [ppt/slides/slide...xml]), in the order of the archive: for each slide
    with text runs, the texts of the runs joined by spaces and a line
    feed.  The message that no readable text was found is given when that
    text is empty, in particular when no slide has a run. *)
Theorem pptx_text_of_slides (P : Platform) (St : Type) (file : File.t) (s : St)
  (buf : list Byte.byte) (files : ZipFiles) (contentOf : string -> string) :
  File.arrayBuffer file = Resolved buf ->
  PizZip_files P buf = Resolved files ->
  (forall name, In name (filter OpenAIService.isSlide (map fst files)) ->
                OpenAIService.asText files name = Resolved (contentOf name)) ->
  OpenAIService.extractPptxText P file s
  = (Resolved (JS.or_else
                 (String.concat EmptyString
                    (map (fun name => slideText (contentOf name))
                         (filter OpenAIService.isSlide (map fst files))))
                 ("Unable to extract readable text from: " ++ File.name file)),
     s, [])
  /\ ((forall name, In name (filter OpenAIService.isSlide (map fst files)) ->
                    Pptx.matchRuns (contentOf name) = None) ->
      OpenAIService.extractPptxText P file s
      = (Resolved ("Unable to extract readable text from: " ++ File.name file), s, [])).
Proof.
  intros Hbuf Hzip Hslides.
  assert (Hrun : OpenAIService.extractPptxText P file s
    = (Resolved (JS.or_else
                   (String.concat EmptyString
                      (map (fun name => slideText (contentOf name))
                           (filter OpenAIService.isSlide (map fst files))))
                   ("Unable to extract readable text from: " ++ File.name file)),
       s, [])).
  { unfold OpenAIService.extractPptxText, tryCatch, OpenAIService.pptxText.
    unfold bind at 1. unfold await at 1. rewrite Hbuf.
    unfold bind at 1. unfold await at 1. rewrite Hzip.
    cbv zeta. unfold bind at 1.
    rewrite (pptxSlides_closed St files contentOf _ EmptyString s Hslides).
    reflexivity. }
  split; [exact Hrun|]. intros Hnone. rewrite Hrun.
  rewrite concat_all_empty; [reflexivity|].
  apply Forall_forall. intros x Hx. apply in_map_iff in Hx.
  destruct Hx as [name [<- Hname]]. unfold slideText. rewrite (Hnone name Hname). reflexivity.
Qed.

(** The theorem on a presentation with one slide of two runs. *)
Lemma pptx_text_of_slides_witness :
  OpenAIService.extractPptxText Demo.online (UploadedFile.file Demo.talkPptx) tt
  = (Resolved ("Title Body" ++ JS.nl), tt, []).
Proof.
  refine (proj1 (pptx_text_of_slides Demo.online unit (UploadedFile.file Demo.talkPptx) tt []
                   [("ppt/slides/slide1.xml", Resolved "<a:p><a:t>Title</a:t><a:t>Body</a:t></a:p>");
                    ("ppt/presentation.xml", Resolved "<p:presentation/>")]
                   (fun _ => "<a:p><a:t>Title</a:t><a:t>Body</a:t></a:p>")
                   eq_refl eq_refl _)).
  intros name H. vm_compute in H. destruct H as [<- | []]. reflexivity.
Defined.

(** ** What the methods of the service leave behind *)

Section ServiceFrames.
Variable P : Platform.

Lemma Promise_all_extract_effectFree (files : list UploadedFile.t) :
  effectFree (Promise_all (map (@OpenAIService.extractFile P (OpenAIService.t P)) files)).
Proof.
  induction files as [|file files IH]; cbn [map Promise_all]; [apply effectFree_ret|].
  apply effectFree_bind.
  - intros s. destruct (extractFile_cases P _ file s) as [[x [Hx _]] | [_ Hx]];
      rewrite Hx; eexists; reflexivity.
  - intros x. apply effectFree_bind; [exact IH|]. intros xs. apply effectFree_ret.
Qed.

(** [uploadFiles], whatever its outcome: the contents and the index only
    grow at their ends, nothing else changes. *)
Lemma uploadFiles_final (files : list UploadedFile.t) (s : OpenAIService.t P) :
  exists extracted added,
    final (OpenAIService.uploadFiles P files s)
    = {| OpenAIService.client := OpenAIService.client s;
         OpenAIService.fileContents := (OpenAIService.fileContents s ++ extracted)%list;
         OpenAIService.systemInstructions := OpenAIService.systemInstructions s;
         OpenAIService.vectorStore :=
           {| VectorStoreService.vectorStore :=
                match VectorStoreService.vectorStore (OpenAIService.vectorStore s) with
                | Some store =>
                    Some {| MemoryVectorStore.embeddings := MemoryVectorStore.embeddings store;
                            MemoryVectorStore.memoryVectors :=
                              (MemoryVectorStore.memoryVectors store ++ added)%list |}
                | None => None
                end;
              VectorStoreService.embeddings :=
                VectorStoreService.embeddings (OpenAIService.vectorStore s);
              VectorStoreService.textSplitter :=
                VectorStoreService.textSplitter (OpenAIService.vectorStore s) |} |}
    /\ (outcome (OpenAIService.uploadFiles P files s) = Resolved tt ->
        map ExtractedFile.name extracted = map UploadedFile.name files).
Proof.
  assert (Hsame : s = {| OpenAIService.client := OpenAIService.client s;
         OpenAIService.fileContents := (OpenAIService.fileContents s ++ [])%list;
         OpenAIService.systemInstructions := OpenAIService.systemInstructions s;
         OpenAIService.vectorStore :=
           {| VectorStoreService.vectorStore :=
                match VectorStoreService.vectorStore (OpenAIService.vectorStore s) with
                | Some store =>
                    Some {| MemoryVectorStore.embeddings := MemoryVectorStore.embeddings store;
                            MemoryVectorStore.memoryVectors :=
                              (MemoryVectorStore.memoryVectors store ++ [])%list |}
                | None => None
                end;
              VectorStoreService.embeddings :=
                VectorStoreService.embeddings (OpenAIService.vectorStore s);
              VectorStoreService.textSplitter :=
                VectorStoreService.textSplitter (OpenAIService.vectorStore s) |} |}).
  { destruct s as [c fc instr [[[e mv]|] emb ts]]; cbn; rewrite ?app_nil_r; reflexivity. }
  destruct (OpenAIService.client s) as [c|] eqn:Hc.
  2:{ exists [], []. split.
      - unfold OpenAIService.uploadFiles, bind, this. cbn iota. rewrite Hc.
        unfold final, throw. cbn [fst snd]. exact Hsame.
      - unfold OpenAIService.uploadFiles, bind, this. cbn iota. rewrite Hc. discriminate. }
  destruct (Promise_all_extract_effectFree files s) as [r Hall].
  destruct r as [extracted|e].
  2:{ exists [], []. split.
      - unfold OpenAIService.uploadFiles. unfold bind at 1. unfold this at 1. cbn iota.
        rewrite Hc. unfold tryCatch. unfold bind at 1. rewrite Hall.
        unfold final, throw. cbn [fst snd]. exact Hsame.
      - unfold OpenAIService.uploadFiles. unfold bind at 1. unfold this at 1. cbn iota.
        rewrite Hc. unfold tryCatch. unfold bind at 1. rewrite Hall. discriminate. }
  assert (Hnames : map ExtractedFile.name extracted = map UploadedFile.name files).
  { clear Hsame Hc. revert s extracted Hall.
    induction files as [|file files IH]; intros s extracted Hall.
    - cbn in Hall. injection Hall as <-. reflexivity.
    - cbn [map Promise_all] in Hall. unfold bind at 1 in Hall.
      destruct (extractFile_cases P _ file s) as [[x [Hx [[Hn _] _]]] | [_ Hx]];
        rewrite Hx in Hall; [|discriminate].
      unfold bind at 1 in Hall.
      destruct (Promise_all_extract_effectFree files s) as [r Hr]. rewrite Hr in Hall.
      destruct r as [xs|e]; [|discriminate]. cbn in Hall. injection Hall as <-.
      cbn [map]. rewrite Hn, (IH s xs Hr). reflexivity. }
  rewrite (uploadFiles_extracted P files s c extracted Hc Hall).
  destruct (VectorStoreService.isInitialized P (OpenAIService.vectorStore s)) eqn:Hinit.
  - unfold VectorStoreService.isInitialized in Hinit.
    destruct (VectorStoreService.vectorStore (OpenAIService.vectorStore s))
      as [store|] eqn:Hs; [|discriminate].
    destruct (VectorStoreService.embeddings (OpenAIService.vectorStore s))
      as [e|] eqn:He; [|discriminate].
    rewrite (addDocuments_spec P extracted _ store e Hs He).
    destruct (embedDocuments P _ _) as [vectors|err].
    + eexists extracted, _. split; [|intros _; exact Hnames].
      unfold final. cbn [fst snd]. unfold OpenAIService.set_vectorStore,
        OpenAIService.set_fileContents. cbn. rewrite Hc. reflexivity.
    + exists extracted, []. split; [|discriminate].
      unfold final. cbn [fst snd]. unfold OpenAIService.set_vectorStore,
        OpenAIService.set_fileContents. cbn. rewrite Hc.
      destruct s as [c0 fc instr [vs emb ts]]. cbn in *. subst vs emb.
      destruct store. cbn. rewrite app_nil_r. reflexivity.
  - exists extracted, []. split; [|intros _; exact Hnames].
    unfold final. cbn [fst snd]. unfold OpenAIService.set_fileContents. cbn. rewrite Hc.
    destruct s as [c0 fc instr [[[e mv]|] emb ts]]; cbn; rewrite ?app_nil_r; reflexivity.
Qed.

Lemma sendMessage_final (s : OpenAIService.t P) (message : string) :
  final (OpenAIService.sendMessage P message s) = s.
Proof.
  destruct (OpenAIService.client s) as [c|] eqn:Hc;
    [|rewrite (sendMessage_no_client P s message Hc); reflexivity].
  destruct (OpenAIService.fileContents s) as [|f fs] eqn:Hf;
    [rewrite (sendMessage_no_files P s message c Hc Hf); reflexivity|].
  rewrite (sendMessage_ready P s message c Hc) by (rewrite Hf; discriminate).
  destruct (OpenAIService.retrieveContext P message s) as [[r s1] calls].
  destruct r; reflexivity.
Qed.

End ServiceFrames.

(** X6.  Sending never changes the service: after [sendMessage], and after
    [handleSendMessage] of the page, the client, the contents, the
    instructions and the index are what they were, whatever the outcome;
    the page rejects without a call when it has no service or the service
    is not ready, and otherwise hands on what [sendMessage] does. *)
Theorem send_leaves_service (P : Platform) (s : OpenAIService.t P)
  (service : option (OpenAIService.t P)) (message : string) :
  final (OpenAIService.sendMessage P message s) = s
  /\ final (Index.handleSendMessage P message service) = service
  /\ match service with
     | None =>
         Index.handleSendMessage P message service
         = (Rejected (mkError "OpenAI service not initialized"), None, [])
     | Some svc =>
         if OpenAIService.isReady P svc
         then outcome (Index.handleSendMessage P message service)
              = outcome (OpenAIService.sendMessage P message svc)
              /\ trace (Index.handleSendMessage P message service)
                 = trace (OpenAIService.sendMessage P message svc)
         else Index.handleSendMessage P message service
              = (Rejected (mkError "Assistant not ready. Please upload files first."),
                 Some svc, [])
     end.
Proof.
  split; [apply sendMessage_final|].
  destruct service as [svc|]; [|split; reflexivity].
  unfold Index.handleSendMessage, bind, this. cbn iota.
  destruct (OpenAIService.isReady P svc); cbn [negb]; [|split; reflexivity].
  unfold tryCatch, within, throw.
  pose proof (sendMessage_final P svc message) as Hf.
  destruct (OpenAIService.sendMessage P message svc) as [[r s1] calls].
  unfold final in Hf. cbn [fst snd] in Hf. subst s1.
  destruct r; unfold final, outcome, trace; cbn [fst snd]; rewrite ?app_nil_r;
    repeat split; reflexivity.
Qed.

(** X7.  Whatever its outcome, [uploadFiles] only appends: the contents
    recorded before are a prefix of the contents after, and so are the
    indexed chunks; the client, the instructions and the embeddings
    client are unchanged.  When it resolves, the appended contents carry
    the names of the files, in order (a file listed twice is recorded
    twice). *)
Theorem uploadFiles_only_appends (P : Platform) (files : list UploadedFile.t)
  (s : OpenAIService.t P) :
  (exists extracted,
      OpenAIService.fileContents (final (OpenAIService.uploadFiles P files s))
      = (OpenAIService.fileContents s ++ extracted)%list
      /\ (outcome (OpenAIService.uploadFiles P files s) = Resolved tt ->
          map ExtractedFile.name extracted = map UploadedFile.name files))
  /\ (exists added,
         stored P (OpenAIService.vectorStore (final (OpenAIService.uploadFiles P files s)))
         = (stored P (OpenAIService.vectorStore s) ++ added)%list)
  /\ OpenAIService.client (final (OpenAIService.uploadFiles P files s))
     = OpenAIService.client s
  /\ OpenAIService.systemInstructions (final (OpenAIService.uploadFiles P files s))
     = OpenAIService.systemInstructions s
  /\ VectorStoreService.embeddings
       (OpenAIService.vectorStore (final (OpenAIService.uploadFiles P files s)))
     = VectorStoreService.embeddings (OpenAIService.vectorStore s).
Proof.
  destruct (uploadFiles_final P files s) as [extracted [added [Hfinal Hnames]]].
  rewrite Hfinal. cbn. split; [exists extracted; split; [reflexivity | exact Hnames]|].
  split; [|repeat split; reflexivity].
  unfold stored. cbn.
  destruct (VectorStoreService.vectorStore (OpenAIService.vectorStore s)) as [store|].
  - exists (map snd added). cbn. rewrite map_app. reflexivity.
  - exists []. reflexivity.
Qed.

(** X8.  The contents are recorded before the chunks are indexed: when the
    files of a non-empty batch can all be read and [uploadFiles] still
    rejects (the embeddings call failed), the contents of the batch are
    recorded all the same and the service is ready, while the index is
    what it was. *)
Theorem failed_indexing_leaves_ready (P : Platform) (files : list UploadedFile.t)
  (s : OpenAIService.t P) (c : Api.OpenAI) (e : Error) :
  OpenAIService.client s = Some c ->
  files <> [] ->
  (forall file, In file files -> ~ unreadable file) ->
  outcome (OpenAIService.uploadFiles P files s) = Rejected e ->
  OpenAIService.isReady P (final (OpenAIService.uploadFiles P files s)) = true
  /\ OpenAIService.vectorStore (final (OpenAIService.uploadFiles P files s))
     = OpenAIService.vectorStore s
  /\ exists extracted,
       OpenAIService.fileContents (final (OpenAIService.uploadFiles P files s))
       = (OpenAIService.fileContents s ++ extracted)%list
       /\ List.length extracted = List.length files.
Proof.
  intros Hc Hne Hok Hrej.
  destruct (Promise_all_extract P _ files s Hok) as [extracted [Hall Hext]].
  assert (Hlen : List.length extracted = List.length files).
  { symmetry. apply (Forall2_length Hext). }
  rewrite (uploadFiles_extracted P files s c extracted Hc Hall) in *.
  destruct (VectorStoreService.isInitialized P (OpenAIService.vectorStore s)) eqn:Hinit;
    [|discriminate Hrej].
  unfold VectorStoreService.isInitialized in Hinit.
  destruct (VectorStoreService.vectorStore (OpenAIService.vectorStore s))
    as [store|] eqn:Hs; [|discriminate].
  destruct (VectorStoreService.embeddings (OpenAIService.vectorStore s))
    as [emb|] eqn:He; [|discriminate].
  rewrite (addDocuments_spec P extracted _ store emb Hs He) in *.
  destruct (embedDocuments P _ _) as [vectors|err]; [discriminate Hrej|].
  unfold final. cbn [fst snd].
  split; [|split].
  - unfold OpenAIService.isReady, OpenAIService.set_vectorStore,
      OpenAIService.set_fileContents.
    cbn [OpenAIService.client OpenAIService.fileContents]. rewrite Hc.
    apply Nat.ltb_lt. rewrite length_app.
    destruct files; [congruence|]. cbn [List.length] in Hlen. lia.
  - destruct s; reflexivity.
  - exists extracted. split; [reflexivity | exact Hlen].
Qed.

(** The theorem on an upload whose chunks cannot be embedded. *)
Lemma failed_indexing_leaves_ready_witness :
  OpenAIService.isReady Demo2.unindexable
    (final (OpenAIService.uploadFiles Demo2.unindexable [Demo.notesTxt]
              (Demo.keyed Demo2.unindexable))) = true.
Proof.
  refine (proj1 (failed_indexing_leaves_ready Demo2.unindexable [Demo.notesTxt]
                   (Demo.keyed Demo2.unindexable) (OpenAIService.newClient "sk-demo")
                   (mkError "Failed to fetch") eq_refl _ _ eq_refl)).
  - discriminate.
  - intros file [<- | []] [_ H]. discriminate H.
Defined.

(** ** The services that can be reached *)

Section Reach.
Variable P : Platform.

Lemma keyed_initialized (s : OpenAIService.t P) :
  Lifecycle.keyed P s ->
  (VectorStoreService.isInitialized P (OpenAIService.vectorStore s) = true
   <-> OpenAIService.client s <> None).
Proof.
  unfold VectorStoreService.isInitialized.
  intros [[Hc [He Hs]] | [k [store [Hc [He [Hs _]]]]]]; rewrite Hc, He, Hs.
  - split; [discriminate | congruence].
  - split; [discriminate | reflexivity].
Qed.

Lemma Reachable_keyed (s : OpenAIService.t P) :
  Lifecycle.Reachable P s ->
  Lifecycle.keyed P s
  /\ VectorStoreService.textSplitter (OpenAIService.vectorStore s)
     = {| Api.chunkSize := 1000; Api.chunkOverlap := 200 |}.
Proof.
  intros H. induction H as [apiKey | s k _ IH | s files _ IH | s i _ IH | s m _ IH
                            | s i _ IH | s _ IH].
  - unfold OpenAIService.constructor. destruct apiKey as [key|].
    + destruct (JS.truthy key).
      * split; [|reflexivity]. right. exists key. eexists. repeat split.
      * split; [|reflexivity]. left. repeat split.
    + split; [|reflexivity]. left. repeat split.
  - destruct IH as [_ Hts]. split.
    + right. exists k. eexists. destruct s as [c fc instr [vs emb ts]]. repeat split.
    + destruct s as [c fc instr [vs emb ts]]. exact Hts.
  - destruct (uploadFiles_final P files s) as [extracted [added [-> _]]].
    destruct IH as [Hk Hts]. split; [|exact Hts].
    destruct Hk as [[Hc [He Hs]] | [k [store [Hc [He [Hs Hse]]]]]].
    + left. cbn. rewrite Hs. repeat split; assumption.
    + right. exists k. eexists. cbn. rewrite Hs. repeat split; try assumption.
  - destruct s as [c fc instr vs]. exact IH.
  - rewrite sendMessage_final. exact IH.
  - destruct s as [c fc instr vs]. exact IH.
  - destruct IH as [Hk Hts]. destruct s as [c fc instr [vs emb ts]]. split; [|exact Hts].
    cbn in *. destruct Hk as [[Hc [He Hs]] | [k [store [Hc [He [Hs Hse]]]]]].
    + left. cbn in *. subst. repeat split.
    + right. cbn in *. subst. exists k. eexists. repeat split.
Qed.

End Reach.

(** X9.  On every service that the methods of the class can produce, the
    client, the embeddings client and the index are all absent or all
    present (made from one API key), and the splitter keeps its
    configuration.  So a ready service always retrieves: the first call
    of [sendMessage] is the embedding of the message, and the branch that
    sends the documents in full is never taken. *)
Theorem reachable_service_always_retrieves (P : Platform) (s : OpenAIService.t P) :
  Lifecycle.Reachable P s ->
  Lifecycle.keyed P s
  /\ VectorStoreService.textSplitter (OpenAIService.vectorStore s)
     = {| Api.chunkSize := 1000; Api.chunkOverlap := 200 |}
  /\ (VectorStoreService.isInitialized P (OpenAIService.vectorStore s) = true
      <-> OpenAIService.client s <> None)
  /\ (OpenAIService.isReady P s = true ->
      forall message,
      exists e rest,
        trace (OpenAIService.sendMessage P message s) = Api.EmbedQuery e message :: rest).
Proof.
  intros H. destruct (Reachable_keyed P s H) as [Hk Hts].
  split; [exact Hk|]. split; [exact Hts|]. split; [apply keyed_initialized; exact Hk|].
  intros Hready message. apply isReady_iff in Hready. destruct Hready as [Hc Hf].
  destruct (OpenAIService.client s) as [c|] eqn:Ec; [|congruence].
  rewrite (sendMessage_ready P s message c Ec Hf), retrieveContext_cases.
  assert (Hinit : VectorStoreService.isInitialized P (OpenAIService.vectorStore s) = true).
  { apply (keyed_initialized P s Hk). rewrite Ec. discriminate. }
  rewrite Hinit, searchSimilar_cases.
  unfold VectorStoreService.isInitialized in Hinit.
  destruct (VectorStoreService.vectorStore (OpenAIService.vectorStore s)); [|discriminate].
  destruct (VectorStoreService.embeddings (OpenAIService.vectorStore s)) as [e|]; [|discriminate].
  destruct (embedQuery P e message); unfold trace; cbn [snd]; eexists; eexists; reflexivity.
Qed.

(** The theorem on a service made with a key and given two files. *)
Lemma reachable_service_always_retrieves_witness :
  exists e rest,
    trace (OpenAIService.sendMessage Demo.online "what?" (Demo.loaded Demo.online))
    = Api.EmbedQuery e "what?" :: rest.
Proof.
  refine (proj2 (proj2 (proj2 (reachable_service_always_retrieves Demo.online
                                 (Demo.loaded Demo.online) _))) eq_refl "what?").
  exact (Lifecycle.reach_uploadFiles Demo.online _ [Demo.notesTxt; Demo.paperPdf]
           (Lifecycle.reach_constructor Demo.online (Some "sk-demo"))).
Defined.

(** X10.  [setApiKey] installs a client and a fresh, empty index for the new
    key and keeps the recorded contents and the instructions: a service
    with contents stays ready but has forgotten its chunks, and its next
    request goes out with an empty context. *)
Theorem setApiKey_forgets_index (P : Platform) (s : OpenAIService.t P)
  (apiKey message : string) :
  let s' := final (OpenAIService.setApiKey P apiKey s) in
  let e := {| Api.openAIApiKey := apiKey; Api.modelName := "text-embedding-3-small" |} in
  OpenAIService.client s' = Some (OpenAIService.newClient apiKey)
  /\ OpenAIService.fileContents s' = OpenAIService.fileContents s
  /\ OpenAIService.systemInstructions s' = OpenAIService.systemInstructions s
  /\ OpenAIService.isReady P s' = OpenAIService.hasFiles P s
  /\ VectorStoreService.isInitialized P (OpenAIService.vectorStore s') = true
  /\ stored P (OpenAIService.vectorStore s') = []
  /\ (OpenAIService.fileContents s <> [] ->
      match embedQuery P e message with
      | Resolved _ =>
          completions (trace (OpenAIService.sendMessage P message s'))
          = [Api.ChatCompletionsCreate (OpenAIService.newClient apiKey)
               (OpenAIService.completionRequest (OpenAIService.systemInstructions s)
                                                EmptyString message)]
      | Rejected err =>
          OpenAIService.sendMessage P message s'
          = (Rejected err, s', [Api.EmbedQuery e message])
      end).
Proof.
  cbv zeta. destruct s as [c fc instr [vs emb ts]].
  split; [reflexivity|]. split; [reflexivity|]. split; [reflexivity|].
  split; [reflexivity|]. split; [reflexivity|]. split; [reflexivity|].
  intros Hf.
  match goal with |- context [OpenAIService.sendMessage P message ?x] => set (s' := x) end.
  rewrite (sendMessage_ready P s' message (OpenAIService.newClient apiKey) eq_refl Hf).
  rewrite retrieveContext_cases.
  change (VectorStoreService.isInitialized P (OpenAIService.vectorStore s')) with true.
  cbn iota. rewrite searchSimilar_cases.
  change (VectorStoreService.vectorStore (OpenAIService.vectorStore s'))
    with (Some (MemoryVectorStore.new P {| Api.openAIApiKey := apiKey;
                                            Api.modelName := "text-embedding-3-small" |})).
  change (VectorStoreService.embeddings (OpenAIService.vectorStore s'))
    with (Some {| Api.openAIApiKey := apiKey; Api.modelName := "text-embedding-3-small" |}).
  cbn iota.
  destruct (embedQuery P _ message) as [q|err]; [|reflexivity].
  unfold MemoryVectorStore.similaritySearchVectorWithScore.
  cbn [MemoryVectorStore.memoryVectors MemoryVectorStore.new MemoryVectorStore.ranked fold_right].
  rewrite firstn_nil. cbn [map JS.join String.concat].
  cbv zeta. unfold trace. cbn [snd app]. unfold completions. reflexivity.
Qed.

(** The theorem on a service with two documents whose key is replaced. *)
Lemma setApiKey_forgets_index_witness :
  completions
    (trace (OpenAIService.sendMessage Demo.online "what?"
              (final (OpenAIService.setApiKey Demo.online "sk-other"
                        (Demo.loaded Demo.online)))))
  = [Api.ChatCompletionsCreate (OpenAIService.newClient "sk-other")
       (OpenAIService.completionRequest EmptyString EmptyString "what?")].
Proof.
  refine (proj2 (proj2 (proj2 (proj2 (proj2 (proj2
            (setApiKey_forgets_index Demo.online (Demo.loaded Demo.online)
               "sk-other" "what?")))))) _).
  discriminate.
Defined.

(** X11.  New instructions, set by [updateSystemInstructions] or by
    [createAssistant], change nothing else in the service and head the
    system message of every later request, whose context is the one
    retrieved for the message. *)
Theorem instructions_take_effect (P : Platform) (s : OpenAIService.t P)
  (instructions message : string) :
  let s' := final (OpenAIService.updateSystemInstructions P instructions s) in
  final (OpenAIService.createAssistant P instructions s) = s'
  /\ OpenAIService.client s' = OpenAIService.client s
  /\ OpenAIService.fileContents s' = OpenAIService.fileContents s
  /\ OpenAIService.vectorStore s' = OpenAIService.vectorStore s
  /\ forall c request,
       In (Api.ChatCompletionsCreate c request)
          (trace (OpenAIService.sendMessage P message s')) ->
       exists context,
         outcome (OpenAIService.retrieveContext P message s) = Resolved context
         /\ request = OpenAIService.completionRequest instructions context message
         /\ Api.messages request
            = [ {| Api.role := Api.system;
                   Api.content := OpenAIService.systemPrompt instructions context |};
                {| Api.role := Api.user; Api.content := message |} ].
Proof.
  cbv zeta. split; [reflexivity|]. split; [reflexivity|]. split; [reflexivity|].
  split; [reflexivity|]. intros c request Hin.
  set (s' := final (OpenAIService.updateSystemInstructions P instructions s)) in *.
  assert (Hctx : OpenAIService.retrieveContext P message s'
                 = (outcome (OpenAIService.retrieveContext P message s), s',
                    trace (OpenAIService.retrieveContext P message s))).
  { rewrite !retrieveContext_cases.
    change (OpenAIService.vectorStore s') with (OpenAIService.vectorStore s).
    change (OpenAIService.fileContents s') with (OpenAIService.fileContents s).
    destruct (VectorStoreService.isInitialized P (OpenAIService.vectorStore s)); [|reflexivity].
    destruct (VectorStoreService.searchSimilar P message (Some 6) (OpenAIService.vectorStore s))
      as [[r vs] calls]. destruct r; reflexivity. }
  destruct (OpenAIService.client s') as [c0|] eqn:Hc;
    [|rewrite (sendMessage_no_client P s' message Hc) in Hin; destruct Hin].
  destruct (OpenAIService.fileContents s') as [|f fs] eqn:Hf;
    [rewrite (sendMessage_no_files P s' message c0 Hc Hf) in Hin; destruct Hin|].
  assert (Hne : OpenAIService.fileContents s' <> []) by (rewrite Hf; discriminate).
  rewrite (sendMessage_ready P s' message c0 Hc Hne), Hctx in Hin.
  pose proof (retrieveContext_completions P s message) as Hcalls.
  assert (Hno : ~ In (Api.ChatCompletionsCreate c request)
                     (trace (OpenAIService.retrieveContext P message s))).
  { intros Hi.
    assert (Hi' : In (Api.ChatCompletionsCreate c request)
                     (completions (trace (OpenAIService.retrieveContext P message s)))).
    { apply filter_In. split; [exact Hi | reflexivity]. }
    rewrite Hcalls in Hi'. destruct Hi'. }
  destruct (outcome (OpenAIService.retrieveContext P message s)) as [context|e];
    unfold trace in Hin at 1; cbn [snd] in Hin.
  - apply in_app_or in Hin. destruct Hin as [Hin | [Hin | []]]; [destruct (Hno Hin)|].
    injection Hin as _ <-. exists context. repeat split.
  - destruct (Hno Hin).
Qed.

(** The theorem on a service with two documents. *)
Lemma instructions_take_effect_witness :
  exists request,
    In (Api.ChatCompletionsCreate (OpenAIService.newClient "sk-demo") request)
       (trace (OpenAIService.sendMessage Demo.online "what?"
                 (final (OpenAIService.updateSystemInstructions Demo.online "Be brief."
                           (Demo.loaded Demo.online)))))
    /\ exists context,
         outcome (OpenAIService.retrieveContext Demo.online "what?" (Demo.loaded Demo.online))
         = Resolved context
         /\ request = OpenAIService.completionRequest "Be brief." context "what?"
         /\ Api.messages request
            = [ {| Api.role := Api.system;
                   Api.content := OpenAIService.systemPrompt "Be brief." context |};
                {| Api.role := Api.user; Api.content := "what?" |} ].
Proof.
  eexists. split.
  - right. left. reflexivity.
  - apply (proj2 (proj2 (proj2 (proj2
             (instructions_take_effect Demo.online (Demo.loaded Demo.online)
                "Be brief." "what?"))))
             (OpenAIService.newClient "sk-demo")).
    right. left. reflexivity.
Defined.

(** ** The chunks of one document *)

Lemma map_mapi_from {A B C : Type} (g : B -> C) (f : A -> nat -> B) (i : nat) (xs : list A) :
  map g (mapi_from f i xs) = mapi_from (fun x k => g (f x k)) i xs.
Proof.
  revert i. induction xs as [|x xs IH]; intros i; cbn; [reflexivity | rewrite IH; reflexivity].
Qed.

Lemma mapi_from_elements {A : Type} (i : nat) (xs : list A) :
  mapi_from (fun x _ => x) i xs = xs.
Proof.
  revert i. induction xs as [|x xs IH]; intros i; cbn; [reflexivity | rewrite IH; reflexivity].
Qed.

Lemma mapi_from_indices {A : Type} (i : nat) (xs : list A) :
  mapi_from (fun _ k => Z.of_nat k) i xs = map Z.of_nat (seq i (List.length xs)).
Proof.
  revert i. induction xs as [|x xs IH]; intros i; cbn; [reflexivity | rewrite IH; reflexivity].
Qed.

(** X12.  The documents built from an extracted file are its chunks in order,
    numbered 0, 1, 2, ... without gap, each with the name of the file and
    the number of chunks; and an initialised store sends the chunks of all
    files of a batch, file after file, to the embeddings endpoint. *)
Theorem chunks_numbered_in_order (P : Platform) (s : VectorStoreService.t P)
  (doc : ExtractedFile.t) (documents : list ExtractedFile.t) :
  let chunks := createDocuments P (VectorStoreService.textSplitter s)
                                [ExtractedFile.content doc] in
  let docs := VectorStoreService.docsWithMetadata P s doc in
  map pageContent docs = chunks
  /\ map (fun d => chunkIndex (metadata d)) docs
     = map Z.of_nat (seq 0 (List.length chunks))
  /\ Forall (fun d => fileName (metadata d) = ExtractedFile.name doc
                      /\ totalChunks (metadata d) = Z.of_nat (List.length chunks)) docs
  /\ (VectorStoreService.isInitialized P s = true ->
      exists e,
        trace (VectorStoreService.addDocuments P documents s)
        = [Api.EmbedDocuments e
             (flat_map (fun d => createDocuments P (VectorStoreService.textSplitter s)
                                                 [ExtractedFile.content d])
                       documents)]).
Proof.
  cbv zeta.
  assert (Htexts : forall d,
             map pageContent (VectorStoreService.docsWithMetadata P s d)
             = createDocuments P (VectorStoreService.textSplitter s) [ExtractedFile.content d]).
  { intros d. unfold VectorStoreService.docsWithMetadata, mapi.
    rewrite map_mapi_from. cbn [pageContent]. apply mapi_from_elements. }
  split; [apply Htexts|]. split; [|split].
  - unfold VectorStoreService.docsWithMetadata, mapi.
    rewrite map_mapi_from. cbn [metadata chunkIndex]. apply mapi_from_indices.
  - apply Forall_forall. intros d Hd. apply docsWithMetadata_chunkOf in Hd.
    destruct Hd as [Hn [Ht _]]. split; assumption.
  - intros Hinit. unfold VectorStoreService.isInitialized in Hinit.
    destruct (VectorStoreService.vectorStore s) as [store|] eqn:Hs; [|discriminate].
    destruct (VectorStoreService.embeddings s) as [e|] eqn:He; [|discriminate].
    rewrite (addDocuments_spec P documents s store e Hs He).
    exists (MemoryVectorStore.embeddings store).
    assert (Hall : map pageContent (flat_map (VectorStoreService.docsWithMetadata P s) documents)
                   = flat_map (fun d => createDocuments P (VectorStoreService.textSplitter s)
                                                        [ExtractedFile.content d]) documents).
    { induction documents as [|d ds IH]; [reflexivity|].
      cbn [flat_map]. rewrite map_app, Htexts, IH. reflexivity. }
    rewrite Hall. destruct (embedDocuments P _ _); reflexivity.
Qed.

(** The theorem on the service that holds two documents. *)
Lemma chunks_numbered_in_order_witness :
  exists e,
    trace (VectorStoreService.addDocuments Demo.online
             [ {| ExtractedFile.name := "a.txt"; ExtractedFile.content := "first" |};
               {| ExtractedFile.name := "b.txt"; ExtractedFile.content := "second" |} ]
             (OpenAIService.vectorStore (Demo.loaded Demo.online)))
    = [Api.EmbedDocuments e ["first"; "second"]].
Proof.
  exact (proj2 (proj2 (proj2
           (chunks_numbered_in_order Demo.online
              (OpenAIService.vectorStore (Demo.loaded Demo.online))
              {| ExtractedFile.name := "a.txt"; ExtractedFile.content := "first" |}
              [ {| ExtractedFile.name := "a.txt"; ExtractedFile.content := "first" |};
                {| ExtractedFile.name := "b.txt"; ExtractedFile.content := "second" |} ])))
           eq_refl).
Defined.

(** ** The page *)

(** X13.  The API-key form never throws and calls no hosted service.  A key
    that is blank once trimmed is ignored.  Otherwise the key is accepted
    exactly when the text as typed starts with [sk-] (a key typed after a
    blank is refused): the trimmed key becomes the page's key, is saved
    under [openai_api_key] and makes a new service with a client; it
    starts with [sk-] and has no white space at either end.  A refused
    key changes nothing but the toasts.  In both cases one toast is shown
    and validation is over. *)
Theorem key_form_validation (P : Platform) (st : Page.State P) :
  let st' := final (Page.handleSubmit P st) in
  let key := JS.trim (Page.keyInput st) in
  outcome (Page.handleSubmit P st) = Resolved tt
  /\ trace (Page.handleSubmit P st) = []
  /\ if negb (JS.truthy key) then st' = st
     else Page.isValidating st' = false
          /\ if JS.startsWith (Page.keyInput st) "sk-"
             then Page.apiKey st' = key
                  /\ Page.localStorage st' "openai_api_key" = Some key
                  /\ Page.openaiService st' = Some (OpenAIService.constructor P (Some key))
                  /\ OpenAIService.client (OpenAIService.constructor P (Some key))
                     = Some (OpenAIService.newClient key)
                  /\ JS.startsWith key "sk-" = true
                  /\ JS.trim key = key
                  /\ Page.toasts st'
                     = (Page.toasts st
                        ++ [ {| title := "API Key Set Successfully";
                                description := "You can now start uploading files and chatting with your documents.";
                                destructive := false |} ])%list
             else Page.apiKey st' = Page.apiKey st
                  /\ Page.openaiService st' = Page.openaiService st
                  /\ Page.localStorage st' = Page.localStorage st
                  /\ Page.toasts st'
                     = (Page.toasts st
                        ++ [ {| title := "Invalid API Key";
                                description := "Please check your OpenAI API key and try again.";
                                destructive := true |} ])%list.
Proof.
  cbv zeta.
  assert (Hrun : Page.handleSubmit P st
                 = (Resolved tt, final (Page.handleSubmit P st), [])).
  { unfold Page.handleSubmit, bind, this. cbn iota.
    destruct (JS.truthy (JS.trim (Page.keyInput st))); cbn [negb]; [|reflexivity].
    destruct (JS.startsWith (Page.keyInput st) "sk-"); reflexivity. }
  split; [rewrite Hrun; reflexivity|]. split; [rewrite Hrun; reflexivity|]. clear Hrun.
  unfold Page.handleSubmit, bind, this. cbn iota.
  destruct (JS.truthy (JS.trim (Page.keyInput st))) eqn:Htruthy; cbn [negb];
    [|reflexivity].
  destruct (JS.startsWith (Page.keyInput st) "sk-") eqn:Hsk; cbn [negb].
  - pose proof (trim_keeps_prefix_sk _ Hsk) as Hkey.
    split; [reflexivity|]. split; [reflexivity|]. split; [reflexivity|].
    split; [reflexivity|].
    split.
    { unfold OpenAIService.constructor. rewrite Htruthy. reflexivity. }
    split; [exact Hkey|]. split; [apply trim_idempotent | reflexivity].
  - repeat split; reflexivity.
Qed.

(** The theorem on a valid key typed with a blank at its end. *)
Lemma key_form_validation_witness :
  Page.apiKey (final (Page.handleSubmit Demo.online Demo2.typedKey)) = "sk-demo".
Proof.
  exact (proj1 (proj2 (proj2 (proj2 (key_form_validation Demo.online Demo2.typedKey))))).
Defined.

(** X14.  A key set on the page survives a reload: the mount effect of a new
    page finds it in the local storage, makes it the page's key and makes
    a service with a client for it.  The files, the recorded contents and
    the instructions do not survive: the new page has no file, default
    instructions and a service that is not ready. *)
Theorem key_survives_reload (P : Platform) (st : Page.State P) (key : string) :
  JS.truthy key = true ->
  let saved := Page.localStorage (final (Page.handleApiKeySet P key st)) in
  let st' := final (Page.onMount P (Page.initial P saved)) in
  saved "openai_api_key" = Some key
  /\ Page.apiKey st' = key
  /\ Page.openaiService st' = Some (OpenAIService.constructor P (Some key))
  /\ OpenAIService.client (OpenAIService.constructor P (Some key))
     = Some (OpenAIService.newClient key)
  /\ OpenAIService.isReady P (OpenAIService.constructor P (Some key)) = false
  /\ Page.uploadedFiles st' = []
  /\ Page.systemInstructions st' = Page.DEFAULT_INSTRUCTIONS.
Proof.
  intros Hkey. cbv zeta.
  set (saved := Page.localStorage (final (Page.handleApiKeySet P key st))).
  assert (Hsaved : saved "openai_api_key" = Some key) by reflexivity.
  assert (Hmount : final (Page.onMount P (Page.initial P saved))
                   = final ((bind (Page.setApiKey P key)
                               (fun _ => Page.setOpenaiService P
                                           (Some (OpenAIService.constructor P (Some key)))))
                              (Page.initial P saved))).
  { unfold Page.onMount. unfold bind at 1. unfold this at 1. cbn iota.
    change (Page.localStorage (Page.initial P saved) "openai_api_key")
      with (saved "openai_api_key").
    rewrite Hsaved, Hkey. reflexivity. }
  rewrite Hmount.
  split; [exact Hsaved|]. split; [reflexivity|]. split; [reflexivity|].
  unfold OpenAIService.constructor. rewrite Hkey.
  repeat split; reflexivity.
Qed.

(** The theorem on a page whose key is set, then reloaded. *)
Lemma key_survives_reload_witness :
  Page.apiKey
    (final (Page.onMount Demo.online
              (Page.initial Demo.online
                 (Page.localStorage
                    (final (Page.handleApiKeySet Demo.online "sk-demo" Demo2.typedKey))))))
  = "sk-demo".
Proof.
  exact (proj1 (proj2 (key_survives_reload Demo.online Demo2.typedKey "sk-demo" eq_refl))).
Defined.

(** X15.  [handleFilesChange] never throws: an error of the upload is caught and
    shown as a toast.  The list of files is always replaced.  With a
    service and a non-empty list, the whole list is given to
    [uploadFiles] (so a list that repeats earlier files has them recorded
    again, and a shorter list removes nothing from the service: its
    contents only grow); loading is over at the end; when the upload
    succeeds the page's instructions are given to the service and the
    chat tab is opened, when it fails the tab and the service's
    instructions stay.  Without service, or with an empty list, nothing
    else happens. *)
Theorem handleFilesChange_outcome (P : Platform) (st : Page.State P)
  (files : list UploadedFile.t) :
  let run := Page.handleFilesChange P files st in
  outcome run = Resolved tt
  /\ Page.uploadedFiles (final run) = files
  /\ Page.systemInstructions (final run) = Page.systemInstructions st
  /\ (forall svc svc',
         Page.openaiService st = Some svc -> Page.openaiService (final run) = Some svc' ->
         exists extracted,
           OpenAIService.fileContents svc'
           = (OpenAIService.fileContents svc ++ extracted)%list)
  /\ match Page.openaiService st with
     | Some svc =>
         if (0 <? List.length files)%nat
         then
           let upload := OpenAIService.uploadFiles P files svc in
           Page.isLoading (final run) = false
           /\ trace run = trace upload
           /\ match outcome upload with
              | Resolved _ =>
                  Page.openaiService (final run)
                  = Some (OpenAIService.set_systemInstructions P
                            (Page.systemInstructions st) (final upload))
                  /\ Page.activeTab (final run) = "chat"
                  /\ Page.toasts (final run)
                     = (Page.toasts st
                        ++ [ {| title := "Files processed successfully";
                                description := "Your documents are now ready for analysis. You can start chatting!";
                                destructive := false |} ])%list
              | Rejected _ =>
                  Page.openaiService (final run) = Some (final upload)
                  /\ Page.activeTab (final run) = Page.activeTab st
                  /\ Page.toasts (final run)
                     = (Page.toasts st
                        ++ [ {| title := "Error processing files";
                                description := "Failed to upload and process files. Please try again.";
                                destructive := true |} ])%list
              end
         else Page.openaiService (final run) = Some svc
              /\ Page.isLoading (final run) = Page.isLoading st
              /\ Page.toasts (final run) = Page.toasts st
              /\ trace run = []
     | None =>
         Page.openaiService (final run) = None
         /\ Page.isLoading (final run) = Page.isLoading st
         /\ Page.toasts (final run) = Page.toasts st
         /\ trace run = []
     end.
Proof.
  cbv zeta.
  assert (Hmain :
    match Page.openaiService st with
    | Some svc =>
        if (0 <? List.length files)%nat
        then
          outcome (Page.handleFilesChange P files st) = Resolved tt
          /\ Page.uploadedFiles (final (Page.handleFilesChange P files st)) = files
          /\ Page.systemInstructions (final (Page.handleFilesChange P files st))
             = Page.systemInstructions st
          /\ Page.isLoading (final (Page.handleFilesChange P files st)) = false
          /\ trace (Page.handleFilesChange P files st)
             = trace (OpenAIService.uploadFiles P files svc)
          /\ match outcome (OpenAIService.uploadFiles P files svc) with
             | Resolved _ =>
                 Page.openaiService (final (Page.handleFilesChange P files st))
                 = Some (OpenAIService.set_systemInstructions P
                           (Page.systemInstructions st)
                           (final (OpenAIService.uploadFiles P files svc)))
                 /\ Page.activeTab (final (Page.handleFilesChange P files st)) = "chat"
                 /\ Page.toasts (final (Page.handleFilesChange P files st))
                    = (Page.toasts st
                       ++ [ {| title := "Files processed successfully";
                               description := "Your documents are now ready for analysis. You can start chatting!";
                               destructive := false |} ])%list
             | Rejected _ =>
                 Page.openaiService (final (Page.handleFilesChange P files st))
                 = Some (final (OpenAIService.uploadFiles P files svc))
                 /\ Page.activeTab (final (Page.handleFilesChange P files st))
                    = Page.activeTab st
                 /\ Page.toasts (final (Page.handleFilesChange P files st))
                    = (Page.toasts st
                       ++ [ {| title := "Error processing files";
                               description := "Failed to upload and process files. Please try again.";
                               destructive := true |} ])%list
             end
        else Page.handleFilesChange P files st
             = (Resolved tt, final (Page.setUploadedFiles P files st), [])
    | None => Page.handleFilesChange P files st
              = (Resolved tt, final (Page.setUploadedFiles P files st), [])
    end).
  { destruct (Page.openaiService st) as [svc|] eqn:Hsvc.
    2:{ unfold Page.handleFilesChange, bind, this, Page.setUploadedFiles, assign, ret.
        cbn iota. rewrite Hsvc. destruct (0 <? List.length files)%nat; reflexivity. }
    destruct (0 <? List.length files)%nat eqn:Hlen.
    2:{ unfold Page.handleFilesChange, bind, this, Page.setUploadedFiles, assign, ret.
        cbn iota. rewrite Hsvc, Hlen. reflexivity. }
    unfold Page.handleFilesChange, bind, this, Page.setUploadedFiles, assign.
    cbn iota. rewrite Hsvc, Hlen.
    unfold Page.tryFinally, tryCatch, Page.onService, Page.setIsLoading,
      Page.setActiveTab, Page.toast, assign, OpenAIService.createAssistant, bind.
    cbn -[OpenAIService.uploadFiles].
    destruct (OpenAIService.uploadFiles P files svc) as [[r s1] calls].
    destruct r; unfold outcome, final, trace; cbn; rewrite ?app_nil_r; repeat split. }
  destruct (Page.openaiService st) as [svc|] eqn:Hsvc.
  - destruct (0 <? List.length files)%nat.
    + destruct Hmain as [H1 [H2 [H3 [H4 [H5 H6]]]]].
      split; [exact H1|]. split; [exact H2|]. split; [exact H3|]. split.
      * intros svc0 svc' E Hs'. injection E as <-.
        destruct (uploadFiles_final P files svc) as [extracted [added [Hfinal _]]].
        exists extracted.
        destruct (outcome (OpenAIService.uploadFiles P files svc));
          destruct H6 as [H6 _]; rewrite H6 in Hs'; injection Hs' as <-;
          rewrite Hfinal; reflexivity.
      * split; [exact H4|]. split; [exact H5 | exact H6].
    + rewrite Hmain. unfold final, outcome, trace. cbn.
      split; [reflexivity|]. split; [reflexivity|]. split; [reflexivity|]. split.
      * intros svc0 svc' E Hs'. rewrite Hsvc in Hs'. injection E as <-. injection Hs' as <-.
        exists []. rewrite app_nil_r. reflexivity.
      * rewrite Hsvc. repeat split; reflexivity.
  - rewrite Hmain. unfold final, outcome, trace. cbn.
    split; [reflexivity|]. split; [reflexivity|]. split; [reflexivity|]. split.
    + intros svc0 svc' E. discriminate E.
    + rewrite Hsvc. repeat split; reflexivity.
Qed.

(** The theorem on a page with a key where two files are dropped. *)
Lemma handleFilesChange_outcome_witness :
  exists extracted,
    OpenAIService.fileContents
      (OpenAIService.set_systemInstructions Demo.online Page.DEFAULT_INSTRUCTIONS
         (Demo.loaded Demo.online))
    = (OpenAIService.fileContents (Demo.keyed Demo.online) ++ extracted)%list.
Proof.
  refine (proj1 (proj2 (proj2 (proj2
            (handleFilesChange_outcome Demo.online Demo2.keyedPage
               [Demo.notesTxt; Demo.paperPdf]))))
            (Demo.keyed Demo.online)
            (OpenAIService.set_systemInstructions Demo.online Page.DEFAULT_INSTRUCTIONS
               (Demo.loaded Demo.online)) eq_refl _).
  vm_compute. reflexivity.
Defined.

(** ** Chunking *)



(** A text of 1700 characters on the demonstration platforms: a window of
    1000 characters and one of 900. *)
Example windows_examples :
  map String.length
      (createDocuments Demo.online
         (VectorStoreService.textSplitter (VectorStoreService.constructor Demo.online))
         [Demo.longText])
  = [1000; 900].
Proof. vm_compute. reflexivity. Qed.

Section Chunking.
Variable P : Platform.



End Chunking.



